(** * Integration Agent (serve.py): the staged session handler

    A shallow embedding of [serve.py]: the string post-processing
    ([format_response], brace escaping), the capability accumulation and the
    nine-stage dispatch of [agent_invoke] over the process-wide session store
    and the document store.  External collaborators (document loader, HTTP
    fetch, language-model agent, clock) are fields of a [World] record. *)

From Stdlib Require Import ZArith Ascii String List Lia.
From stdpp Require Import base option gmap strings list fin_maps.

Open Scope string_scope.

(** ** Python string operations used by the handler *)

Module PyStr.

Definition nl_char : ascii := "010"%char.
Definition nl : string := String nl_char "".

(** [s.startswith(p)] *)
Definition starts_with (p s : string) : bool := String.prefix p s.

(** [s.endswith(suf)]: some tail of [s] is [suf]. *)
Fixpoint ends_with (suf s : string) : bool :=
  String.eqb suf s ||
  match s with
  | EmptyString => false
  | String _ s' => ends_with suf s'
  end.

(** [p in s] *)
Fixpoint contains (p s : string) : bool :=
  starts_with p s ||
  match s with
  | EmptyString => false
  | String _ s' => contains p s'
  end.

(** Left-to-right, non-overlapping replacement; [skip] counts the
    characters of the current occurrence still to be dropped. *)
Fixpoint replace_from (old new : string) (skip : nat) (s : string) : string :=
  match s with
  | EmptyString => EmptyString
  | String c s' =>
      match skip with
      | S k => replace_from old new k s'
      | O =>
          if starts_with old s
          then new ++ replace_from old new (String.length old - 1) s'
          else String c (replace_from old new 0 s')
      end
  end.

(** With an empty pattern Python inserts [new] around every character. *)
Fixpoint surround_all (new s : string) : string :=
  match s with
  | EmptyString => new
  | String c s' => new ++ String c (surround_all new s')
  end.

(** [s.replace(old, new)] *)
Definition replace (old new s : string) : string :=
  match old with
  | EmptyString => surround_all new s
  | _ => replace_from old new 0 s
  end.

(** [s.split("\n")] for a one-character separator. *)
Fixpoint split_on (sep : ascii) (s : string) : list string :=
  match s with
  | EmptyString => [EmptyString]
  | String c s' =>
      if Ascii.eqb c sep then EmptyString :: split_on sep s'
      else match split_on sep s' with
           | h :: t => String c h :: t
           | [] => [String c EmptyString]
           end
  end.

(** [sep.join(parts)] *)
Definition join (sep : string) (parts : list string) : string :=
  String.concat sep parts.

End PyStr.

(** ** format_response *)

Definition fence : string := "```".

(** Length of the match of the pattern [```(python|jsx)\n?] anchored at the
    head of [s]: the alternation tries [python] first, the optional newline is
    greedy. *)
Definition fence_open_len (s : string) : option nat :=
  if PyStr.starts_with ("```python" ++ PyStr.nl) s then Some 10
  else if PyStr.starts_with "```python" s then Some 9
  else if PyStr.starts_with ("```jsx" ++ PyStr.nl) s then Some 7
  else if PyStr.starts_with "```jsx" s then Some 6
  else None.

(** [re.sub(r"```(python|jsx)\n?", "", s)]: every match, scanning left to
    right, is deleted. *)
Fixpoint re_sub_fence_open (skip : nat) (s : string) : string :=
  match s with
  | EmptyString => EmptyString
  | String c s' =>
      match skip with
      | S k => re_sub_fence_open k s'
      | O =>
          match fence_open_len s with
          | Some n => re_sub_fence_open (n - 1) s'
          | None => String c (re_sub_fence_open 0 s')
          end
      end
  end.

Definition format_response (frontend_function_response : string) : string :=
  let cleaned_response := re_sub_fence_open 0 frontend_function_response in
  let cleaned_response := PyStr.replace fence "" cleaned_response in
  cleaned_response.

(** The brace doubling applied before template substitution:
    [s.replace("{", "{{").replace("}", "}}")]. *)
Definition sanitise (s : string) : string :=
  PyStr.replace "}" "}}" (PyStr.replace "{" "{{" s).

(** ** Data model *)

(** Exceptions the handler can raise. *)
Inductive pyexn : Type :=
| TypeError                          (* iterating or subscripting [None] *)
| UnboundLocalError (var : string)   (* reading a local that was never assigned *)
| IndexError                         (* list index out of range *)
| NotFound (path : string)           (* [update] of a document that does not exist *)
| CollaboratorError.                 (* any exception raised inside a collaborator *)

(** A stored document: field name to value.  Timestamps and document
    references are kept by their string rendering. *)
Abbreviation document := (gmap string string).

(** [AgentInvokeRequest]; an [Optional] field left out is [None]. *)
Record AgentInvokeRequest : Type := {
  input : string;
  session_id : string;
  docslink : string;
  repo : string;
  project : string;
  suggested_files : option (list string);
  suggested_file_urls : option (list string);
  suggested_file_paths : option (list string);
  capabilityRefs : option (list string);
  chat_history : list (string * string);
}.

(** One value of [session_store]: the dictionaries the handler writes all
    carry ["step"]; ["suggested_files"] (when written) holds the request's
    optional list, every other entry is a string. *)
Record session_dict : Type := {
  step : Z;
  files_entry : option (option (list string));
  texts : gmap string string;
}.

(** A prompt message as the f-strings build it: literal text and the
    interpolated values, a list being rendered by Python as a list. *)
Inductive piece : Type :=
| Lit (s : string)
| Str (s : string)
| Seq (l : list string).

Record prompt : Type := {
  system_msg : list piece;
  user_msg : list piece;
}.

Inductive cval : Type :=
| CStr (s : string)
| CSeq (l : list string)
| CFiles (fs : option (list string))
| CChat (h : list (string * string)).

Abbreviation context := (list (string * cval)).

Inductive agent_result : Type :=
| AgentRaises
| AgentReturns (output : option string).   (* the ["output"] entry, if any *)

(** The JSON envelope of a fetched repository file. *)
Record envelope : Type := {
  env_content : option string;
  env_encoding : option string;
}.

(** External collaborators.  [None] stands for a raised exception. *)
Record World : Type := {
  load_documents : string -> option (list string);
  index_documents : list string -> option (list string);
  http_get_json : string -> option envelope;
  b64decode_utf8 : string -> option string;
  agent_executor : list string -> prompt -> context -> agent_result;
  now : nat -> string;
}.

Inductive output : Type :=
| OutStr (s : string)
| OutList (l : list string).

Record response : Type := {
  r_step : Z;
  r_message : string;
  r_output : output;
}.

(** Process and store state: the global [session_store], the document store
    keyed by document path, the number of clock readings and the prompts the
    agent was invoked with, latest first. *)
Record State : Type := {
  session_store : gmap string session_dict;
  db : gmap string document;
  clock : nat;
  agent_calls : list prompt;
}.

(** ** A state and exception monad *)

Inductive result (A : Type) : Type :=
| Ok (a : A)
| Raised (e : pyexn).
Arguments Ok {A} a.
Arguments Raised {A} e.

Definition M (A : Type) : Type := State -> result A * State.

Definition ret {A} (a : A) : M A := fun st => (Ok a, st).
Definition raise {A} (e : pyexn) : M A := fun st => (Raised e, st).
Definition bind {A B} (m : M A) (k : A -> M B) : M B :=
  fun st => match m st with
            | (Ok a, st') => k a st'
            | (Raised e, st') => (Raised e, st')
            end.

Notation "'let*' x ':=' m 'in' k" := (bind m (fun x => k))
  (at level 10, x name, m at level 100, k at level 200).
Notation "m1 ';;' m2" := (bind m1 (fun _ => m2))
  (at level 100, m2 at level 200, right associativity).

Definition gets {A} (f : State -> A) : M A := fun st => (Ok (f st), st).
Definition modify (f : State -> State) : M unit := fun st => (Ok tt, f st).

(** A collaborator's answer, [None] being its exception. *)
Definition collaborator {A} (o : option A) : M A :=
  match o with
  | Some a => ret a
  | None => raise CollaboratorError
  end.

(** Reading a local variable that is bound only on some paths. *)
Definition read_local {A} (var : string) (o : option A) : M A :=
  match o with
  | Some a => ret a
  | None => raise (UnboundLocalError var)
  end.

(** Iterating over an [Optional] list. *)
Definition iterable {A} (o : option (list A)) : M (list A) :=
  match o with
  | Some l => ret l
  | None => raise TypeError
  end.

Fixpoint mapM {A B} (f : A -> M B) (l : list A) : M (list B) :=
  match l with
  | [] => ret []
  | x :: xs => let* y := f x in let* ys := mapM f xs in ret (y :: ys)
  end.

Fixpoint forM_ {A} (f : A -> M unit) (l : list A) : M unit :=
  match l with
  | [] => ret tt
  | x :: xs => f x ;; forM_ f xs
  end.

(** ** Store primitives *)

Definition with_session_store (f : gmap string session_dict -> gmap string session_dict)
    (st : State) : State :=
  {| session_store := f (session_store st); db := db st;
     clock := clock st; agent_calls := agent_calls st |}.

Definition with_db (f : gmap string document -> gmap string document)
    (st : State) : State :=
  {| session_store := session_store st; db := f (db st);
     clock := clock st; agent_calls := agent_calls st |}.

(** [db.collection("projectFiles").document(name)] and
    [db.collection("projects").document(project_id)], as paths. *)
Definition project_file (name : string) : string := "projectFiles/" ++ name.
Definition project_ref (project_id : string) : string := "projects/" ++ project_id.

(** [session_store.get(session_id, {"step": 2})] *)
Definition default_session : session_dict :=
  {| step := 2; files_entry := None; texts := ∅ |}.

Definition session_get (store : gmap string session_dict) (sid : string) : session_dict :=
  default default_session (store !! sid).

(** [session_store[session_id] = sd] *)
Definition session_set (sid : string) (sd : session_dict) : M unit :=
  modify (with_session_store (insert sid sd)).

(** [session_dict.get(key, "")] *)
Definition text_of (sd : session_dict) (key : string) : string :=
  default "" (texts sd !! key).

(** [doc_ref.set(fields)]: the document is replaced. *)
Definition doc_set (path : string) (fields : document) : M unit :=
  modify (with_db (insert path fields)).

(** [doc_ref.update({"code": code})]: only an existing document can be
    updated. *)
Definition doc_update (path : string) (code : string) : M unit :=
  fun st =>
    match db st !! path with
    | Some d => (Ok tt, with_db (insert path (<["code" := code]> d)) st)
    | None => (Raised (NotFound path), st)
    end.

(** [doc_ref.get()]; [None] when [doc.exists] is false. *)
Definition doc_get (path : string) : M (option document) :=
  gets (fun st => db st !! path).

(** [fetch_capability_data(db, doc_path)] *)
Definition fetch_capability_data (doc_path : string) : M (option document) :=
  doc_get doc_path.

(** [response.get("output", dflt)] *)
Definition output_or (dflt : string) (o : option string) : string := default dflt o.

(** ** Capability accumulation (lines 170-224) *)

Record locals : Type := {
  capabilities_names : list string;
  capabilities_endPoints : list string;
  capabilities_headers : list string;
  capabilities_routeName : list string;
  capabilities_errorBody : list string;
  capabilities_requestBody : list string;
  capabilities_responseBody : list string;
  capabilities_responseGuidance : list string;
  capabilities_requestGuidance : list string;
  sanitized_capabilities_errorBody : option (list string);
  sanitized_capabilities_headers : option (list string);
  sanitized_capabilities_requestBody : option (list string);
  sanitized_capabilities_responseBody : option (list string);
  sanitized_capabilities_responseGuidance : option (list string);
}.

Definition no_capabilities : locals :=
  {| capabilities_names := []; capabilities_endPoints := [];
     capabilities_headers := []; capabilities_routeName := [];
     capabilities_errorBody := []; capabilities_requestBody := [];
     capabilities_responseBody := []; capabilities_responseGuidance := [];
     capabilities_requestGuidance := [];
     sanitized_capabilities_errorBody := None;
     sanitized_capabilities_headers := None;
     sanitized_capabilities_requestBody := None;
     sanitized_capabilities_responseBody := None;
     sanitized_capabilities_responseGuidance := None |}.

(** [doc_data.get(key, dflt)] *)
Definition field_or (key dflt : string) (doc_data : document) : string :=
  default dflt (doc_data !! key).

(** [if doc_data:] holds for a dictionary with at least one entry. *)
Definition truthy_doc (doc_data : option document) : bool :=
  match doc_data with
  | Some d => negb (bool_decide (d = ∅))
  | None => false
  end.

(** One iteration of [for doc_data in capability_docs]. *)
Definition accumulate (l : locals) (doc_data : option document) : locals :=
  match doc_data with
  | Some d =>
      if truthy_doc doc_data then
        let names := (capabilities_names l ++ [field_or "name" "No name" d])%list in
        let endPoints := (capabilities_endPoints l ++ [field_or "endPoint" "No endPoint" d])%list in
        let headers := (capabilities_headers l ++ [field_or "headers" "No headers" d])%list in
        let routeName := (capabilities_routeName l ++ [field_or "routeName" "No routeName" d])%list in
        let errorBody := (capabilities_errorBody l ++ [field_or "errorBody" "No errorBody" d])%list in
        let requestBody :=
          (capabilities_requestBody l ++ [field_or "requestBody" "No requestBody" d])%list in
        let responseBody :=
          (capabilities_responseBody l ++ [field_or "responseBody" "No responseBody" d])%list in
        let responseGuidance :=
          (capabilities_responseGuidance l ++ [field_or "responseGuidance" "No responseGuidance" d])%list in
        let requestGuidance :=
          (capabilities_requestGuidance l ++ [field_or "requestGuidance" "No requestGuidance" d])%list in
        {| capabilities_names := names; capabilities_endPoints := endPoints;
           capabilities_headers := headers; capabilities_routeName := routeName;
           capabilities_errorBody := errorBody; capabilities_requestBody := requestBody;
           capabilities_responseBody := responseBody;
           capabilities_responseGuidance := responseGuidance;
           capabilities_requestGuidance := requestGuidance;
           sanitized_capabilities_errorBody := Some (map sanitise errorBody);
           sanitized_capabilities_headers := Some (map sanitise headers);
           sanitized_capabilities_requestBody := Some (map sanitise requestBody);
           sanitized_capabilities_responseBody := Some (map sanitise responseBody);
           sanitized_capabilities_responseGuidance := Some (map sanitise responseGuidance) |}
      else l
  | None => l
  end.

Definition accumulate_all (capability_docs : list (option document)) : locals :=
  fold_left accumulate capability_docs no_capabilities.

(** [if request.capabilityRefs:] then fetch every path and accumulate. *)
Definition fetch_capabilities (refs : option (list string)) : M locals :=
  match refs with
  | Some ((_ :: _) as paths) =>
      let* capability_docs := mapM fetch_capability_data paths in
      ret (accumulate_all capability_docs)
  | _ => ret no_capabilities
  end.

(** ** The handler *)

(** The locals of [agent_invoke] that every stage can read once the
    preamble (lines 153-224) has run. *)
Record frame : Type := {
  session_data : session_dict;
  tools : list string;
  sanitised_github_file_contents : string;
  caps : locals;
}.

Definition truthy_list {A} (o : option (list A)) : bool :=
  match o with
  | Some (_ :: _) => true
  | _ => false
  end.

Section Handler.

Variable w : World.

(** [datetime.now()] *)
Definition datetime_now : M string :=
  fun st => (Ok (now w (clock st)),
             {| session_store := session_store st; db := db st;
                clock := S (clock st); agent_calls := agent_calls st |}).

(** [create_loader(docslink)]: the provider pages, split into documents. *)
Definition create_loader (link : string) : M (list string) :=
  collaborator (load_documents w link).

(** [create_tools(documents)]: the retriever built over the embedded
    documents, with the web search next to it. *)
Definition create_tools (documents : list string) : M (list string) :=
  collaborator (index_documents w documents).

(** [fetch_file_content(url)] *)
Definition fetch_file_content (url : string) : M string :=
  let* content_data := collaborator (http_get_json w url) in
  match env_content content_data, env_encoding content_data with
  | Some content, Some encoding =>
      if String.eqb encoding "base64"
      then collaborator (b64decode_utf8 w content)
      else ret "Content not found or not in base64 encoding."
  | _, _ => ret "Content not found or not in base64 encoding."
  end.

(** [AgentExecutor(...).ainvoke(context)], logging the prompt. *)
Definition ainvoke (tls : list string) (p : prompt) (ctx : context) : M (option string) :=
  fun st =>
    let st' := {| session_store := session_store st; db := db st;
                  clock := clock st; agent_calls := p :: agent_calls st |} in
    match agent_executor w tls p ctx with
    | AgentRaises => (Raised CollaboratorError, st')
    | AgentReturns o => (Ok o, st')
    end.

(** The dictionary passed to [doc_ref.set] by the stages. *)
Definition file_record (name code project_id created : string)
    (repoPath : option string) : document :=
  let d : document :=
    <["name" := name]> (<["createdAt" := created]>
      (<["project" := project_ref project_id]> (<["code" := code]> ∅))) in
  match repoPath with
  | Some p => <["repoPath" := p]> d
  | None => d
  end.

Definition set_file (name code project_id : string) (repoPath : option string) : M unit :=
  let* created := datetime_now in
  doc_set (project_file name) (file_record name code project_id created repoPath).

(** Lines 153-224. *)
Definition preamble (request : AgentInvokeRequest) : M frame :=
  let* sd := gets (fun st => session_get (session_store st) (session_id request)) in
  let* documents := create_loader (docslink request) in
  let* tls := create_tools documents in
  let* urls := iterable (suggested_file_urls request) in
  let* github_file_contents := mapM fetch_file_content urls in
  let concatenated_github_file_contents :=
    PyStr.join (PyStr.nl ++ PyStr.nl ++ "---" ++ PyStr.nl ++ PyStr.nl) github_file_contents in
  let* cs := fetch_capabilities (capabilityRefs request) in
  ret {| session_data := sd; tools := tls;
         sanitised_github_file_contents := sanitise concatenated_github_file_contents;
         caps := cs |}.

(** *** Stage 1: doc review *)

Definition prompt1 (request : AgentInvokeRequest) : prompt :=
  {| system_msg :=
       [Lit "You are an expert travel API integration developer, code specialist"];
     user_msg :=
       [Lit "1. Review the API provider docs here: "; Str (docslink request); Lit ".";
        Lit "2. Return the Payload / request body schema object required for the request, only include the required body parameters and the data structure. Note on each field when it is required.";
        Lit "3. Also return the Response data object and its data structure."] |}.

Definition stage1 (request : AgentInvokeRequest) (f : frame) : M response :=
  let ctx : context :=
    [("input", CStr ""); ("chat_history", CChat (chat_history request));
     ("docslink", CStr (docslink request))] in
  let* resp := ainvoke (tools f) (prompt1 request) ctx in
  let docReview_response := output_or "No backend endpoint action performed." resp in
  set_file "integrationStrategy.txt" docReview_response (project request) None ;;
  session_set (session_id request)
    {| step := 2; files_entry := Some (suggested_files request);
       texts := {[ "docReview_response" := docReview_response ]} |} ;;
  ret {| r_step := 1; r_message := "Doc review generated";
         r_output := OutStr (format_response docReview_response) |}.

(** *** Stage 2: backend endpoints *)

Definition prompt2 (routeName headers endPoints errorBody : list string) : prompt :=
  {| system_msg :=
       [Lit "You are an expert travel API integration developer, your mission is to generate a backend route in Python."];
     user_msg :=
       [Lit ("# Start your response with a comment and end your response with a comment." ++ PyStr.nl);
        Lit "Create a backend route that acts as an API proxy.";
        Lit "Do not use the provider docs, only use the data provided below for this request:";
        Lit "Route name: "; Seq routeName; Lit ".";
        Lit "Do not hardcode the payload.";
        Lit "Headers: "; Seq headers; Lit ".";
        Lit "Endpoint url: "; Seq endPoints; Lit ".";
        Lit ("Consider the error logging if required: " ++ PyStr.nl); Seq errorBody; Lit ".";
        Lit "Handle the response.";
        Lit "Ensure you handle allow all CORS.";
        Lit "Use a flask app that will host this backend locally on port 5000.";
        Lit "Add print statements for errors and the response.";
        Lit "Be concise, only respond with the code."] |}.

Definition stage2 (request : AgentInvokeRequest) (f : frame) : M response :=
  let c := caps f in
  let* headers := read_local "sanitized_capabilities_headers"
                    (sanitized_capabilities_headers c) in
  let* errorBody := read_local "sanitized_capabilities_errorBody"
                      (sanitized_capabilities_errorBody c) in
  let p := prompt2 (capabilities_routeName c) headers (capabilities_endPoints c) errorBody in
  let ctx : context :=
    [("input", CStr ""); ("chat_history", CChat (chat_history request));
     ("capabilities_endPoints", CSeq (capabilities_endPoints c));
     ("sanitized_capabilities_headers", CSeq headers);
     ("capabilities_routeName", CSeq (capabilities_routeName c));
     ("sanitized_capabilities_errorBody", CSeq errorBody)] in
  let* resp := ainvoke (tools f) p ctx in
  let backend_endpoint_response := output_or "No backend endpoint action performed." resp in
  let formatted_backend_response := format_response backend_endpoint_response in
  let* files := iterable (suggested_files request) in
  match List.find (PyStr.ends_with ".py") files with
  | Some file_name => set_file file_name formatted_backend_response (project request) None
  | None => set_file "app.py" formatted_backend_response (project request) None
  end ;;
  session_set (session_id request)
    {| step := 3; files_entry := Some (suggested_files request);
       texts := {[ "backend_endpoint_response" := backend_endpoint_response ]} |} ;;
  ret {| r_step := 2; r_message := "Backend endpoints generated";
         r_output := OutStr (format_response backend_endpoint_response) |}.

(** *** Stage 3: UI elements *)

Definition prompt3 (requestBody requestGuidance responseBody responseGuidance : list string)
    : prompt :=
  {| system_msg :=
       [Lit "You are an expert travel API integration developer, your mission is to generate required frontend UI elements in React."];
     user_msg :=
       [Lit ("// Start your response with a comment and end your response with a comment." ++ PyStr.nl);
        Lit "Create for me frontend react UI elements such as form fields (e.g. buttons, text fields, etc) and the display areas for the API responses.";
        Lit "Do not use the provider docs, only use the data provided below for this request:";
        Lit "See the required request payload object parameters to know what input fields are needed: ";
        Seq requestBody; Lit ".";
        Lit "Follow this guidance on how to use the request fields "; Seq requestGuidance; Lit ".";
        Lit "Structure the response according to the response data object: ";
        Seq responseBody; Lit ".";
        Lit "Follow this advice to structure the response properly: ";
        Seq responseGuidance; Lit ".";
        Lit "Keep all frontend code in a single component.";
        Lit "No dummy data.";
        Lit "Create the required state fields.";
        Lit "Only return React code. Be concise."] |}.

(** [file_path = suggested_file_paths[index]] *)
Definition subscript (paths : option (list string)) (index : nat) : M string :=
  match paths with
  | None => raise TypeError
  | Some ps =>
      match ps !! index with
      | Some p => ret p
      | None => raise IndexError
      end
  end.

Definition stage3 (request : AgentInvokeRequest) (f : frame) : M response :=
  let c := caps f in
  let frontend_function_response := text_of (session_data f) "frontend_function_response" in
  let sanitised_frontend_function_response := sanitise frontend_function_response in
  let sanitized_backend_endpoint_response :=
    text_of (session_data f) "sanitized_backend_endpoint_response" in
  let* requestBody := read_local "sanitized_capabilities_requestBody"
                        (sanitized_capabilities_requestBody c) in
  let* responseBody := read_local "sanitized_capabilities_responseBody"
                         (sanitized_capabilities_responseBody c) in
  let* responseGuidance := read_local "sanitized_capabilities_responseGuidance"
                             (sanitized_capabilities_responseGuidance c) in
  let p := prompt3 requestBody (capabilities_requestGuidance c) responseBody responseGuidance in
  let ctx : context :=
    [("input", CStr ""); ("chat_history", CChat (chat_history request));
     ("suggested_files", CFiles (suggested_files request));
     ("sanitized_capabilities_requestBody", CSeq requestBody);
     ("sanitized_capabilities_responseBody", CSeq responseBody);
     ("sanitized_capabilities_responseGuidance", CSeq responseGuidance)] in
  let* resp := ainvoke (tools f) p ctx in
  let ui_response := output_or "No UI update action performed." resp in
  let formatted_ui_response := format_response ui_response in
  let* files := iterable (suggested_files request) in
  forM_ (fun '(index, file_name) =>
           let* file_path := subscript (suggested_file_paths request) index in
           set_file file_name formatted_ui_response (project request) (Some file_path))
        (imap (fun index file_name => (index, file_name)) files) ;;
  session_set (session_id request)
    {| step := 4; files_entry := Some (suggested_files request);
       texts :=
         <["ui_response" := ui_response]>
           (<["sanitized_backend_endpoint_response" := sanitized_backend_endpoint_response]>
              {[ "sanitised_frontend_function_response" :=
                   sanitised_frontend_function_response ]}) |} ;;
  ret {| r_step := 3; r_message := "UI components created or updated";
         r_output := OutStr formatted_ui_response |}.

(** *** Stage 4: frontend request handler *)

Definition prompt4 (sanitized_backend_endpoint_response sanitized_ui_response : string)
    (requestBody requestGuidance responseBody responseGuidance routeName : list string)
    : prompt :=
  {| system_msg :=
       [Lit "You are an expert travel API integration developer, your mission is to generate a frontend API request handler in React."];
     user_msg :=
       [Lit ("// Note: Start your response with a comment (using '//') and also end your response with a comment (using '//')." ++ PyStr.nl);
        Lit "Generate React code for the frontend API request handler that will handle the request and response to the backend we have defined here: ";
        Str sanitized_backend_endpoint_response; Lit ".";
        Lit "Do not use the provider docs, only use the data provided below for this request:";
        Lit "See the UI fields we have here and write the API request handler to handle them: ";
        Str sanitized_ui_response; Lit ".";
        Lit "See the required request payload object parameters: "; Seq requestBody; Lit ".";
        Lit "Follow this guidance on how to use the request fields "; Seq requestGuidance; Lit ".";
        Lit "Structure the response fields according to the response data object: ";
        Seq responseBody; Lit ".";
        Lit "Follow this advice to structure the response properly: "; Seq responseGuidance;
        Lit "Return to me the code updated with the frontend API request handler component.";
        Lit "Do not hardcode the request fields, expect to receive it from the input fields.";
        Lit "Keep all frontend code in a single component.";
        Lit "Route name: "; Seq routeName;
        Lit "Assume the backend will be hosted on on http://localhost:5000/.";
        Lit "Only return React code. Use fetch instead of axios. Be concise."] |}.

Definition stage4 (request : AgentInvokeRequest) (f : frame) : M response :=
  let c := caps f in
  let backend_endpoint_response := text_of (session_data f) "backend_endpoint_response" in
  let ui_response := text_of (session_data f) "ui_response" in
  let sanitized_backend_endpoint_response := sanitise backend_endpoint_response in
  let sanitized_ui_response := sanitise ui_response in
  let* requestBody := read_local "sanitized_capabilities_requestBody"
                        (sanitized_capabilities_requestBody c) in
  let* responseBody := read_local "sanitized_capabilities_responseBody"
                         (sanitized_capabilities_responseBody c) in
  let* responseGuidance := read_local "sanitized_capabilities_responseGuidance"
                             (sanitized_capabilities_responseGuidance c) in
  let p := prompt4 sanitized_backend_endpoint_response sanitized_ui_response requestBody
             (capabilities_requestGuidance c) responseBody responseGuidance
             (capabilities_routeName c) in
  let* errorBody := read_local "sanitized_capabilities_errorBody"
                      (sanitized_capabilities_errorBody c) in
  let ctx : context :=
    [("input", CStr ""); ("chat_history", CChat (chat_history request));
     ("sanitized_backend_endpoint_response", CStr sanitized_backend_endpoint_response);
     ("sanitized_capabilities_errorBody", CSeq errorBody);
     ("sanitized_capabilities_requestBody", CSeq requestBody);
     ("sanitized_capabilities_responseBody", CSeq responseBody);
     ("sanitized_capabilities_responseGuidance", CSeq responseGuidance);
     ("sanitized_ui_response", CStr sanitized_ui_response);
     ("capabilities_routeName", CSeq (capabilities_routeName c))] in
  let* resp := ainvoke (tools f) p ctx in
  let frontend_function_response := output_or "No action performed." resp in
  let formatted_frontend_function_response := format_response frontend_function_response in
  let* files := iterable (suggested_files request) in
  forM_ (fun file_name =>
           doc_update (project_file file_name) formatted_frontend_function_response)
        files ;;
  session_set (session_id request)
    {| step := 9; files_entry := Some (suggested_files request);
       texts :=
         <["frontend_function_response" := frontend_function_response]>
           {[ "sanitized_backend_endpoint_response" :=
                sanitized_backend_endpoint_response ]} |} ;;
  ret {| r_step := 4; r_message := "Refactoring performed on suggested files";
         r_output := OutStr (format_response frontend_function_response) |}.

(** *** Stage 5: integration tests *)

Definition prompt5 (sanitised_frontend_function_response
                    sanitized_backend_endpoint_response link : string) : prompt :=
  {| system_msg :=
       [Lit "You are an expert Travel API Integrator focusing on quality assurance. "];
     user_msg :=
       [Lit "Your task now is to create backend in the same language as the provided backend code integration tests for the API provider based on the integration requirements identified in the previous steps.";
        Lit "Consider the functionalities proposed for integration and ensure the tests cover these functionalities effectively.";
        Lit "Write the code for the integration tests, nothing else, literally.";
        Lit (PyStr.nl ++ PyStr.nl ++ "Integration Actions from Step 2:" ++ PyStr.nl);
        Str sanitised_frontend_function_response; Lit PyStr.nl;
        Lit (PyStr.nl ++ "Backend Endpoint Result from Step 4:" ++ PyStr.nl);
        Str sanitized_backend_endpoint_response; Lit PyStr.nl;
        Lit (PyStr.nl ++ "Documentation Link: "); Str link; Lit PyStr.nl] |}.

Definition stage5 (request : AgentInvokeRequest) (f : frame) : M response :=
  let sanitized_backend_endpoint_response :=
    text_of (session_data f) "sanitized_backend_endpoint_response" in
  let sanitised_frontend_function_response :=
    text_of (session_data f) "sanitised_frontend_function_response" in
  let sanitized_docReview_response := text_of (session_data f) "sanitized_docReview_response" in
  let p := prompt5 sanitised_frontend_function_response sanitized_backend_endpoint_response
             (docslink request) in
  let ctx : context :=
    [("input", CStr ""); ("chat_history", CChat (chat_history request));
     ("sanitised_frontend_function_response", CStr sanitised_frontend_function_response);
     ("sanitized_backend_endpoint_response", CStr sanitized_backend_endpoint_response)] in
  let* resp := ainvoke (tools f) p ctx in
  let integration_tests_result := output_or "No integration tests action performed." resp in
  set_file "integration_tests.py" integration_tests_result (project request) None ;;
  session_set (session_id request)
    {| step := 8; files_entry := None;
       texts :=
         <["integration_tests_result" := integration_tests_result]>
           (<["sanitized_backend_endpoint_response" := sanitized_backend_endpoint_response]>
              {[ "sanitized_docReview_response" := sanitized_docReview_response ]}) |} ;;
  ret {| r_step := 5; r_message := "Integration tests created";
         r_output := OutStr (format_response integration_tests_result) |}.

(** *** Stages 6 and 7: the generated frontend file *)

(** The loop of lines 636-647 (and 713-724): the first suggested file
    ending in [.js] binds [file_name], [doc_ref] and
    [frontend_generated_code]; they stay unbound when there is none. *)
Definition find_frontend_code (request : AgentInvokeRequest) : M (option (string * string)) :=
  if truthy_list (suggested_files request) then
    match List.find (PyStr.ends_with ".js") (default [] (suggested_files request)) with
    | Some file_name =>
        let* doc := doc_get (project_file file_name) in
        match doc with
        | Some d => ret (Some (file_name, field_or "code" "" d))
        | None => ret (Some (file_name, "No code found in the document for the '.js' file."))
        end
    | None => ret None
    end
  else ret None.

Definition prompt6 (sanitised_frontend_generated_code : string) (errorBody : list string)
    : prompt :=
  {| system_msg :=
       [Lit "You are an expert travel API integration developer, your mission is to generate a working react file."];
     user_msg :=
       [Lit "Review the code at "; Str sanitised_frontend_generated_code; Lit ".";
        Lit "Do not remove any existing code.";
        Lit "No dummy data.";
        Lit "Add field validation and error logging where possible: "; Seq errorBody; Lit ".";
        Lit "Do not change anything besides field validation.";
        Lit "Ensure the code is ready for production use with all required React boilerplate and no hardcoding."] |}.

Definition stage6 (request : AgentInvokeRequest) (f : frame) : M response :=
  let c := caps f in
  let* found := find_frontend_code request in
  let* frontend_generated_code := read_local "frontend_generated_code" (snd <$> found) in
  let sanitised_frontend_generated_code := sanitise frontend_generated_code in
  let* errorBody := read_local "sanitized_capabilities_errorBody"
                      (sanitized_capabilities_errorBody c) in
  let p := prompt6 sanitised_frontend_generated_code errorBody in
  let ctx : context :=
    [("input", CStr ""); ("chat_history", CChat (chat_history request));
     ("sanitised_frontend_generated_code", CStr sanitised_frontend_generated_code);
     ("sanitized_capabilities_errorBody", CSeq errorBody)] in
  let* resp := ainvoke (tools f) p ctx in
  let code_review_response := output_or "No impact analysis action performed." resp in
  (if truthy_list (suggested_files request)
      && negb (String.eqb code_review_response "No impact analysis action performed.")
   then
     let* file_name := read_local "doc_ref" (fst <$> found) in
     doc_update (project_file file_name) code_review_response
   else ret tt) ;;
  session_set (session_id request) {| step := 7; files_entry := None; texts := ∅ |} ;;
  ret {| r_step := 6; r_message := "Code review completed";
         r_output := OutStr (format_response code_review_response) |}.

Definition prompt7 (sanitised_frontend_generated_code github_file_contents : string)
    : prompt :=
  {| system_msg :=
       [Lit "You are an expert travel API integration developer, your mission is to style the frontend code."];
     user_msg :=
       [Lit "Review the new code at "; Str sanitised_frontend_generated_code; Lit ".";
        Lit "Review the existing page "; Str github_file_contents; Lit ".";
        Lit "Add inline styling to new code to match the styling patterns from the existing page.";
        Lit "Do not remove any code.";
        Lit "No dummy data."] |}.

Definition stage7 (request : AgentInvokeRequest) (f : frame) : M response :=
  let* found := find_frontend_code request in
  let* frontend_generated_code := read_local "frontend_generated_code" (snd <$> found) in
  let sanitised_frontend_generated_code := sanitise frontend_generated_code in
  let p := prompt7 sanitised_frontend_generated_code (sanitised_github_file_contents f) in
  let ctx : context :=
    [("input", CStr ""); ("chat_history", CChat (chat_history request));
     ("sanitised_frontend_generated_code", CStr sanitised_frontend_generated_code);
     ("sanitised_github_file_contents", CStr (sanitised_github_file_contents f))] in
  let* resp := ainvoke (tools f) p ctx in
  let styling_response := output_or "No impact analysis action performed." resp in
  (if truthy_list (suggested_files request)
      && negb (String.eqb styling_response "No impact analysis action performed.")
   then
     let* file_name := read_local "doc_ref" (fst <$> found) in
     doc_update (project_file file_name) styling_response
   else ret tt) ;;
  session_set (session_id request) {| step := 8; files_entry := None; texts := ∅ |} ;;
  ret {| r_step := 7; r_message := "Code review completed";
         r_output := OutStr (format_response styling_response) |}.

(** *** Stage 8: documentation *)

Definition prompt8 (sanitized_backend_endpoint_response
                    sanitised_frontend_generated_code link : string) : prompt :=
  {| system_msg := [Lit "You are a travel API integration documentation expoert."];
     user_msg :=
       [Lit "Write documentation for the following integration.";
        Lit "1. Backend endpoint: "; Str sanitized_backend_endpoint_response; Lit ".";
        Lit "2. Frontend component: "; Str sanitised_frontend_generated_code; Lit ".";
        Lit "3. API Provider docs: "; Str link;
        Lit "It should contain the following sections: Quick start guide, testing options (not that we have written tests at integration_tests.py), troubleshooting guide, support contact info, links to API provider docs."] |}.

Definition documentation_file_name (endPoints : list string) : string :=
  let name :=
    match endPoints with
    | endPoint :: _ =>
        let endpoint_for_filename := PyStr.replace "/" "_" endPoint in
        "TechnicalDocumentation_" ++ endpoint_for_filename ++ ".txt"
    | [] => "TechnicalDocumentation.txt"
    end in
  PyStr.replace "?" "_" (PyStr.replace ":" "_" name).

Definition stage8 (request : AgentInvokeRequest) (f : frame) : M response :=
  let sanitized_backend_endpoint_response :=
    text_of (session_data f) "sanitized_backend_endpoint_response" in
  let sanitised_frontend_generated_code :=
    text_of (session_data f) "sanitised_frontend_generated_code" in
  let p := prompt8 sanitized_backend_endpoint_response sanitised_frontend_generated_code
             (docslink request) in
  let ctx : context :=
    [("input", CStr ""); ("chat_history", CChat (chat_history request));
     ("docslink", CStr (docslink request));
     ("sanitised_frontend_generated_code", CStr sanitised_frontend_generated_code);
     ("sanitized_backend_endpoint_response", CStr sanitized_backend_endpoint_response)] in
  let* resp := ainvoke (tools f) p ctx in
  let documentation_result := output_or "No documentation action performed." resp in
  set_file (documentation_file_name (capabilities_endPoints (caps f)))
    documentation_result (project request) None ;;
  session_set (session_id request) {| step := 9; files_entry := None; texts := ∅ |} ;;
  ret {| r_step := 8; r_message := "Documentation sent";
         r_output := OutStr (format_response documentation_result) |}.

(** *** Stage 9: API key steps *)

Definition prompt9 (link : string) : prompt :=
  {| system_msg :=
       [Lit "You are an expert travel API integration developer.";
        Lit "1. Search the API providers link: "; Str link;
        Lit " and learn their process for getting and using the API key.";
        Lit "2. Provide the steps for me to get and add the API key in my project in a list format. I'm only concerned about the actual API key, nothing else."];
     user_msg :=
       [Lit "You are an expert travel API integration developer.";
        Lit "1. Search the API providers link: "; Str link;
        Lit " and learn their process for getting and using the API key.";
        Lit "2. Provide the steps for me to get and add the API key in my project in a list format. I'm only concerned about the actual API key, nothing else.";
        Lit "Include full URLs if they are available for the steps."] |}.

Definition stage9 (request : AgentInvokeRequest) (f : frame) : M response :=
  let ctx : context :=
    [("input", CStr ""); ("chat_history", CChat (chat_history request));
     ("docslink", CStr (docslink request))] in
  let* resp := ainvoke (tools f) (prompt9 (docslink request)) ctx in
  let backend_apiKey_result := output_or "No backend endpoint action performed." resp in
  session_set (session_id request) {| step := 10; files_entry := None; texts := ∅ |} ;;
  let steps_list := PyStr.split_on PyStr.nl_char backend_apiKey_result in
  ret {| r_step := 9; r_message := "API Key info sent"; r_output := OutList steps_list |}.

(** *** Dispatch (the [if]/[elif] chain on [session_data["step"]]) *)

Definition some_response (m : M response) : M (option response) :=
  let* r := m in ret (Some r).

Definition dispatch (request : AgentInvokeRequest) (f : frame) : M (option response) :=
  let s := step (session_data f) in
  if (s =? 1)%Z then some_response (stage1 request f)
  else if (s =? 2)%Z then some_response (stage2 request f)
  else if (s =? 3)%Z then some_response (stage3 request f)
  else if (s =? 4)%Z then some_response (stage4 request f)
  else if (s =? 5)%Z then some_response (stage5 request f)
  else if (s =? 6)%Z then some_response (stage6 request f)
  else if (s =? 7)%Z then some_response (stage7 request f)
  else if (s =? 8)%Z then some_response (stage8 request f)
  else if (s =? 9)%Z then some_response (stage9 request f)
  else ret None.

(** [agent_invoke(request)]; [None] is the implicit return when no branch
    is taken. *)
Definition agent_invoke (request : AgentInvokeRequest) : M (option response) :=
  let* f := preamble request in
  dispatch request f.

End Handler.

(** * Vocabulary of the properties *)

(** The tools a request works with, when both collaborators answer. *)
Definition tools_of (w : World) (link : string) : option (list string) :=
  match load_documents w link with
  | Some documents => index_documents w documents
  | None => None
  end.

(** A computation that never changes the state, whatever its result. *)
Definition readonly {A} (m : M A) : Prop := forall st, snd (m st) = st.

(** Every document that differs between [d] and [d'] carries [code]. *)
Definition writes_code (code : string) (d d' : gmap string document) : Prop :=
  forall path, d' !! path = d !! path \/
               exists doc, d' !! path = Some doc /\ doc !! "code" = Some code.

(** A step that leaves sessions and the agent log alone and writes only
    documents carrying [code]. *)
Definition db_step (code : string) (st st' : State) : Prop :=
  session_store st' = session_store st /\
  agent_calls st' = agent_calls st /\
  writes_code code (db st) (db st').

(** The fallback the stage uses when the agent's answer has no ["output"]. *)
Definition sentinel (k : Z) : string :=
  if (k =? 1)%Z then "No backend endpoint action performed."
  else if (k =? 2)%Z then "No backend endpoint action performed."
  else if (k =? 3)%Z then "No UI update action performed."
  else if (k =? 4)%Z then "No action performed."
  else if (k =? 5)%Z then "No integration tests action performed."
  else if (k =? 6)%Z then "No impact analysis action performed."
  else if (k =? 7)%Z then "No impact analysis action performed."
  else if (k =? 8)%Z then "No documentation action performed."
  else "No backend endpoint action performed.".

(** The session stage stored when stage [k] completes, read off the
    [session_store[session_id] = {...}] assignments. *)
Definition stored_next (k : Z) : Z :=
  if (k =? 1)%Z then 2 else if (k =? 2)%Z then 3 else if (k =? 3)%Z then 4
  else if (k =? 4)%Z then 9 else if (k =? 5)%Z then 8 else if (k =? 6)%Z then 7
  else if (k =? 7)%Z then 8 else if (k =? 8)%Z then 9 else 10.

(** Stages 2, 3 and 4 store the stripped text, the others the agent's text. *)
Definition persists_stripped (k : Z) : bool :=
  (k =? 2)%Z || (k =? 3)%Z || (k =? 4)%Z.

Definition persisted_code (k : Z) (out : string) : string :=
  if persists_stripped k then format_response out else out.

(** The response payload of stage [k] for agent text [out]. *)
Definition stage_output (k : Z) (out : string) : output :=
  if (k =? 9)%Z then OutList (PyStr.split_on PyStr.nl_char out)
  else OutStr (format_response out).

Inductive stage_post (w : World) (f : frame) (sid : string) (k : Z)
    (st st' : State) (r : response) : Prop :=
| StagePost (p : prompt) (ctx : context) (answer : option string) (sd : session_dict)
    (sp_agent : agent_executor w (tools f) p ctx = AgentReturns answer)
    (sp_calls : agent_calls st' = p :: agent_calls st)
    (sp_store : session_store st' = <[sid := sd]> (session_store st))
    (sp_next : step sd = stored_next k)
    (sp_step : r_step r = k)
    (sp_output : r_output r = stage_output k (output_or (sentinel k) answer))
    (sp_db : writes_code (persisted_code k (output_or (sentinel k) answer)) (db st) (db st')).

(** The records that pass [if doc_data:], in order. *)
Fixpoint survivors (capability_docs : list (option document)) : list document :=
  match capability_docs with
  | [] => []
  | Some d :: rest => if truthy_doc (Some d) then d :: survivors rest else survivors rest
  | None :: rest => survivors rest
  end.

(** The sanitized copy exists once a record has been accumulated. *)
Definition sanitized_of (ds : list document) (key dflt : string) : option (list string) :=
  match ds with
  | [] => None
  | _ => Some (map sanitise (map (field_or key dflt) ds))
  end.

(** The locals after accumulating exactly the records [ds]. *)
Definition locals_of (ds : list document) : locals :=
  {| capabilities_names := map (field_or "name" "No name") ds;
     capabilities_endPoints := map (field_or "endPoint" "No endPoint") ds;
     capabilities_headers := map (field_or "headers" "No headers") ds;
     capabilities_routeName := map (field_or "routeName" "No routeName") ds;
     capabilities_errorBody := map (field_or "errorBody" "No errorBody") ds;
     capabilities_requestBody := map (field_or "requestBody" "No requestBody") ds;
     capabilities_responseBody := map (field_or "responseBody" "No responseBody") ds;
     capabilities_responseGuidance :=
       map (field_or "responseGuidance" "No responseGuidance") ds;
     capabilities_requestGuidance :=
       map (field_or "requestGuidance" "No requestGuidance") ds;
     sanitized_capabilities_errorBody := sanitized_of ds "errorBody" "No errorBody";
     sanitized_capabilities_headers := sanitized_of ds "headers" "No headers";
     sanitized_capabilities_requestBody := sanitized_of ds "requestBody" "No requestBody";
     sanitized_capabilities_responseBody := sanitized_of ds "responseBody" "No responseBody";
     sanitized_capabilities_responseGuidance :=
       sanitized_of ds "responseGuidance" "No responseGuidance" |}.

(** ** Vocabulary of the fence and persistence claims *)

(** What is left of the text after a tag once the optional newline of the
    pattern has been consumed: one leading newline less, if there is one. *)
Definition drop_newline (s : string) : string :=
  match s with
  | String c t => if Ascii.eqb c PyStr.nl_char then t else s
  | EmptyString => s
  end.

(** The one agent call of a run from [st] to [st']: prompt, context and
    answer. *)
Definition asked (w : World) (f : frame) (st st' : State)
    (p : prompt) (ctx : context) (answer : option string) : Prop :=
  agent_executor w (tools f) p ctx = AgentReturns answer /\
  agent_calls st' = p :: agent_calls st.

(** The store after [st] differs by exactly one [doc_ref.set]: the record of
    the artifact [name], holding [stored], created at the time of [st]. *)
Definition sets_file (w : World) (request : AgentInvokeRequest) (st st' : State)
    (name stored : string) : Prop :=
  db st' = <[project_file name :=
               file_record name stored (project request) (now w (clock st)) None]> (db st).

(** The conditional [doc_ref.update] of stages 6 and 7 on the first suggested
    file ending in [.js]: no write when the agent's text [out] is the
    [fallback], else the one change is the [code] field of the document that
    file already had. *)
Definition updates_frontend_file (request : AgentInvokeRequest) (fallback out : string)
    (d d' : gmap string document) : Prop :=
  exists name,
    List.find (PyStr.ends_with ".js") (default [] (suggested_files request)) = Some name /\
    (out = fallback -> d' = d) /\
    (out <> fallback ->
     exists doc stored,
       d !! project_file name = Some doc /\
       d' = <[project_file name := <["code" := stored]> doc]> d).

(** ** Concrete inputs *)

(** The stage table of the specification, stage and next stage. *)
Definition stage_table : list (Z * Z) :=
  [(1, 2); (2, 3); (3, 4); (4, 9); (5, 8); (6, 7); (7, 8); (8, 9); (9, 10)]%Z.

Definition next_stage (k : Z) : option Z :=
  snd <$> List.find (fun row => (fst row =? k)%Z) stage_table.

(** A world whose agent always answers [answer]. *)
Definition demo_world (answer : option string) : World :=
  {| load_documents := fun _ => Some ["provider documentation"];
     index_documents := fun documents => Some documents;
     http_get_json := fun _ => Some {| env_content := Some "cGFnZQ==";
                                       env_encoding := Some "base64" |};
     b64decode_utf8 := fun _ => Some "page";
     agent_executor := fun _ _ _ => AgentReturns answer;
     now := fun _ => "2024-01-01T00:00:00" |}.

Definition search_capability : document :=
  <["name" := "search"]> (<["endPoint" := "https://api.example.com/v1/search"]>
  (<["headers" := "{Authorization: Bearer}"]> (<["routeName" := "/search"]>
  (<["errorBody" := "{code: int}"]> (<["requestBody" := "{origin: str}"]>
  (<["responseBody" := "{offers: list}"]> (<["responseGuidance" := "Read {offers}"]>
  (<["requestGuidance" := "Send {origin}"]> ∅)))))))).

Definition demo_db : gmap string document :=
  <["capabilities/search" := search_capability]>
    (<["capabilities/blank" := ∅]>
       (<["projectFiles/App.js" := {[ "code" := "export default App" ]}]>
          (<["projectFiles/app.py" := {[ "code" := "app = Flask(__name__)" ]}]> ∅))).

(** A state in which session ["s"] (if [stage] is given) is at that stage. *)
Definition demo_state (stage : option Z) : State :=
  {| session_store :=
       match stage with
       | Some k => {[ "s" := {| step := k; files_entry := None; texts := ∅ |} ]}
       | None => ∅
       end;
     db := demo_db; clock := 0; agent_calls := [] |}.

Definition demo_request (urls refs : option (list string)) : AgentInvokeRequest :=
  {| input := ""; session_id := "s"; docslink := "https://docs.example.com";
     repo := "org/repo"; project := "p1";
     suggested_files := Some ["app.py"; "App.js"];
     suggested_file_urls := urls;
     suggested_file_paths := Some ["backend/app.py"; "src/App.js"];
     capabilityRefs := refs; chat_history := [] |}.

Definition fenced_answer : string :=
  "```python" ++ PyStr.nl ++ "print(1)" ++ PyStr.nl ++ "```".

(** ** Vocabulary of the further properties *)

(** Character-wise substitution: every character is replaced by a string. *)
Fixpoint string_bind (f : ascii -> string) (s : string) : string :=
  match s with
  | EmptyString => EmptyString
  | String c s' => f c ++ string_bind f s'
  end.

(** What [replace(a, new)] does to one character, for a one-character [a]. *)
Definition swap_char (a : ascii) (new : string) (c : ascii) : string :=
  if Ascii.eqb c a then new else String c EmptyString.

(** What the brace doubling does to one character. *)
Definition double_brace (c : ascii) : string :=
  if Ascii.eqb c "{" then "{{"
  else if Ascii.eqb c "}" then "}}"
  else String c EmptyString.

(** [c in s] for a character. *)
Fixpoint has_char (a : ascii) (s : string) : bool :=
  match s with
  | EmptyString => false
  | String c s' => Ascii.eqb c a || has_char a s'
  end.

(** The separator of line 165. *)
Definition file_separator : string :=
  PyStr.nl ++ PyStr.nl ++ "---" ++ PyStr.nl ++ PyStr.nl.

(** Number of braces in a text. *)
Fixpoint brace_count (s : string) : nat :=
  match s with
  | EmptyString => 0
  | String c s' =>
      (if Ascii.eqb c "{" || Ascii.eqb c "}" then 1 else 0) + brace_count s'
  end.

(** A relation between the state before and after that every effect of the
    handler other than the session update respects. *)
Record StepRel (R : State -> State -> Prop) : Prop := {
  sr_refl : forall st, R st st;
  sr_trans : forall st1 st2 st3, R st1 st2 -> R st2 st3 -> R st1 st3;
  sr_agent : forall st p,
    R st {| session_store := session_store st; db := db st;
            clock := clock st; agent_calls := p :: agent_calls st |};
  sr_clock : forall st,
    R st {| session_store := session_store st; db := db st;
            clock := S (clock st); agent_calls := agent_calls st |};
  sr_doc : forall st name d, R st (with_db (insert (project_file name) d) st);
}.

(** The relation also admits the update of session [sid]. *)
Definition session_step (R : State -> State -> Prop) (sid : string) : Prop :=
  forall st sd, R st (with_session_store (insert sid sd) st).

(** [m] relates every state to the state it leaves, whatever its result. *)
Definition inv (R : State -> State -> Prop) {A} (m : M A) : Prop :=
  forall st, R st (snd (m st)).

Definition same_sessions (st st' : State) : Prop :=
  session_store st' = session_store st.

Definition other_sessions_kept (sid : string) (st st' : State) : Prop :=
  forall other, other <> sid -> session_store st' !! other = session_store st !! other.

Definition other_documents_kept (st st' : State) : Prop :=
  forall path, PyStr.starts_with "projectFiles/" path = false ->
               db st' !! path = db st !! path.

Definition log_grows (st st' : State) : Prop :=
  length (agent_calls st) <= length (agent_calls st').

(** An exception leaves the sessions as they were. *)
Definition sessions_kept_on_raise {A} (m : M A) : Prop :=
  forall st e st', m st = (Raised e, st') -> session_store st' = session_store st.

(** Either nothing has changed or the agent has been invoked. *)
Definition guarded {A} (m : M A) : Prop :=
  forall st, snd (m st) = st \/ length (agent_calls st) < length (agent_calls (snd (m st))).

(** A request whose path list is one short of its file list. *)
Definition short_paths_request : AgentInvokeRequest :=
  {| input := ""; session_id := "s"; docslink := "https://docs.example.com";
     repo := "org/repo"; project := "p1";
     suggested_files := Some ["Form.js"; "App.js"];
     suggested_file_urls := Some [];
     suggested_file_paths := Some ["src/Form.js"];
     capabilityRefs := Some ["capabilities/search"]; chat_history := [] |}.

(** The stages a session can be stored at once the handler has written it,
    starting from an empty store. *)
Definition live_stage (k : Z) : Prop := (k = 3 \/ k = 4 \/ k = 9 \/ k = 10)%Z.

Definition flow_store (store : gmap string session_dict) : Prop :=
  forall sid sd, store !! sid = Some sd -> live_stage (step sd).

(** Between [d] and [d'] only the [code] field of documents that exist has
    been set to [code]: no document created, none removed, no other field
    changed. *)
Definition code_update (code : string) (d d' : gmap string document) : Prop :=
  forall path,
    match d !! path with
    | Some doc => d' !! path = Some doc \/ d' !! path = Some (<["code" := code]> doc)
    | None => d' !! path = None
    end.

(** The document at [path] exists and carries [code]. *)
Definition has_code (code path : string) (d : gmap string document) : Prop :=
  exists doc, d !! path = Some doc /\ doc !! "code" = Some code.

(** * Properties *)

(** ** Evaluations *)

Example format_response_python :
  format_response ("```python" ++ PyStr.nl ++ "x = {1}" ++ PyStr.nl ++ "```")
  = "x = {1}" ++ PyStr.nl.
Proof. vm_compute. reflexivity. Qed.

Example format_response_js :
  format_response ("```javascript" ++ PyStr.nl ++ "x```")
  = "javascript" ++ PyStr.nl ++ "x".
Proof. vm_compute. reflexivity. Qed.

Example format_response_run : format_response "a`````b" = "a``b".
Proof. vm_compute. reflexivity. Qed.

Example sanitise_ex : sanitise "a{b}c" = "a{{b}}c".
Proof. vm_compute. reflexivity. Qed.

Example split_ex :
  PyStr.split_on PyStr.nl_char ("Step 1: ..." ++ PyStr.nl ++ "Step 2: ...")
  = ["Step 1: ..."; "Step 2: ..."].
Proof. vm_compute. reflexivity. Qed.

Example ends_with_ex : PyStr.ends_with ".py" "app.py" = true /\ PyStr.ends_with ".py" "app.pyc" = false.
Proof. vm_compute. auto. Qed.

(** ** Fence stripping *)

Section FormatResponse.

Local Arguments String.append : simpl nomatch.

Lemma starts_with_iff (p s : string) :
  PyStr.starts_with p s = true <-> exists t, s = p ++ t.
Proof.
  unfold PyStr.starts_with. revert p.
  induction s as [|b s IH]; intros [|a p]; simpl.
  - split; [exists ""; reflexivity | reflexivity].
  - split; [discriminate | intros [t Ht]; discriminate].
  - split; [eexists; reflexivity | reflexivity].
  - destruct (ascii_dec a b) as [->|Hne].
    + rewrite IH. split; intros [t Ht]; exists t; [now rewrite Ht | now injection Ht].
    + split; [discriminate | intros [t Ht]; injection Ht; intros; congruence].
Qed.

Lemma starts_with_app (p q s : string) :
  PyStr.starts_with (p ++ q) s = true -> PyStr.starts_with p s = true.
Proof.
  rewrite !starts_with_iff. intros [t ->].
  exists (q ++ t). clear. induction p; simpl; congruence.
Qed.

Lemma starts_with_app_false (p q s : string) :
  PyStr.starts_with p s = false -> PyStr.starts_with (p ++ q) s = false.
Proof.
  intros H. destruct (PyStr.starts_with (p ++ q) s) eqn:E; [|reflexivity].
  apply starts_with_app in E. congruence.
Qed.

(** No opening fence matches where no fence starts. *)
Lemma fence_open_len_none (s : string) :
  PyStr.starts_with fence s = false -> fence_open_len s = None.
Proof.
  intros H. unfold fence_open_len.
  pose proof (starts_with_app_false fence ("python" ++ PyStr.nl) s H) as H1.
  pose proof (starts_with_app_false fence "python" s H) as H2.
  pose proof (starts_with_app_false fence ("jsx" ++ PyStr.nl) s H) as H3.
  pose proof (starts_with_app_false fence "jsx" s H) as H4.
  change (fence ++ "python" ++ PyStr.nl) with ("```python" ++ PyStr.nl) in H1.
  change (fence ++ "python") with "```python" in H2.
  change (fence ++ "jsx" ++ PyStr.nl) with ("```jsx" ++ PyStr.nl) in H3.
  change (fence ++ "jsx") with "```jsx" in H4.
  rewrite H1, H2, H3, H4. reflexivity.
Qed.

(** A matched opening fence is three backquotes followed by a letter. *)
Lemma fence_open_len_some (s : string) (n : nat) :
  fence_open_len s = Some n ->
  exists c t, s = fence ++ String c t /\ c <> "`"%char.
Proof.
  unfold fence_open_len. intros H.
  destruct (PyStr.starts_with ("```python" ++ PyStr.nl) s) eqn:E1.
  { apply starts_with_iff in E1 as [t ->]. exists "p"%char. eexists. split; [reflexivity|discriminate]. }
  destruct (PyStr.starts_with "```python" s) eqn:E2.
  { apply starts_with_iff in E2 as [t ->]. exists "p"%char. eexists. split; [reflexivity|discriminate]. }
  destruct (PyStr.starts_with ("```jsx" ++ PyStr.nl) s) eqn:E3.
  { apply starts_with_iff in E3 as [t ->]. exists "j"%char. eexists. split; [reflexivity|discriminate]. }
  destruct (PyStr.starts_with "```jsx" s) eqn:E4.
  { apply starts_with_iff in E4 as [t ->]. exists "j"%char. eexists. split; [reflexivity|discriminate]. }
  discriminate.
Qed.

Lemma contains_cons (p : string) (c : ascii) (s : string) :
  PyStr.contains p (String c s) = false ->
  PyStr.starts_with p (String c s) = false /\ PyStr.contains p s = false.
Proof. simpl. intros H. apply orb_false_elim in H. exact H. Qed.

Lemma contains_head (p s : string) :
  PyStr.contains p s = false -> PyStr.starts_with p s = false.
Proof. destruct s; simpl; intros H; apply orb_false_elim in H; tauto. Qed.

Lemma re_sub_no_fence (s : string) :
  PyStr.contains fence s = false -> re_sub_fence_open 0 s = s.
Proof.
  induction s as [|c s IH]; [reflexivity|].
  intros H. apply contains_cons in H as [Hh Ht].
  cbn [re_sub_fence_open]. rewrite (fence_open_len_none _ Hh), (IH Ht). reflexivity.
Qed.

Lemma replace_no_fence (s : string) :
  PyStr.contains fence s = false -> PyStr.replace fence "" s = s.
Proof.
  unfold PyStr.replace, fence.
  induction s as [|c s IH]; [reflexivity|].
  intros H. apply contains_cons in H as [Hh Ht].
  cbn [PyStr.replace_from]. unfold fence in Hh. rewrite Hh, (IH Ht). reflexivity.
Qed.

(** The closing fence after fence-free text: no opening fence is matched. *)
Lemma re_sub_before_closing (body : string) :
  PyStr.contains fence body = false ->
  re_sub_fence_open 0 (body ++ fence) = body ++ fence.
Proof.
  induction body as [|c body IH]; [reflexivity|].
  intros H. pose proof (contains_head _ _ H) as Hh.
  apply contains_cons in H as [_ Ht].
  cbn [append re_sub_fence_open].
  destruct (fence_open_len (String c (body ++ fence))) eqn:E.
  - exfalso. apply fence_open_len_some in E as (c' & t & Heq & Hc').
    unfold fence in Heq.
    destruct body as [|b1 [|b2 body]]; simpl in Heq.
    + injection Heq; intros; congruence.
    + injection Heq; intros; congruence.
    + injection Heq; intros; subst.
      assert (PyStr.starts_with fence (String "`" (String "`" (String "`" body))) = true)
        by (apply starts_with_iff; eexists; reflexivity).
      congruence.
  - rewrite (IH Ht). reflexivity.
Qed.

(** The closing fence after fence-free text is the one occurrence removed;
    backquotes that end the text survive. *)
Lemma replace_before_closing (body : string) :
  PyStr.contains fence body = false ->
  PyStr.replace fence "" (body ++ fence) = body.
Proof.
  unfold PyStr.replace. change (match fence with "" => _ | _ => ?x end) with x.
  induction body as [|c body IH]; [reflexivity|].
  intros H. pose proof (contains_head _ _ H) as Hh.
  apply contains_cons in H as [_ Ht].
  simpl append. cbn [PyStr.replace_from].
  destruct (PyStr.starts_with fence (String c (body ++ fence))) eqn:E.
  - apply starts_with_iff in E as [t Ht'].
    unfold fence in Ht'.
    destruct body as [|b1 [|b2 body]]; simpl in Ht'.
    + injection Ht'; intros; subst. reflexivity.
    + injection Ht'; intros; subst. reflexivity.
    + injection Ht'; intros; subst. exfalso.
      assert (PyStr.starts_with fence (String "`" (String "`" (String "`" body))) = true)
        by (apply starts_with_iff; eexists; reflexivity).
      congruence.
  - rewrite (IH Ht). reflexivity.
Qed.

Lemma re_sub_python_nl (t : string) :
  re_sub_fence_open 0 ("```python" ++ PyStr.nl ++ t) = re_sub_fence_open 0 t.
Proof.
  assert (E : fence_open_len ("```python" ++ PyStr.nl ++ t) = Some 10).
  { unfold fence_open_len.
    replace (PyStr.starts_with ("```python" ++ PyStr.nl) ("```python" ++ PyStr.nl ++ t))
      with true; [reflexivity|].
    symmetry. apply starts_with_iff. exists t. reflexivity. }
  change ("```python" ++ PyStr.nl ++ t)
    with (String "`" ("``python" ++ PyStr.nl ++ t)) in *.
  cbn [re_sub_fence_open]. rewrite E. reflexivity.
Qed.

Lemma re_sub_jsx_nl (t : string) :
  re_sub_fence_open 0 ("```jsx" ++ PyStr.nl ++ t) = re_sub_fence_open 0 t.
Proof.
  assert (E : fence_open_len ("```jsx" ++ PyStr.nl ++ t) = Some 7).
  { unfold fence_open_len.
    replace (PyStr.starts_with ("```jsx" ++ PyStr.nl) ("```jsx" ++ PyStr.nl ++ t))
      with true; [reflexivity|].
    symmetry. apply starts_with_iff. exists t. reflexivity. }
  change ("```jsx" ++ PyStr.nl ++ t)
    with (String "`" ("``jsx" ++ PyStr.nl ++ t)) in *.
  cbn [re_sub_fence_open]. rewrite E. reflexivity.
Qed.

Lemma format_response_no_fence (s : string) :
  PyStr.contains fence s = false -> format_response s = s.
Proof.
  intros H. unfold format_response.
  rewrite (re_sub_no_fence s H). apply replace_no_fence, H.
Qed.

Lemma format_response_python_fence (body : string) :
  PyStr.contains fence body = false ->
  format_response ("```python" ++ PyStr.nl ++ body ++ fence) = body.
Proof.
  intros H. unfold format_response. rewrite re_sub_python_nl.
  rewrite (re_sub_before_closing body H). apply replace_before_closing, H.
Qed.

Lemma format_response_jsx_fence (body : string) :
  PyStr.contains fence body = false ->
  format_response ("```jsx" ++ PyStr.nl ++ body ++ fence) = body.
Proof.
  intros H. unfold format_response. rewrite re_sub_jsx_nl.
  rewrite (re_sub_before_closing body H). apply replace_before_closing, H.
Qed.

Lemma replace_fence_head (t : string) :
  PyStr.replace_from fence "" 0 (fence ++ t) = PyStr.replace_from fence "" 0 t.
Proof.
  change (fence ++ t) with (String "`" (String "`" (String "`" t))).
  cbn [PyStr.replace_from].
  replace (PyStr.starts_with fence (String "`" (String "`" (String "`" t)))) with true
    by (symmetry; apply starts_with_iff; exists t; reflexivity).
  reflexivity.
Qed.

Lemma replace_fence_cons (c : ascii) (s : string) :
  PyStr.starts_with fence (String c s) = false ->
  PyStr.replace_from fence "" 0 (String c s) = String c (PyStr.replace_from fence "" 0 s).
Proof. intros H. cbn [PyStr.replace_from]. rewrite H. reflexivity. Qed.

Lemma starts_with_fence_inv (c : ascii) (s : string) :
  PyStr.starts_with fence (String c s) = true ->
  c = "`"%char /\ exists u, s = String "`" (String "`" u).
Proof.
  intros H. apply starts_with_iff in H as [u Hu]. unfold fence in Hu. simpl in Hu.
  injection Hu as -> ->. eauto.
Qed.

Lemma starts_with_fence_other (c : ascii) (s : string) :
  c <> "`"%char -> PyStr.starts_with fence (String c s) = false.
Proof.
  intros Hc. destruct (PyStr.starts_with fence (String c s)) eqn:E; [|reflexivity].
  apply starts_with_fence_inv in E as [-> _]. contradiction.
Qed.

(** Removing the fences leaves no fence behind. *)
Lemma replace_fence_free (n : nat) :
  forall s, String.length s <= n ->
            PyStr.contains fence (PyStr.replace_from fence "" 0 s) = false.
Proof.
  induction n as [|n IH]; intros s Hlen.
  - destruct s; [reflexivity | simpl in Hlen; lia].
  - destruct s as [|c s]; [reflexivity|].
    destruct (PyStr.starts_with fence (String c s)) eqn:E.
    + apply starts_with_fence_inv in E as [-> (u & ->)].
      change (String "`" (String "`" (String "`" u))) with (fence ++ u).
      rewrite replace_fence_head. apply IH. simpl in Hlen. lia.
    + rewrite (replace_fence_cons c s E).
      cbn [PyStr.contains]. rewrite (IH s) by (simpl in Hlen; lia).
      rewrite orb_false_r.
      destruct (PyStr.starts_with fence (String c (PyStr.replace_from fence "" 0 s))) eqn:E2;
        [|reflexivity].
      exfalso. apply starts_with_fence_inv in E2 as [-> (u & Hu)].
      destruct s as [|c1 s]; [discriminate Hu|].
      destruct (ascii_dec c1 "`") as [->|Hc1].
      2:{ rewrite (replace_fence_cons c1 s (starts_with_fence_other c1 s Hc1)) in Hu.
          injection Hu as Hc _. contradiction. }
      destruct (PyStr.starts_with fence (String "`" s)) eqn:E3.
      { apply starts_with_fence_inv in E3 as [_ (u' & ->)].
        assert (PyStr.starts_with fence
                  (String "`" (String "`" (String "`" (String "`" u')))) = true)
          by (apply starts_with_iff; eexists; reflexivity).
        congruence. }
      rewrite (replace_fence_cons _ s E3) in Hu. injection Hu as Hu.
      destruct s as [|c2 s]; [discriminate Hu|].
      destruct (ascii_dec c2 "`") as [->|Hc2].
      { assert (PyStr.starts_with fence (String "`" (String "`" (String "`" s))) = true)
          by (apply starts_with_iff; eexists; reflexivity).
        congruence. }
      rewrite (replace_fence_cons c2 s (starts_with_fence_other c2 s Hc2)) in Hu.
      injection Hu as Hc _. contradiction.
Qed.

Lemma format_response_fence_free (s : string) :
  PyStr.contains fence (format_response s) = false.
Proof.
  unfold format_response, PyStr.replace.
  change (match fence with "" => _ | _ => ?x end) with x.
  eapply replace_fence_free. reflexivity.
Qed.

(** *** The tag after the opening fence *)

Lemma contains_drop_newline (p s : string) :
  PyStr.contains p s = false -> PyStr.contains p (drop_newline s) = false.
Proof.
  destruct s as [|c t]; [auto|]. intros H. simpl.
  destruct (Ascii.eqb c PyStr.nl_char); [|exact H].
  apply contains_cons in H as [_ H]. exact H.
Qed.

(** After [```python] the optional newline is consumed when it is there. *)
Lemma re_sub_python_tag (body : string) :
  PyStr.contains fence body = false ->
  re_sub_fence_open 0 ("```python" ++ body ++ fence) = drop_newline body ++ fence.
Proof.
  intros H. destruct body as [|c t]; [reflexivity|].
  cbn [drop_newline]. destruct (Ascii.eqb_spec c PyStr.nl_char) as [->|Hc].
  - apply contains_cons in H as [_ H].
    change ("```python" ++ String PyStr.nl_char t ++ fence)
      with ("```python" ++ PyStr.nl ++ t ++ fence).
    rewrite re_sub_python_nl. apply re_sub_before_closing, H.
  - assert (E : fence_open_len ("```python" ++ String c t ++ fence) = Some 9).
    { unfold fence_open_len.
      destruct (PyStr.starts_with ("```python" ++ PyStr.nl) ("```python" ++ String c t ++ fence))
        eqn:E1.
      { apply starts_with_iff in E1 as [u Hu]. simpl in Hu. inversion Hu. contradiction. }
      replace (PyStr.starts_with "```python" ("```python" ++ String c t ++ fence)) with true;
        [reflexivity|].
      symmetry. apply starts_with_iff. eexists. reflexivity. }
    change ("```python" ++ String c t ++ fence)
      with (String "`" ("``python" ++ String c t ++ fence)) in *.
    cbn [re_sub_fence_open]. rewrite E.
    change (re_sub_fence_open 0 (String c t ++ fence) = String c t ++ fence).
    apply re_sub_before_closing, H.
Qed.

Lemma re_sub_jsx_tag (body : string) :
  PyStr.contains fence body = false ->
  re_sub_fence_open 0 ("```jsx" ++ body ++ fence) = drop_newline body ++ fence.
Proof.
  intros H. destruct body as [|c t]; [reflexivity|].
  cbn [drop_newline]. destruct (Ascii.eqb_spec c PyStr.nl_char) as [->|Hc].
  - apply contains_cons in H as [_ H].
    change ("```jsx" ++ String PyStr.nl_char t ++ fence)
      with ("```jsx" ++ PyStr.nl ++ t ++ fence).
    rewrite re_sub_jsx_nl. apply re_sub_before_closing, H.
  - assert (E : fence_open_len ("```jsx" ++ String c t ++ fence) = Some 6).
    { unfold fence_open_len.
      destruct (PyStr.starts_with ("```python" ++ PyStr.nl) ("```jsx" ++ String c t ++ fence))
        eqn:E1.
      { apply starts_with_iff in E1 as [u Hu]. simpl in Hu. inversion Hu. }
      destruct (PyStr.starts_with "```python" ("```jsx" ++ String c t ++ fence)) eqn:E2.
      { apply starts_with_iff in E2 as [u Hu]. simpl in Hu. inversion Hu. }
      destruct (PyStr.starts_with ("```jsx" ++ PyStr.nl) ("```jsx" ++ String c t ++ fence))
        eqn:E3.
      { apply starts_with_iff in E3 as [u Hu]. simpl in Hu. inversion Hu. contradiction. }
      replace (PyStr.starts_with "```jsx" ("```jsx" ++ String c t ++ fence)) with true;
        [reflexivity|].
      symmetry. apply starts_with_iff. eexists. reflexivity. }
    change ("```jsx" ++ String c t ++ fence)
      with (String "`" ("``jsx" ++ String c t ++ fence)) in *.
    cbn [re_sub_fence_open]. rewrite E.
    change (re_sub_fence_open 0 (String c t ++ fence) = String c t ++ fence).
    apply re_sub_before_closing, H.
Qed.

Lemma format_response_python_tag (body : string) :
  PyStr.contains fence body = false ->
  format_response ("```python" ++ body ++ fence) = drop_newline body.
Proof.
  intros H. unfold format_response. rewrite (re_sub_python_tag body H).
  apply replace_before_closing, contains_drop_newline, H.
Qed.

Lemma format_response_jsx_tag (body : string) :
  PyStr.contains fence body = false ->
  format_response ("```jsx" ++ body ++ fence) = drop_newline body.
Proof.
  intros H. unfold format_response. rewrite (re_sub_jsx_tag body H).
  apply replace_before_closing, contains_drop_newline, H.
Qed.

(** A tag that runs into the closing fence is no tag of the pattern. *)
Lemma starts_with_python_body (body : string) :
  PyStr.starts_with "python" (body ++ fence) = true ->
  PyStr.starts_with "python" body = true.
Proof.
  intros H. apply starts_with_iff in H as [u Hu]. apply starts_with_iff.
  destruct body as [|c1 [|c2 [|c3 [|c4 [|c5 [|c6 body]]]]]]; simpl in Hu;
    try (inversion Hu; fail).
  inversion Hu; subst. eexists. reflexivity.
Qed.

Lemma starts_with_jsx_body (body : string) :
  PyStr.starts_with "jsx" (body ++ fence) = true ->
  PyStr.starts_with "jsx" body = true.
Proof.
  intros H. apply starts_with_iff in H as [u Hu]. apply starts_with_iff.
  destruct body as [|c1 [|c2 [|c3 body]]]; simpl in Hu; try (inversion Hu; fail).
  inversion Hu; subst. eexists. reflexivity.
Qed.

Lemma fence_open_len_other (body : string) :
  PyStr.starts_with "python" body = false ->
  PyStr.starts_with "jsx" body = false ->
  fence_open_len (fence ++ body ++ fence) = None.
Proof.
  intros Hpy Hjsx. unfold fence_open_len.
  assert (Hp : PyStr.starts_with "```python" (fence ++ body ++ fence) = false).
  { destruct (PyStr.starts_with "```python" (fence ++ body ++ fence)) eqn:E; [|reflexivity].
    apply starts_with_iff in E as [u Hu]. simpl in Hu. injection Hu as Hu.
    rewrite <- Hpy. symmetry. apply starts_with_python_body, starts_with_iff.
    exists u. exact Hu. }
  assert (Hj : PyStr.starts_with "```jsx" (fence ++ body ++ fence) = false).
  { destruct (PyStr.starts_with "```jsx" (fence ++ body ++ fence)) eqn:E; [|reflexivity].
    apply starts_with_iff in E as [u Hu]. simpl in Hu. injection Hu as Hu.
    rewrite <- Hjsx. symmetry. apply starts_with_jsx_body, starts_with_iff.
    exists u. exact Hu. }
  rewrite (starts_with_app_false "```python" PyStr.nl _ Hp), Hp.
  rewrite (starts_with_app_false "```jsx" PyStr.nl _ Hj), Hj. reflexivity.
Qed.

(** A fence followed by anything but [python], [jsx] or a backquote is left
    to the second replacement, which removes its backquotes alone. *)
Lemma format_response_other_tag (body : string) :
  PyStr.contains fence body = false ->
  PyStr.starts_with "`" body = false ->
  PyStr.starts_with "python" body = false ->
  PyStr.starts_with "jsx" body = false ->
  format_response (fence ++ body ++ fence) = body.
Proof.
  intros H Hq Hpy Hjsx. destruct body as [|c t]; [reflexivity|].
  assert (Hc : c <> "`"%char).
  { intros ->. assert (PyStr.starts_with "`" (String "`" t) = true)
      by (apply starts_with_iff; exists t; reflexivity). congruence. }
  assert (E : re_sub_fence_open 0 (fence ++ String c t ++ fence) = fence ++ String c t ++ fence).
  { pose proof (fence_open_len_other _ Hpy Hjsx) as E0.
    change (fence ++ String c t ++ fence)
      with (String "`" (String "`" (String "`" (String c t ++ fence)))) in *.
    cbn [re_sub_fence_open]. rewrite E0.
    rewrite (fence_open_len_none (String "`" (String "`" (String c t ++ fence)))).
    2:{ destruct (PyStr.starts_with fence (String "`" (String "`" (String c t ++ fence))))
          eqn:E1; [|reflexivity].
        apply starts_with_iff in E1 as [u Hu]. simpl in Hu. inversion Hu. contradiction. }
    rewrite (fence_open_len_none (String "`" (String c t ++ fence))).
    2:{ destruct (PyStr.starts_with fence (String "`" (String c t ++ fence)))
          eqn:E1; [|reflexivity].
        apply starts_with_iff in E1 as [u Hu]. simpl in Hu. inversion Hu. contradiction. }
    rewrite (re_sub_before_closing (String c t) H). reflexivity. }
  unfold format_response. rewrite E. unfold PyStr.replace.
  change (match fence with "" => _ | _ => ?x end) with x.
  rewrite replace_fence_head.
  pose proof (replace_before_closing (String c t) H) as R. unfold PyStr.replace in R.
  exact R.
Qed.

End FormatResponse.

(** ** Reasoning about the monad *)

Section MonadLemmas.

Context {A B : Type}.

Lemma bind_ok_inv (m : M A) (k : A -> M B) (st st' : State) (b : B) :
  bind m k st = (Ok b, st') ->
  exists a st1, m st = (Ok a, st1) /\ k a st1 = (Ok b, st').
Proof.
  unfold bind. destruct (m st) as [[a|e] st1]; [eauto | discriminate].
Qed.

Lemma bind_ok (m : M A) (k : A -> M B) (st st1 : State) (a : A) :
  m st = (Ok a, st1) -> bind m k st = k a st1.
Proof. unfold bind. intros ->. reflexivity. Qed.


Lemma ret_ok_inv (a b : A) (st st' : State) :
  ret a st = (Ok b, st') -> b = a /\ st' = st.
Proof. unfold ret. intros H. injection H; auto. Qed.

Lemma read_local_ok_inv (var : string) (o : option A) (a : A) (st st' : State) :
  read_local var o st = (Ok a, st') -> o = Some a /\ st' = st.
Proof.
  destruct o; simpl; unfold ret, raise; intros H; [injection H; intros; subst; auto | discriminate].
Qed.

Lemma iterable_ok_inv (o : option (list A)) (l : list A) (st st' : State) :
  iterable o st = (Ok l, st') -> o = Some l /\ st' = st.
Proof.
  destruct o; simpl; unfold ret, raise; intros H; [injection H; intros; subst; auto | discriminate].
Qed.

End MonadLemmas.

Section Readonly.

Context {A B : Type}.

Lemma readonly_ret (a : A) : readonly (ret a).
Proof. intros st. reflexivity. Qed.

Lemma readonly_raise (e : pyexn) : readonly (@raise A e).
Proof. intros st. reflexivity. Qed.

Lemma readonly_gets (f : State -> A) : readonly (gets f).
Proof. intros st. reflexivity. Qed.

Lemma readonly_bind (m : M A) (k : A -> M B) :
  readonly m -> (forall a, readonly (k a)) -> readonly (bind m k).
Proof.
  intros Hm Hk st. unfold bind. specialize (Hm st).
  destruct (m st) as [[a|e] st1]; simpl in Hm; subst; [apply Hk | reflexivity].
Qed.

Lemma readonly_collaborator (o : option A) : readonly (collaborator o).
Proof. destruct o; [apply readonly_ret | apply readonly_raise]. Qed.

Lemma readonly_read_local (var : string) (o : option A) : readonly (read_local var o).
Proof. destruct o; [apply readonly_ret | apply readonly_raise]. Qed.

Lemma readonly_iterable (o : option (list A)) : readonly (iterable o).
Proof. destruct o; intros st; reflexivity. Qed.

End Readonly.

Lemma readonly_mapM {A B} (f : A -> M B) (l : list A) :
  (forall a, readonly (f a)) -> readonly (mapM f l).
Proof.
  intros Hf. induction l as [|x xs IH]; simpl.
  - apply readonly_ret.
  - apply readonly_bind; [apply Hf|]. intros y.
    apply readonly_bind; [apply IH|]. intros ys. apply readonly_ret.
Qed.

Lemma readonly_doc_get (path : string) : readonly (doc_get path).
Proof. apply readonly_gets. Qed.

Lemma readonly_fetch_capabilities (refs : option (list string)) :
  readonly (fetch_capabilities refs).
Proof.
  destruct refs as [[|p ps]|]; unfold fetch_capabilities; try apply readonly_ret.
  apply readonly_bind; [|intros; apply readonly_ret].
  apply readonly_mapM. intros a. apply readonly_doc_get.
Qed.

Lemma readonly_fetch_file_content (w : World) (url : string) :
  readonly (fetch_file_content w url).
Proof.
  unfold fetch_file_content. apply readonly_bind; [apply readonly_collaborator|].
  intros env. destruct (env_content env), (env_encoding env); try apply readonly_ret.
  destruct (String.eqb _ _); [apply readonly_collaborator | apply readonly_ret].
Qed.

Lemma readonly_preamble (w : World) (request : AgentInvokeRequest) :
  readonly (preamble w request).
Proof.
  unfold preamble.
  apply readonly_bind; [apply readonly_gets|]. intros sd.
  apply readonly_bind; [apply readonly_collaborator|]. intros documents.
  apply readonly_bind; [apply readonly_collaborator|]. intros tls.
  apply readonly_bind; [apply readonly_iterable|]. intros urls.
  apply readonly_bind; [apply readonly_mapM; intros; apply readonly_fetch_file_content|].
  intros contents.
  apply readonly_bind; [apply readonly_fetch_capabilities|]. intros cs.
  apply readonly_ret.
Qed.

(** [mapM] over the read-only capability fetch is a [map] of lookups. *)
Lemma mapM_fetch_capability_data (paths : list string) (st : State) :
  mapM fetch_capability_data paths st = (Ok (map (fun p => db st !! p) paths), st).
Proof.
  induction paths as [|p ps IH]; [reflexivity|].
  simpl. unfold bind at 1. unfold fetch_capability_data at 1, doc_get, gets.
  unfold bind. rewrite IH. reflexivity.
Qed.

Lemma fetch_capabilities_eq (refs : option (list string)) (st : State) :
  fetch_capabilities refs st =
  (Ok (accumulate_all (map (fun p => db st !! p) (default [] refs))), st).
Proof.
  destruct refs as [[|p ps]|]; try reflexivity.
  unfold fetch_capabilities. unfold bind.
  rewrite mapM_fetch_capability_data. reflexivity.
Qed.

(** What a successful preamble fixes. *)
Lemma preamble_ok_inv (w : World) (request : AgentInvokeRequest) (st st' : State) (f : frame) :
  preamble w request st = (Ok f, st') ->
  st' = st /\
  session_data f = session_get (session_store st) (session_id request) /\
  tools_of w (docslink request) = Some (tools f) /\
  (exists urls, suggested_file_urls request = Some urls) /\
  caps f = accumulate_all (map (fun p => db st !! p) (default [] (capabilityRefs request))).
Proof.
  intros H. pose proof (readonly_preamble w request st) as Hro.
  rewrite H in Hro. simpl in Hro. subst st'. split; [reflexivity|].
  unfold preamble in H.
  apply bind_ok_inv in H as (sd & st1 & Hsd & H).
  unfold gets in Hsd. injection Hsd as <- <-.
  apply bind_ok_inv in H as (documents & st1' & Hdocs & H).
  unfold create_loader, tools_of in *.
  destruct (load_documents w (docslink request)) as [documents'|] eqn:Eload;
    simpl in Hdocs; [|discriminate].
  apply ret_ok_inv in Hdocs as [-> ->].
  apply bind_ok_inv in H as (tls & st2 & Htls & H).
  unfold create_tools in Htls.
  destruct (index_documents w documents') as [tls'|] eqn:Eindex;
    simpl in Htls; [|discriminate].
  apply ret_ok_inv in Htls as [-> ->].
  apply bind_ok_inv in H as (urls & st3 & Hurls & H).
  apply iterable_ok_inv in Hurls as [Hurls ->].
  apply bind_ok_inv in H as (contents & st4 & Hcont & H).
  pose proof (readonly_mapM (fetch_file_content w) urls (readonly_fetch_file_content w) st) as Hro'.
  rewrite Hcont in Hro'. simpl in Hro'. subst st4.
  apply bind_ok_inv in H as (cs & st5 & Hcs & H).
  rewrite fetch_capabilities_eq in Hcs. injection Hcs as <- <-.
  apply ret_ok_inv in H as [-> _]. simpl. eauto 6.
Qed.

(** ** Effects of the store primitives *)

Lemma writes_code_refl (code : string) (d : gmap string document) : writes_code code d d.
Proof. intros path. left. reflexivity. Qed.

Lemma writes_code_trans (code : string) (d1 d2 d3 : gmap string document) :
  writes_code code d1 d2 -> writes_code code d2 d3 -> writes_code code d1 d3.
Proof.
  intros H12 H23 path. destruct (H23 path) as [E|E]; [|right; exact E].
  rewrite E. apply H12.
Qed.

Lemma writes_code_insert (code path : string) (doc : document) (d : gmap string document) :
  doc !! "code" = Some code -> writes_code code d (<[path := doc]> d).
Proof.
  intros Hdoc q. destruct (decide (path = q)) as [->|Hne].
  - right. exists doc. rewrite lookup_insert_eq. auto.
  - left. apply lookup_insert_ne, Hne.
Qed.

Lemma db_step_refl (code : string) (st : State) : db_step code st st.
Proof. repeat split. apply writes_code_refl. Qed.

Lemma db_step_trans (code : string) (st1 st2 st3 : State) :
  db_step code st1 st2 -> db_step code st2 st3 -> db_step code st1 st3.
Proof.
  intros (S1 & A1 & W1) (S2 & A2 & W2). repeat split; try congruence.
  eapply writes_code_trans; eassumption.
Qed.

Lemma file_record_code (name code project_id created : string) (repoPath : option string) :
  file_record name code project_id created repoPath !! "code" = Some code.
Proof.
  unfold file_record. destruct repoPath;
    repeat (rewrite lookup_insert_ne by discriminate); apply lookup_insert_eq.
Qed.

Lemma set_file_eq (w : World) (name code project_id : string) (repoPath : option string)
    (st : State) :
  set_file w name code project_id repoPath st =
  (Ok tt,
   {| session_store := session_store st;
      db := <[project_file name :=
                file_record name code project_id (now w (clock st)) repoPath]> (db st);
      clock := S (clock st); agent_calls := agent_calls st |}).
Proof. reflexivity. Qed.

Lemma set_file_step (w : World) (name code project_id : string) (repoPath : option string)
    (st st' : State) (u : unit) :
  set_file w name code project_id repoPath st = (Ok u, st') ->
  db_step code st st' /\
  db st' !! project_file name = Some (file_record name code project_id (now w (clock st)) repoPath).
Proof.
  rewrite set_file_eq. intros H. injection H as _ <-. simpl. split.
  - repeat split. apply writes_code_insert, file_record_code.
  - apply lookup_insert_eq.
Qed.

Lemma doc_update_step (path code : string) (st st' : State) (u : unit) :
  doc_update path code st = (Ok u, st') -> db_step code st st'.
Proof.
  unfold doc_update. destruct (db st !! path) as [d|]; [|discriminate].
  intros H. injection H as _ <-. repeat split. simpl.
  apply writes_code_insert, lookup_insert_eq.
Qed.

Lemma session_set_eq (sid : string) (sd : session_dict) (st : State) :
  session_set sid sd st =
  (Ok tt,
   {| session_store := <[sid := sd]> (session_store st); db := db st;
      clock := clock st; agent_calls := agent_calls st |}).
Proof. reflexivity. Qed.

Lemma ainvoke_ok_inv (w : World) (tls : list string) (p : prompt) (ctx : context)
    (st st' : State) (o : option string) :
  ainvoke w tls p ctx st = (Ok o, st') ->
  agent_executor w tls p ctx = AgentReturns o /\
  session_store st' = session_store st /\ db st' = db st /\
  agent_calls st' = p :: agent_calls st.
Proof.
  unfold ainvoke. destruct (agent_executor w tls p ctx); [discriminate|].
  intros H. injection H as <- <-. auto.
Qed.

Lemma forM_step {A} (code : string) (body : A -> M unit) (l : list A) :
  (forall a st st' u, body a st = (Ok u, st') -> db_step code st st') ->
  forall st st' u, forM_ body l st = (Ok u, st') -> db_step code st st'.
Proof.
  intros Hbody. induction l as [|x xs IH]; intros st st' u H; simpl in H.
  - apply ret_ok_inv in H as [_ ->]. apply db_step_refl.
  - apply bind_ok_inv in H as (u1 & st1 & H1 & H2).
    eapply db_step_trans; [eapply Hbody, H1 | eapply IH, H2].
Qed.

(** ** What a completed stage has done *)

Ltac bind_inv H :=
  let a := fresh "a" in
  let st1 := fresh "st" in
  let Hm := fresh "Hm" in
  apply bind_ok_inv in H as (a & st1 & Hm & H); cbv beta in H.

Lemma stage1_post (w : World) (request : AgentInvokeRequest) (f : frame)
    (st st' : State) (r : response) :
  stage1 w request f st = (Ok r, st') ->
  stage_post w f (session_id request) 1 st st' r.
Proof.
  unfold stage1. cbv zeta. intros H.
  bind_inv H. apply ainvoke_ok_inv in Hm as (Hag & Hs & Hd & Hc).
  bind_inv H. apply set_file_step in Hm as [(Hs1 & Hc1 & Hw1) _].
  bind_inv H. rewrite session_set_eq in Hm. injection Hm as _ <-.
  apply ret_ok_inv in H as [-> ->]. simpl.
  econstructor; simpl;
    [ exact Hag | congruence | rewrite Hs1, Hs; reflexivity
    | reflexivity | reflexivity | reflexivity | rewrite <- Hd; exact Hw1 ].
Qed.

Ltac step_inv H :=
  bind_inv H;
  match goal with
  | Hm : ainvoke _ _ _ _ _ = _ |- _ =>
      apply ainvoke_ok_inv in Hm as (? & ? & ? & ?)
  | Hm : read_local _ _ _ = _ |- _ => apply read_local_ok_inv in Hm as [? ->]
  | Hm : iterable _ _ = _ |- _ => apply iterable_ok_inv in Hm as [? ->]
  | Hm : session_set _ _ _ = _ |- _ =>
      rewrite session_set_eq in Hm; injection Hm as _ <-
  | Hm : set_file _ _ _ _ _ _ = _ |- _ =>
      apply set_file_step in Hm as [(? & ? & ?) ?]
  | _ => idtac
  end.

(** Closes the routine side conditions of [StagePost]. *)
Ltac stage_done st :=
  econstructor; simpl;
  [ eassumption
  | congruence
  | match goal with
    | |- <[_ := _]> ?a = _ => replace a with (session_store st) by congruence
    end; reflexivity
  | reflexivity | reflexivity | reflexivity | ].

Lemma stage2_post (w : World) (request : AgentInvokeRequest) (f : frame)
    (st st' : State) (r : response) :
  stage2 w request f st = (Ok r, st') ->
  stage_post w f (session_id request) 2 st st' r.
Proof.
  unfold stage2. cbv zeta. intros H.
  do 4 step_inv H.
  bind_inv H.
  assert (Hw : db_step (format_response (output_or (sentinel 2) a1)) st0 st1).
  { destruct (find _ _); apply set_file_step in Hm as [Hm _]; exact Hm. }
  destruct Hw as (? & ? & Hw).
  step_inv H. apply ret_ok_inv in H as [-> ->].
  stage_done st.
  replace (db st) with (db st0) by congruence. exact Hw.
Qed.

Lemma subscript_ok_inv (paths : option (list string)) (index : nat) (p : string)
    (st st' : State) :
  subscript paths index st = (Ok p, st') -> st' = st.
Proof.
  unfold subscript. destruct paths as [ps|]; [|discriminate].
  destruct (ps !! index); [|discriminate]. intros H. injection H; auto.
Qed.

Lemma stage3_post (w : World) (request : AgentInvokeRequest) (f : frame)
    (st st' : State) (r : response) :
  stage3 w request f st = (Ok r, st') ->
  stage_post w f (session_id request) 3 st st' r.
Proof.
  unfold stage3. cbv zeta. intros H.
  do 5 step_inv H.
  bind_inv H.
  eapply (forM_step (format_response (output_or (sentinel 3) a2))) in Hm.
  2:{ intros [index file_name] s s' u Hb. bind_inv Hb.
      apply subscript_ok_inv in Hm0 as ->.
      apply set_file_step in Hb as [Hb _]. exact Hb. }
  destruct Hm as (? & ? & Hw).
  step_inv H. apply ret_ok_inv in H as [-> ->].
  stage_done st.
  replace (db st) with (db st0) by congruence. exact Hw.
Qed.

Lemma stage4_post (w : World) (request : AgentInvokeRequest) (f : frame)
    (st st' : State) (r : response) :
  stage4 w request f st = (Ok r, st') ->
  stage_post w f (session_id request) 4 st st' r.
Proof.
  unfold stage4. cbv zeta. intros H.
  do 6 step_inv H.
  bind_inv H.
  eapply (forM_step (format_response (output_or (sentinel 4) a3))) in Hm.
  2:{ intros file_name s s' u Hb. eapply doc_update_step, Hb. }
  destruct Hm as (? & ? & Hw).
  step_inv H. apply ret_ok_inv in H as [-> ->].
  stage_done st.
  replace (db st) with (db st0) by congruence. exact Hw.
Qed.

Lemma stage5_post (w : World) (request : AgentInvokeRequest) (f : frame)
    (st st' : State) (r : response) :
  stage5 w request f st = (Ok r, st') ->
  stage_post w f (session_id request) 5 st st' r.
Proof.
  unfold stage5. cbv zeta. intros H.
  do 3 step_inv H. apply ret_ok_inv in H as [-> ->].
  stage_done st.
  replace (db st) with (db st0) by congruence. assumption.
Qed.

Lemma readonly_find_frontend_code (request : AgentInvokeRequest) :
  readonly (find_frontend_code request).
Proof.
  unfold find_frontend_code. destruct (truthy_list _); [|apply readonly_ret].
  destruct (find _ _); [|apply readonly_ret].
  apply readonly_bind; [apply readonly_doc_get|].
  intros [d|]; apply readonly_ret.
Qed.

Lemma find_frontend_code_ok_inv (request : AgentInvokeRequest)
    (found : option (string * string)) (st st' : State) :
  find_frontend_code request st = (Ok found, st') -> st' = st.
Proof.
  intros H. pose proof (readonly_find_frontend_code request st) as Hro.
  rewrite H in Hro. exact Hro.
Qed.

(** The conditional update that ends stages 6 and 7. *)
Lemma conditional_update_step (cond : bool) (found : option (string * string))
    (code : string) (st st' : State) (u : unit) :
  (if cond
   then let* file_name := read_local "doc_ref" (fst <$> found) in
        doc_update (project_file file_name) code
   else ret tt) st = (Ok u, st') ->
  db_step code st st'.
Proof.
  destruct cond; intros H.
  - bind_inv H. apply read_local_ok_inv in Hm as [_ ->].
    eapply doc_update_step, H.
  - apply ret_ok_inv in H as [_ ->]. apply db_step_refl.
Qed.

Lemma stage6_post (w : World) (request : AgentInvokeRequest) (f : frame)
    (st st' : State) (r : response) :
  stage6 w request f st = (Ok r, st') ->
  stage_post w f (session_id request) 6 st st' r.
Proof.
  unfold stage6. cbv zeta. intros H.
  bind_inv H. apply find_frontend_code_ok_inv in Hm as ->.
  do 3 step_inv H.
  bind_inv H. apply conditional_update_step in Hm as (? & ? & Hw).
  step_inv H. apply ret_ok_inv in H as [-> ->].
  stage_done st.
  replace (db st) with (db st0) by congruence. exact Hw.
Qed.

Lemma stage7_post (w : World) (request : AgentInvokeRequest) (f : frame)
    (st st' : State) (r : response) :
  stage7 w request f st = (Ok r, st') ->
  stage_post w f (session_id request) 7 st st' r.
Proof.
  unfold stage7. cbv zeta. intros H.
  bind_inv H. apply find_frontend_code_ok_inv in Hm as ->.
  do 2 step_inv H.
  bind_inv H. apply conditional_update_step in Hm as (? & ? & Hw).
  step_inv H. apply ret_ok_inv in H as [-> ->].
  stage_done st.
  replace (db st) with (db st0) by congruence. exact Hw.
Qed.

Lemma stage8_post (w : World) (request : AgentInvokeRequest) (f : frame)
    (st st' : State) (r : response) :
  stage8 w request f st = (Ok r, st') ->
  stage_post w f (session_id request) 8 st st' r.
Proof.
  unfold stage8. cbv zeta. intros H.
  do 3 step_inv H. apply ret_ok_inv in H as [-> ->].
  stage_done st.
  replace (db st) with (db st0) by congruence. assumption.
Qed.

Lemma stage9_post (w : World) (request : AgentInvokeRequest) (f : frame)
    (st st' : State) (r : response) :
  stage9 w request f st = (Ok r, st') ->
  stage_post w f (session_id request) 9 st st' r /\ db st' = db st.
Proof.
  unfold stage9. cbv zeta. intros H.
  do 2 step_inv H. apply ret_ok_inv in H as [-> ->].
  split; [|simpl; congruence].
  stage_done st.
  replace (db st0) with (db st) by congruence. apply writes_code_refl.
Qed.

(** ** Dispatch *)

Lemma some_response_ok_inv (m : M response) (st st' : State) (o : option response) :
  some_response m st = (Ok o, st') -> exists r, o = Some r /\ m st = (Ok r, st').
Proof.
  unfold some_response. intros H. bind_inv H.
  apply ret_ok_inv in H as [-> ->]. eauto.
Qed.

Lemma dispatch_unhandled (w : World) (request : AgentInvokeRequest) (f : frame) :
  (step (session_data f) < 1 \/ 9 < step (session_data f))%Z ->
  dispatch w request f = ret None.
Proof.
  intros Hk. unfold dispatch. cbv zeta.
  repeat match goal with
         | |- context [(?a =? ?b)%Z] =>
             destruct (Z.eqb_spec a b) as [E|_]; [exfalso; lia|]
         end.
  reflexivity.
Qed.

Lemma dispatch_ok_inv (w : World) (request : AgentInvokeRequest) (f : frame)
    (st st' : State) (r : response) :
  dispatch w request f st = (Ok (Some r), st') ->
  (1 <= step (session_data f) <= 9)%Z /\
  stage_post w f (session_id request) (step (session_data f)) st st' r /\
  (step (session_data f) = 9%Z -> db st' = db st).
Proof.
  unfold dispatch. cbv zeta. intros H.
  repeat match type of H with
         | context [(?a =? ?b)%Z] =>
             destruct (Z.eqb_spec a b) as [E|?];
             [ rewrite E; apply some_response_ok_inv in H as (r' & Hr & H);
               injection Hr as <-; split; [lia|] | ]
         end.
  - split; [apply stage1_post, H | discriminate].
  - split; [apply stage2_post, H | discriminate].
  - split; [apply stage3_post, H | discriminate].
  - split; [apply stage4_post, H | discriminate].
  - split; [apply stage5_post, H | discriminate].
  - split; [apply stage6_post, H | discriminate].
  - split; [apply stage7_post, H | discriminate].
  - split; [apply stage8_post, H | discriminate].
  - apply stage9_post in H as [H1 H2]. auto.
  - apply ret_ok_inv in H as [H _]. discriminate.
Qed.

(** A request that produced a response ran its preamble without touching
    the state and then one stage. *)
Lemma agent_invoke_ok_inv (w : World) (request : AgentInvokeRequest)
    (st st' : State) (r : response) :
  agent_invoke w request st = (Ok (Some r), st') ->
  exists f, preamble w request st = (Ok f, st) /\
            dispatch w request f st = (Ok (Some r), st').
Proof.
  unfold agent_invoke. intros H. bind_inv H.
  pose proof (preamble_ok_inv _ _ _ _ _ Hm) as [-> _]. eauto.
Qed.

(** ** Capability accumulation *)

Lemma sanitized_of_snoc (ds : list document) (d : document) (key dflt : string) :
  sanitized_of (ds ++ [d])%list key dflt =
  Some (map sanitise (map (field_or key dflt) ds ++ [field_or key dflt d])%list).
Proof.
  unfold sanitized_of. destruct (ds ++ [d])%list eqn:E.
  - destruct ds; discriminate.
  - rewrite <- E, map_app. reflexivity.
Qed.

Lemma accumulate_truthy (ds : list document) (d : document) :
  truthy_doc (Some d) = true ->
  accumulate (locals_of ds) (Some d) = locals_of (ds ++ [d])%list.
Proof.
  intros Ht. unfold accumulate. rewrite Ht. unfold locals_of.
  rewrite !sanitized_of_snoc, !map_app. reflexivity.
Qed.

Lemma fold_accumulate (capability_docs : list (option document)) (ds : list document) :
  fold_left accumulate capability_docs (locals_of ds) =
  locals_of (ds ++ survivors capability_docs)%list.
Proof.
  revert ds. induction capability_docs as [|[d|] rest IH]; intros ds;
    cbn [fold_left survivors].
  - rewrite app_nil_r. reflexivity.
  - destruct (truthy_doc (Some d)) eqn:Ht.
    + rewrite (accumulate_truthy ds d Ht), IH, <- app_assoc. reflexivity.
    + unfold accumulate at 2. rewrite Ht. apply IH.
  - apply IH.
Qed.

Lemma accumulate_all_survivors (capability_docs : list (option document)) :
  accumulate_all capability_docs = locals_of (survivors capability_docs).
Proof. apply (fold_accumulate capability_docs []). Qed.

Lemma survivors_app (l1 l2 : list (option document)) :
  survivors (l1 ++ l2)%list = (survivors l1 ++ survivors l2)%list.
Proof.
  induction l1 as [|[d|] l1 IH]; cbn [app survivors]; [reflexivity | | exact IH].
  destruct (truthy_doc (Some d)); cbn [app]; congruence.
Qed.

(** Paths whose records all pass the test survive one for one. *)
Lemma survivors_all_truthy (docs : gmap string document) (paths : list string) :
  Forall (fun p => truthy_doc (docs !! p) = true) paths ->
  map Some (survivors (map (fun p => docs !! p) paths)) = map (fun p => docs !! p) paths.
Proof.
  induction 1 as [|p ps Hp _ IH]; [reflexivity|].
  cbn [map survivors]. destruct (docs !! p) as [d|] eqn:E; [|discriminate].
  rewrite Hp. cbn [map]. rewrite IH. reflexivity.
Qed.

Lemma survivors_none (docs : gmap string document) (paths : list string) :
  Forall (fun p => docs !! p = None) paths ->
  survivors (map (fun p => docs !! p) paths) = [].
Proof.
  induction 1 as [|p ps Hp _ IH]; [reflexivity|].
  cbn [map survivors]. rewrite Hp. exact IH.
Qed.

(** ** After the last stage *)

(** Once stage 9 has completed, the session is stored at stage 10, for which
    the dispatch has no branch: the next request of that session gets no
    response. *)
Lemma after_stage9_no_response (w w2 : World) (request request2 : AgentInvokeRequest)
    (st st' : State) (r : response) (f2 : frame) :
  agent_invoke w request st = (Ok (Some r), st') ->
  r_step r = 9%Z ->
  session_id request2 = session_id request ->
  preamble w2 request2 st' = (Ok f2, st') ->
  step (session_get (session_store st') (session_id request2)) = 10%Z /\
  agent_invoke w2 request2 st' = (Ok None, st').
Proof.
  intros Hrun Hnine Hsid Hpre2.
  apply agent_invoke_ok_inv in Hrun as (f & _ & Hdis).
  apply dispatch_ok_inv in Hdis as (_ & Hpost & _).
  destruct Hpost as [p ctx answer sd _ _ Hstore Hnext Hstep _ _].
  assert (Hten : step (session_get (session_store st') (session_id request2)) = 10%Z).
  { unfold session_get. rewrite Hsid, Hstore, lookup_insert_eq. simpl.
    rewrite Hnext, <- Hstep, Hnine. reflexivity. }
  split; [exact Hten|].
  unfold agent_invoke. rewrite (bind_ok _ _ _ _ _ Hpre2).
  apply preamble_ok_inv in Hpre2 as (_ & Hsd & _).
  rewrite dispatch_unhandled by (rewrite Hsd, Hten; lia). reflexivity.
Qed.

(** * The specification's claims *)

(** C1. A session identifier with no entry in the session store reads as the
    default state with stage 2, the request runs the stage-2 handler, and any
    response it yields is the stage-2 response, never the stage-1 one. *)
Theorem unseen_session_runs_stage2 (w : World) (request : AgentInvokeRequest) (st : State)
    (Hnew : session_store st !! session_id request = None) :
  step (session_get (session_store st) (session_id request)) = 2%Z /\
  agent_invoke w request st =
    (let* f := preamble w request in some_response (stage2 w request f)) st /\
  forall r st', agent_invoke w request st = (Ok (Some r), st') -> r_step r = 2%Z.
Proof.
  assert (Hdef : session_get (session_store st) (session_id request) = default_session).
  { unfold session_get. rewrite Hnew. reflexivity. }
  assert (Hrun : agent_invoke w request st =
                 (let* f := preamble w request in some_response (stage2 w request f)) st).
  { unfold agent_invoke, bind.
    destruct (preamble w request st) as [[f|e] st1] eqn:E; [|reflexivity].
    apply preamble_ok_inv in E as (-> & Hsd & _).
    unfold dispatch. rewrite Hsd, Hdef. reflexivity. }
  split; [rewrite Hdef; reflexivity|]. split; [exact Hrun|].
  intros r st' H. rewrite Hrun in H. bind_inv H.
  apply some_response_ok_inv in H as (r' & Hr & H). injection Hr as <-.
  apply stage2_post in H as []. assumption.
Qed.

Lemma unseen_session_runs_stage2_witness :
  let w := demo_world (Some fenced_answer) in
  let request := demo_request (Some []) (Some ["capabilities/search"]) in
  let st := demo_state None in
  session_store st !! session_id request = None /\
  step (session_get (session_store st) (session_id request)) = 2%Z /\
  agent_invoke w request st =
    (let* f := preamble w request in some_response (stage2 w request f)) st /\
  forall r st', agent_invoke w request st = (Ok (Some r), st') -> r_step r = 2%Z.
Proof.
  intros w request st. split; [reflexivity|].
  apply (unseen_session_runs_stage2 w request st). reflexivity.
Defined.

(** C2. A stage that completes stores, for its session, the successor the
    stage table gives: 1 to 2, 2 to 3, 3 to 4, 4 to 9, 5 to 8, 6 to 7, 7 to 8,
    8 to 9 and 9 to 10. *)
Theorem completed_stage_stores_successor (w : World) (request : AgentInvokeRequest)
    (st st' : State) (r : response)
    (Hrun : agent_invoke w request st = (Ok (Some r), st')) :
  r_step r = step (session_get (session_store st) (session_id request)) /\
  In (r_step r) (map fst stage_table) /\
  exists sd, session_store st' !! session_id request = Some sd /\
             next_stage (r_step r) = Some (step sd) /\
             next_stage 4 = Some 9%Z /\ next_stage 5 = Some 8%Z.
Proof.
  apply agent_invoke_ok_inv in Hrun as (f & Hpre & Hdis).
  apply preamble_ok_inv in Hpre as (_ & Hsd & _).
  apply dispatch_ok_inv in Hdis as (Hrange & Hpost & _).
  destruct Hpost as [p ctx answer sd _ _ Hstore Hnext Hstep _ _].
  rewrite <- Hsd. split; [exact Hstep|].
  rewrite Hstep. set (k := step (session_data f)) in *.
  assert (Hk : (k = 1 \/ k = 2 \/ k = 3 \/ k = 4 \/ k = 5 \/ k = 6 \/ k = 7 \/ k = 8
                \/ k = 9)%Z) by lia.
  split.
  - clearbody k. simpl. intuition auto.
  - exists sd. rewrite Hstore, lookup_insert_eq. split; [reflexivity|].
    rewrite Hnext. clearbody k.
    destruct Hk as [-> | [-> | [-> | [-> | [-> | [-> | [-> | [-> | ->] ] ] ] ] ] ] ];
      repeat split.
Qed.

Lemma completed_stage_stores_successor_witness :
  let w := demo_world (Some fenced_answer) in
  let request := demo_request (Some []) (Some ["capabilities/search"]) in
  exists r st',
    agent_invoke w request (demo_state (Some 4%Z)) = (Ok (Some r), st') /\
    r_step r = 4%Z /\
    exists sd, session_store st' !! session_id request = Some sd /\
               next_stage (r_step r) = Some (step sd) /\ step sd = 9%Z.
Proof.
  intros w request.
  destruct (agent_invoke w request (demo_state (Some 4%Z))) as [[[r|]|e] st'] eqn:E;
    try (vm_compute in E; discriminate).
  exists r, st'. split; [reflexivity|].
  destruct (completed_stage_stores_successor w request _ _ _ E) as (H1 & _ & sd & H2 & H3 & _).
  split; [rewrite H1; reflexivity|]. exists sd.
  split; [exact H2|]. split; [exact H3|].
  rewrite H1 in H3. change (Some 9%Z = Some (step sd)) in H3. congruence.
Defined.

(** C3. At stage 3 the request-guidance texts of the fetched capability
    records are put into the prompt as fetched.  For a new session, the first
    request runs stage 2 and the second one stage 3; the stage-3 prompt holds
    the guidance text with its braces single, next to the response-guidance
    text whose braces are doubled. *)
Theorem request_guidance_reaches_prompt_unescaped :
  let w := demo_world (Some fenced_answer) in
  let request := demo_request (Some []) (Some ["capabilities/search"]) in
  exists r1 st1 r2 st2 p2 p1,
    agent_invoke w request (demo_state None) = (Ok (Some r1), st1) /\
    agent_invoke w request st1 = (Ok (Some r2), st2) /\
    r_step r1 = 2%Z /\ r_step r2 = 3%Z /\
    agent_calls st2 = [p2; p1] /\
    In (Seq ["Send {origin}"]) (user_msg p2) /\
    In (Seq [sanitise "Read {offers}"]) (user_msg p2) /\
    ~ In (Seq [sanitise "Send {origin}"]) (user_msg p2) /\
    sanitise "Send {origin}" = "Send {{origin}}".
Proof.
  intros w request.
  eexists _, _, _, _, _, _.
  split; [vm_compute; reflexivity|]. split; [vm_compute; reflexivity|].
  split; [reflexivity|]. split; [reflexivity|]. split; [reflexivity|].
  split; [vm_compute; tauto|]. split; [vm_compute; tauto|].
  split; [|reflexivity].
  vm_compute. intros H.
  repeat (destruct H as [H|H]; [discriminate H|]). exact H.
Qed.

(** C4 as stated fails at stage 9, which neither strips the fence markers
    nor writes a document, and at stage 5, where the stored artifact is the
    agent's text with its fence markers while the response carries the
    stripped text. *)
Lemma stage_output_not_uniform :
  let w := demo_world (Some fenced_answer) in
  let request := demo_request (Some []) (Some ["capabilities/search"]) in
  (exists r st',
     agent_invoke w request (demo_state (Some 9%Z)) = (Ok (Some r), st') /\
     r_output r = OutList ["```python"; "print(1)"; "```"] /\
     db st' = demo_db /\
     format_response fenced_answer = "print(1)" ++ PyStr.nl) /\
  (exists r st' doc,
     agent_invoke w request (demo_state (Some 5%Z)) = (Ok (Some r), st') /\
     r_output r = OutStr (format_response fenced_answer) /\
     db st' !! project_file "integration_tests.py" = Some doc /\
     doc !! "code" = Some fenced_answer /\
     fenced_answer <> format_response fenced_answer).
Proof.
  intros w request. split.
  - destruct (agent_invoke w request (demo_state (Some 9%Z))) as [[[r|]|e] st'] eqn:E;
      try (vm_compute in E; discriminate).
    apply agent_invoke_ok_inv in E as (f & Hpre & Hdis).
    pose proof (preamble_ok_inv _ _ _ _ _ Hpre) as (_ & Hsd & _).
    unfold dispatch in Hdis. rewrite Hsd in Hdis.
    apply some_response_ok_inv in Hdis as (r' & Hr & Hdis). injection Hr as <-.
    pose proof (stage9_post _ _ _ _ _ _ Hdis) as [[p ctx answer sd Hagent _ _ _ _ Hout _] Hdb].
    injection Hagent as <-.
    exists r, st'. split; [reflexivity|]. split; [exact Hout|]. split; [exact Hdb|].
    vm_compute. reflexivity.
  - destruct (agent_invoke w request (demo_state (Some 5%Z))) as [[[r|]|e] st'] eqn:E;
      try (vm_compute in E; discriminate).
    vm_compute in E. injection E as <- <-.
    eexists _, _, _. split; [reflexivity|]. split; [reflexivity|].
    split; [vm_compute; reflexivity|]. split; [reflexivity|].
    vm_compute. discriminate.
Qed.

(** C5 as stated fails for a language name other than [python] and [jsx]:
    only the backquotes of the fence go, the tag stays in the output. *)
Lemma format_response_keeps_other_tag :
  format_response ("```javascript" ++ PyStr.nl ++ "let x = 1;" ++ PyStr.nl ++ "```")
  = "javascript" ++ PyStr.nl ++ "let x = 1;" ++ PyStr.nl /\
  format_response ("```javascript" ++ PyStr.nl ++ "let x = 1;" ++ PyStr.nl ++ "```")
  <> "let x = 1;" ++ PyStr.nl.
Proof. split; [vm_compute; reflexivity | vm_compute; discriminate]. Qed.

(** C5, amended. [format_response] is a total function of its argument.
    For a text [body] with no fence marker (three backquotes) in it:
    the opening fence tagged [python] or [jsx] with its newline, and the
    closing fence, are removed from around [body], which comes back
    byte-identical; [body] alone comes back unchanged; after the tag [python]
    or [jsx] without a newline the tag still goes and what follows is kept
    as it is, so [python3] leaves [3] and the rest; an opening fence followed
    by a [body] that starts with neither a backquote nor [python] nor [jsx]
    (no tag, or another language name) loses its backquotes only, the tag
    staying in the output.  No output, of any input, contains a fence
    marker. *)
Theorem format_response_fences (body : string)
    (Hbody : PyStr.contains fence body = false) :
  format_response ("```python" ++ PyStr.nl ++ body ++ fence) = body /\
  format_response ("```jsx" ++ PyStr.nl ++ body ++ fence) = body /\
  format_response body = body /\
  (forall s, PyStr.contains fence (format_response s) = false) /\
  format_response ("```python" ++ body ++ fence) = drop_newline body /\
  format_response ("```jsx" ++ body ++ fence) = drop_newline body /\
  (PyStr.starts_with "`" body = false ->
   PyStr.starts_with "python" body = false ->
   PyStr.starts_with "jsx" body = false ->
   format_response (fence ++ body ++ fence) = body).
Proof.
  split; [apply format_response_python_fence, Hbody|].
  split; [apply format_response_jsx_fence, Hbody|].
  split; [apply format_response_no_fence, Hbody|].
  split; [apply format_response_fence_free|].
  split; [apply format_response_python_tag, Hbody|].
  split; [apply format_response_jsx_tag, Hbody|].
  apply format_response_other_tag, Hbody.
Qed.

Lemma format_response_fences_witness :
  let body := "3" ++ PyStr.nl ++ "print({1: `a`})" ++ PyStr.nl in
  PyStr.contains fence body = false /\
  format_response ("```python" ++ PyStr.nl ++ body ++ "```") = body /\
  format_response ("```jsx" ++ PyStr.nl ++ body ++ "```") = body /\
  format_response body = body /\
  format_response ("```python3" ++ PyStr.nl ++ "print({1: `a`})" ++ PyStr.nl ++ "```") = body /\
  format_response ("```3" ++ PyStr.nl ++ "print({1: `a`})" ++ PyStr.nl ++ "```") = body.
Proof.
  intros body.
  destruct (format_response_fences body eq_refl)
    as (Hpy & Hjsx & Hid & _ & Hpy3 & _ & Hother).
  split; [reflexivity|]. split; [exact Hpy|]. split; [exact Hjsx|]. split; [exact Hid|].
  split; [exact Hpy3|]. apply Hother; reflexivity.
Defined.

(** C6. The response of a completed request carries a list exactly when the
    dispatched stage is 9, and that list is the agent output split at
    newlines; every other stage answers with one string. *)
Theorem output_is_list_iff_stage9 (w : World) (request : AgentInvokeRequest)
    (st st' : State) (r : response)
    (Hrun : agent_invoke w request st = (Ok (Some r), st')) :
  r_step r = step (session_get (session_store st) (session_id request)) /\
  ((exists l, r_output r = OutList l) <-> r_step r = 9%Z) /\
  ((exists s, r_output r = OutStr s) <-> r_step r <> 9%Z) /\
  (r_step r = 9%Z ->
   exists tls p ctx answer,
     tools_of w (docslink request) = Some tls /\
     agent_executor w tls p ctx = AgentReturns answer /\
     agent_calls st' = p :: agent_calls st /\
     r_output r =
       OutList (PyStr.split_on PyStr.nl_char
                  (output_or "No backend endpoint action performed." answer))) /\
  PyStr.split_on PyStr.nl_char ("Step 1: ..." ++ PyStr.nl ++ "Step 2: ...")
  = ["Step 1: ..."; "Step 2: ..."].
Proof.
  apply agent_invoke_ok_inv in Hrun as (f & Hpre & Hdis).
  apply preamble_ok_inv in Hpre as (_ & Hsd & Hload & _).
  apply dispatch_ok_inv in Hdis as (Hrange & Hpost & _).
  destruct Hpost as [p ctx answer sd Hagent Hcalls _ _ Hstep Hout _].
  rewrite <- Hsd. split; [exact Hstep|].
  rewrite Hstep. set (k := step (session_data f)) in *. clearbody k.
  unfold stage_output in Hout. rewrite Hout.
  destruct (Z.eqb_spec k 9) as [->|Hne].
  - split; [split; eauto|]. split.
    + split; [intros [s Hs]; discriminate | intros Hk; contradiction].
    + split; [|reflexivity]. intros _. exists (tools f), p, ctx, answer. auto.
  - split; [split; [intros [l Hl]; discriminate | intros Hk; contradiction]|].
    split; [split; eauto|]. split; [intros Hk; contradiction | reflexivity].
Qed.

Lemma output_is_list_iff_stage9_witness :
  let w := demo_world (Some ("Step 1: ..." ++ PyStr.nl ++ "Step 2: ...")) in
  let request := demo_request (Some []) None in
  exists r st',
    agent_invoke w request (demo_state (Some 9%Z)) = (Ok (Some r), st') /\
    r_step r = 9%Z /\
    r_output r = OutList ["Step 1: ..."; "Step 2: ..."].
Proof.
  intros w request.
  destruct (agent_invoke w request (demo_state (Some 9%Z))) as [[[r|]|e] st'] eqn:E;
    try (vm_compute in E; discriminate).
  exists r, st'. split; [reflexivity|].
  destruct (output_is_list_iff_stage9 w request _ _ _ E) as (Hstep & _ & _ & Hlist & _).
  split; [exact Hstep|].
  destruct (Hlist Hstep) as (tls & p & ctx & answer & _ & Hagent & _ & Hout).
  injection Hagent as <-. exact Hout.
Defined.

(** C7 as stated fails twice.  A record that exists but has no field is
    skipped like a missing one, so two paths with one missing document can
    leave no entry at all; and when the only referenced record is missing,
    the stage-2 request fails, while it completes when the record is there. *)
Lemma missing_capability_counterexample :
  let w := demo_world (Some fenced_answer) in
  (exists l,
     fetch_capabilities (Some ["capabilities/missing"; "capabilities/blank"]) (demo_state None)
     = (Ok l, demo_state None) /\
     demo_db !! "capabilities/missing" = None /\
     demo_db !! "capabilities/blank" = Some ∅ /\
     capabilities_names l = []) /\
  fst (agent_invoke w (demo_request (Some []) (Some ["capabilities/missing"])) (demo_state None))
  = Raised (UnboundLocalError "sanitized_capabilities_headers") /\
  exists r,
    fst (agent_invoke w (demo_request (Some []) (Some ["capabilities/search"])) (demo_state None))
    = Ok (Some r).
Proof.
  intros w. split; [|split].
  - eexists. split; [reflexivity|]. split; [reflexivity|]. split; reflexivity.
  - vm_compute. reflexivity.
  - eexists. vm_compute. reflexivity.
Qed.

(** C7, amended. When exactly one of N capability paths resolves to no
    document and every other one to a record with at least one field, the
    fetch itself succeeds without changing the state, and each parallel
    sequence is built from the N-1 surviving records in the order of their
    paths. *)
Theorem capability_fetch_skips_missing (st : State) (before after : list string)
    (missing : string)
    (Hmissing : db st !! missing = None)
    (Hothers : Forall (fun p => truthy_doc (db st !! p) = true) (before ++ after)%list) :
  exists docs,
    fetch_capabilities (Some (before ++ missing :: after)%list) st = (Ok (locals_of docs), st) /\
    map Some docs = map (fun p => db st !! p) (before ++ after)%list /\
    length docs = (length (before ++ missing :: after)%list - 1)%nat /\
    length (capabilities_names (locals_of docs)) = length docs /\
    length (capabilities_requestGuidance (locals_of docs)) = length docs.
Proof.
  exists (survivors (map (fun p => db st !! p) (before ++ after)%list)).
  assert (Hsurv : survivors (map (fun p => db st !! p) (before ++ missing :: after)%list)
                  = survivors (map (fun p => db st !! p) (before ++ after)%list)).
  { rewrite !map_app, !survivors_app. cbn [map survivors]. rewrite Hmissing. reflexivity. }
  pose proof (survivors_all_truthy (db st) _ Hothers) as Hall.
  split.
  - rewrite fetch_capabilities_eq. cbn [from_option id].
    rewrite accumulate_all_survivors, Hsurv. reflexivity.
  - split; [exact Hall|].
    assert (Hlen : length (survivors (map (fun p => db st !! p) (before ++ after)%list))
                   = length (before ++ after)%list).
    { rewrite <- (length_map Some), Hall, length_map. reflexivity. }
    split; [rewrite Hlen, !length_app; simpl; lia|].
    simpl. rewrite !length_map. auto.
Qed.

Lemma capability_fetch_skips_missing_witness :
  let st := demo_state None in
  db st !! "capabilities/missing" = None /\
  exists docs,
    fetch_capabilities (Some ["capabilities/missing"; "capabilities/search"]) st
    = (Ok (locals_of docs), st) /\
    length docs = 1%nat.
Proof.
  intros st. split; [reflexivity|].
  destruct (capability_fetch_skips_missing st [] ["capabilities/search"]
              "capabilities/missing") as (docs & Hfetch & _ & Hlen & _).
  - reflexivity.
  - repeat constructor.
  - exists docs. split; [exact Hfetch | exact Hlen].
Defined.

(** C8. When the stored stage of the session is none of 1 to 9 (stage 10,
    stored when stage 9 completes, is one), no branch of the dispatch is
    taken: once the preamble has run the handler returns nothing, and in
    every case the state is left as it was. *)
Theorem unhandled_stage_no_response (w : World) (request : AgentInvokeRequest) (st : State)
    (Hstage : (step (session_get (session_store st) (session_id request)) < 1 \/
               9 < step (session_get (session_store st) (session_id request)))%Z) :
  agent_invoke w request st =
  (match fst (preamble w request st) with
   | Ok _ => Ok None
   | Raised e => Raised e
   end, st).
Proof.
  unfold agent_invoke, bind.
  destruct (preamble w request st) as [[f|e] st1] eqn:E; simpl.
  - apply preamble_ok_inv in E as (-> & Hsd & _).
    rewrite dispatch_unhandled by (rewrite Hsd; exact Hstage). reflexivity.
  - pose proof (readonly_preamble w request st) as Hro.
    rewrite E in Hro. simpl in Hro. subst st1. reflexivity.
Qed.

Lemma unhandled_stage_no_response_witness :
  let w := demo_world (Some fenced_answer) in
  let request := demo_request (Some []) None in
  let st := demo_state (Some 10%Z) in
  (step (session_get (session_store st) (session_id request)) < 1 \/
   9 < step (session_get (session_store st) (session_id request)))%Z /\
  agent_invoke w request st = (Ok None, st).
Proof.
  intros w request st. split; [right; reflexivity|].
  rewrite (unhandled_stage_no_response w request st); [reflexivity|].
  right. reflexivity.
Defined.

(** C9. A request that reaches the dispatch at stage 2 with no capability
    reference, an empty list of them, or references that all resolve to no
    document raises the unbound-local error on the sanitized headers; the
    agent has not been invoked and neither a document nor the session has
    changed, the state being the one before the request. *)
Theorem stage2_unbound_without_capabilities (w : World) (request : AgentInvokeRequest)
    (st : State) (f : frame)
    (Hpre : preamble w request st = (Ok f, st))
    (Hstage : step (session_get (session_store st) (session_id request)) = 2%Z)
    (Hrefs : capabilityRefs request = None \/
             exists paths, capabilityRefs request = Some paths /\
                           Forall (fun p => db st !! p = None) paths) :
  agent_invoke w request st =
  (Raised (UnboundLocalError "sanitized_capabilities_headers"), st).
Proof.
  unfold agent_invoke. rewrite (bind_ok _ _ _ _ _ Hpre).
  apply preamble_ok_inv in Hpre as (_ & Hsd & _ & _ & Hcaps).
  assert (Hnone : caps f = no_capabilities).
  { rewrite Hcaps, accumulate_all_survivors.
    destruct Hrefs as [-> | (paths & -> & Hall)]; [reflexivity|].
    cbn [from_option id]. rewrite (survivors_none _ _ Hall). reflexivity. }
  unfold dispatch. rewrite Hsd, Hstage. cbn [Z.eqb Pos.eqb].
  unfold some_response, stage2. cbv zeta. rewrite Hnone. reflexivity.
Qed.

Lemma stage2_unbound_without_capabilities_witness :
  let w := demo_world (Some fenced_answer) in
  let request := demo_request (Some []) (Some ["capabilities/missing"]) in
  let st := demo_state None in
  agent_invoke w request st =
  (Raised (UnboundLocalError "sanitized_capabilities_headers"), st).
Proof.
  intros w request st.
  eapply (stage2_unbound_without_capabilities w request st).
  - vm_compute. reflexivity.
  - reflexivity.
  - right. exists ["capabilities/missing"]. split; [reflexivity|].
    constructor; [reflexivity | constructor].
Defined.

(** C10. A request without the suggested file URLs raises before any stage
    is dispatched, whatever the session's stage: the fan-out over the missing
    list is a type error (unless loading or indexing the provider documents
    has already failed), and the state is left as it was. *)
Theorem missing_file_urls_raises (w : World) (request : AgentInvokeRequest) (st : State)
    (Hurls : suggested_file_urls request = None) :
  agent_invoke w request st =
  (Raised (match tools_of w (docslink request) with
           | Some _ => TypeError
           | None => CollaboratorError
           end), st).
Proof.
  unfold agent_invoke, preamble, bind, gets, create_loader, create_tools, tools_of.
  destruct (load_documents w (docslink request)) as [documents|]; simpl; [|reflexivity].
  destruct (index_documents w documents); simpl; [|reflexivity].
  rewrite Hurls. reflexivity.
Qed.

Lemma missing_file_urls_raises_witness :
  let w := demo_world (Some fenced_answer) in
  let request := demo_request None (Some ["capabilities/search"]) in
  suggested_file_urls request = None /\
  agent_invoke w request (demo_state (Some 7%Z)) = (Raised TypeError, demo_state (Some 7%Z)).
Proof.
  intros w request. split; [reflexivity|].
  apply (missing_file_urls_raises w request (demo_state (Some 7%Z))). reflexivity.
Defined.

(** * Further properties *)

(** ** Character-wise view of the replacements *)

Section CharReplace.

Local Arguments String.append : simpl nomatch.

Lemma string_app_assoc (a b c : string) : (a ++ b) ++ c = a ++ b ++ c.
Proof. induction a as [|x a IH]; simpl; [reflexivity | rewrite IH; reflexivity]. Qed.

Lemma string_app_nil_r (a : string) : a ++ "" = a.
Proof. induction a as [|x a IH]; simpl; [reflexivity | rewrite IH; reflexivity]. Qed.

Lemma string_bind_app (f : ascii -> string) (a b : string) :
  string_bind f (a ++ b) = string_bind f a ++ string_bind f b.
Proof.
  induction a as [|x a IH]; simpl; [reflexivity|].
  rewrite IH, string_app_assoc. reflexivity.
Qed.

Lemma string_bind_bind (f g : ascii -> string) (s : string) :
  string_bind g (string_bind f s) = string_bind (fun c => string_bind g (f c)) s.
Proof.
  induction s as [|x s IH]; simpl; [reflexivity|].
  rewrite string_bind_app, IH. reflexivity.
Qed.

Lemma string_bind_ext (f g : ascii -> string) (s : string) :
  (forall c, f c = g c) -> string_bind f s = string_bind g s.
Proof. intros H. induction s as [|x s IH]; simpl; [reflexivity | rewrite H, IH; reflexivity]. Qed.

Lemma starts_with_char (a c : ascii) (s : string) :
  PyStr.starts_with (String a "") (String c s) = Ascii.eqb c a.
Proof.
  unfold PyStr.starts_with. simpl.
  destruct (ascii_dec a c) as [->|Hne].
  - rewrite Ascii.eqb_refl. destruct s; reflexivity.
  - symmetry. apply Ascii.eqb_neq. congruence.
Qed.

(** [s.replace(a, new)] for a one-character [a] substitutes character by
    character. *)
Lemma replace_char (a : ascii) (new s : string) :
  PyStr.replace (String a "") new s = string_bind (swap_char a new) s.
Proof.
  unfold PyStr.replace.
  induction s as [|c s IH]; [reflexivity|].
  cbn [PyStr.replace_from string_bind]. rewrite starts_with_char. unfold swap_char at 1.
  destruct (Ascii.eqb c a); simpl; rewrite IH; reflexivity.
Qed.

Lemma double_brace_two_passes (c : ascii) :
  string_bind (swap_char "}" "}}") (swap_char "{" "{{" c) = double_brace c.
Proof.
  unfold swap_char, double_brace.
  destruct (Ascii.eqb c "{") eqn:E1; [reflexivity|].
  simpl. unfold swap_char. destruct (Ascii.eqb c "}"); reflexivity.
Qed.

Lemma sanitise_string_bind (s : string) : sanitise s = string_bind double_brace s.
Proof.
  unfold sanitise. rewrite !replace_char, string_bind_bind.
  apply string_bind_ext, double_brace_two_passes.
Qed.

Lemma sanitise_app (a b : string) : sanitise (a ++ b) = sanitise a ++ sanitise b.
Proof. rewrite !sanitise_string_bind. apply string_bind_app. Qed.

Lemma has_char_app (a : ascii) (x y : string) :
  has_char a (x ++ y) = has_char a x || has_char a y.
Proof.
  induction x as [|c x IH]; simpl; [reflexivity|].
  rewrite IH, orb_assoc. reflexivity.
Qed.

End CharReplace.

(** ** Brace doubling *)

(** X1. The two replacements of the brace doubling amount to one pass over
    the text that turns every opening brace into two, every closing brace
    into two, and keeps every other character: the second replacement does
    not touch what the first one produced. *)
Theorem sanitise_is_character_wise (s : string) :
  sanitise s = string_bind double_brace s.
Proof. apply sanitise_string_bind. Qed.

Lemma string_bind_double_brace_inj (a : string) :
  forall b, string_bind double_brace a = string_bind double_brace b -> a = b.
Proof.
  induction a as [|x a IH]; intros [|y b] H.
  - reflexivity.
  - exfalso. simpl in H. unfold double_brace in H.
    destruct (Ascii.eqb y "{"); [discriminate|].
    destruct (Ascii.eqb y "}"); discriminate.
  - exfalso. simpl in H. unfold double_brace in H.
    destruct (Ascii.eqb x "{"); [discriminate|].
    destruct (Ascii.eqb x "}"); discriminate.
  - cbn [string_bind] in H. unfold double_brace in H.
    destruct (Ascii.eqb_spec x "{") as [->|Hx1];
      destruct (Ascii.eqb_spec y "{") as [->|Hy1].
    + injection H as H. f_equal. apply IH, H.
    + destruct (Ascii.eqb_spec y "}") as [->|Hy2]; [discriminate|].
      injection H as Hy _. congruence.
    + destruct (Ascii.eqb_spec x "}") as [->|Hx2]; [discriminate|].
      injection H as Hx _. congruence.
    + destruct (Ascii.eqb_spec x "}") as [->|Hx2];
        destruct (Ascii.eqb_spec y "}") as [->|Hy2].
      * injection H as H. f_equal. apply IH, H.
      * injection H as Hy _. congruence.
      * injection H as Hx _. congruence.
      * injection H as -> H. f_equal. apply IH, H.
Qed.

(** X2. The brace doubling loses nothing: two texts with the same sanitised
    form are the same text. *)
Theorem sanitise_injective (a b : string) (Heq : sanitise a = sanitise b) : a = b.
Proof.
  rewrite !sanitise_string_bind in Heq. apply (string_bind_double_brace_inj a b Heq).
Qed.

Lemma sanitise_injective_witness :
  sanitise "f({x})" = sanitise ("f({" ++ "x})") /\ "f({x})" = "f({" ++ "x})".
Proof.
  split; [reflexivity|].
  apply (sanitise_injective "f({x})" ("f({" ++ "x})")). reflexivity.
Defined.

Lemma string_length_app (a b : string) :
  String.length (a ++ b) = String.length a + String.length b.
Proof. induction a as [|x a IH]; simpl; [reflexivity | rewrite IH; reflexivity]. Qed.

Lemma string_bind_double_brace_length (s : string) :
  String.length (string_bind double_brace s) = String.length s + brace_count s.
Proof.
  induction s as [|c s IH]; [reflexivity|].
  cbn [string_bind brace_count String.length]. rewrite string_length_app, IH.
  unfold double_brace.
  destruct (Ascii.eqb c "{"); simpl; [lia|].
  destruct (Ascii.eqb c "}"); simpl; lia.
Qed.

Lemma string_bind_double_brace_id (s : string) :
  brace_count s = 0 -> string_bind double_brace s = s.
Proof.
  induction s as [|c s IH]; [reflexivity|].
  cbn [string_bind brace_count]. unfold double_brace at 1.
  destruct (Ascii.eqb c "{"); simpl; [discriminate|].
  destruct (Ascii.eqb c "}"); simpl; [discriminate|].
  intros H. rewrite (IH H). reflexivity.
Qed.

(** X3. Sanitising lengthens a text by exactly one character per brace; the
    text comes back unchanged exactly when it holds no brace. *)
Theorem sanitise_length (s : string) :
  String.length (sanitise s) = String.length s + brace_count s /\
  (sanitise s = s <-> brace_count s = 0).
Proof.
  rewrite sanitise_string_bind. split; [apply string_bind_double_brace_length|].
  split.
  - intros H. pose proof (string_bind_double_brace_length s) as Hlen.
    rewrite H in Hlen. lia.
  - apply string_bind_double_brace_id.
Qed.

Lemma sanitise_join (sep : string) (parts : list string) :
  sanitise (PyStr.join sep parts) = PyStr.join (sanitise sep) (map sanitise parts).
Proof.
  unfold PyStr.join.
  induction parts as [|x [|y parts] IH]; [reflexivity | reflexivity |].
  change (String.concat sep (x :: y :: parts)) with (x ++ sep ++ String.concat sep (y :: parts)).
  change (String.concat (sanitise sep) (map sanitise (x :: y :: parts)))
    with (sanitise x ++ sanitise sep ++ String.concat (sanitise sep) (map sanitise (y :: parts))).
  rewrite !sanitise_app, IH. reflexivity.
Qed.

Lemma mapM_ok_state {A B} (f : A -> M B) (l : list A) (st st' : State) (ys : list B) :
  (forall a, readonly (f a)) -> mapM f l st = (Ok ys, st') -> st' = st.
Proof.
  intros Hf H. pose proof (readonly_mapM f l Hf st) as Hro. rewrite H in Hro. exact Hro.
Qed.

(** X4. The text a stage receives for the fetched repository files is the
    sanitised contents of the files, in the order of the URLs, joined by the
    separator: sanitising the concatenation, as the code does, equals joining
    the sanitised files, the separator holding no brace. *)
Theorem sanitised_contents_are_joined (w : World) (request : AgentInvokeRequest)
    (st : State) (f : frame)
    (Hpre : preamble w request st = (Ok f, st)) :
  exists urls contents,
    suggested_file_urls request = Some urls /\
    mapM (fetch_file_content w) urls st = (Ok contents, st) /\
    length contents = length urls /\
    sanitised_github_file_contents f = PyStr.join file_separator (map sanitise contents).
Proof.
  pose proof (readonly_fetch_file_content w) as Hfetch.
  unfold preamble in Hpre.
  apply bind_ok_inv in Hpre as (sd & s1 & H1 & Hpre).
  unfold gets in H1. injection H1 as _ <-.
  apply bind_ok_inv in Hpre as (documents & s2 & H2 & Hpre).
  pose proof (readonly_collaborator (load_documents w (docslink request)) st) as R2.
  unfold create_loader in H2. rewrite H2 in R2. simpl in R2. subst s2.
  apply bind_ok_inv in Hpre as (tls & s3 & H3 & Hpre).
  pose proof (readonly_collaborator (index_documents w documents) st) as R3.
  unfold create_tools in H3. rewrite H3 in R3. simpl in R3. subst s3.
  apply bind_ok_inv in Hpre as (urls & s4 & H4 & Hpre).
  apply iterable_ok_inv in H4 as [Hurls ->].
  apply bind_ok_inv in Hpre as (contents & s5 & H5 & Hpre).
  pose proof (mapM_ok_state _ _ _ _ _ Hfetch H5) as ->.
  apply bind_ok_inv in Hpre as (cs & s6 & H6 & Hpre).
  apply ret_ok_inv in Hpre as [-> _].
  exists urls, contents. split; [exact Hurls|]. split; [exact H5|]. split.
  - clear - H5 Hfetch. revert contents H5.
    induction urls as [|u us IH]; intros ys H; simpl in H.
    + apply ret_ok_inv in H as [-> _]. reflexivity.
    + apply bind_ok_inv in H as (y & s1 & Hy & H).
      pose proof (Hfetch u st) as Ry. rewrite Hy in Ry. simpl in Ry. subst s1.
      apply bind_ok_inv in H as (ys' & s2 & Hys & H).
      pose proof (mapM_ok_state _ _ _ _ _ Hfetch Hys) as ->.
      apply ret_ok_inv in H as [-> _]. simpl. f_equal. apply IH, Hys.
  - cbn [sanitised_github_file_contents]. apply (sanitise_join file_separator).
Qed.

Lemma sanitised_contents_are_joined_witness :
  let w := demo_world None in
  let request := demo_request (Some ["u1"; "u2"]) None in
  exists f urls contents,
    preamble w request (demo_state None) = (Ok f, demo_state None) /\
    suggested_file_urls request = Some urls /\
    length contents = length urls /\
    sanitised_github_file_contents f = PyStr.join file_separator (map sanitise contents).
Proof.
  intros w request.
  destruct (preamble w request (demo_state None)) as [[f|e] st'] eqn:E;
    [|vm_compute in E; discriminate].
  pose proof (readonly_preamble w request (demo_state None)) as Hro.
  rewrite E in Hro. simpl in Hro. subst st'.
  destruct (sanitised_contents_are_joined w request _ f E)
    as (urls & contents & H1 & _ & H3 & H4).
  exists f, urls, contents. auto.
Defined.

(** ** Fence stripping, continued *)

(** X5. Stripping is idempotent: a stripped text holds no fence marker, so
    stripping it again (as stage 2 does before answering) changes nothing. *)
Theorem format_response_idempotent (s : string) :
  format_response (format_response s) = format_response s.
Proof. apply format_response_no_fence, format_response_fence_free. Qed.

Lemma re_sub_fence_open_length (s : string) :
  forall skip, String.length (re_sub_fence_open skip s) <= String.length s.
Proof.
  induction s as [|c s IH]; intros skip; [destruct skip; apply le_n|].
  cbn [re_sub_fence_open String.length]. destruct skip as [|k].
  - destruct (fence_open_len (String c s)) as [n|].
    + apply le_S, IH.
    + cbn [String.length]. apply le_n_S, IH.
  - apply le_S, IH.
Qed.

Lemma replace_from_empty_length (old s : string) :
  forall skip, String.length (PyStr.replace_from old "" skip s) <= String.length s.
Proof.
  induction s as [|c s IH]; intros skip; [destruct skip; apply le_n|].
  cbn [PyStr.replace_from String.length]. destruct skip as [|k].
  - destruct (PyStr.starts_with old (String c s)).
    + apply le_S, IH.
    + cbn [String.length]. apply le_n_S, IH.
  - apply le_S, IH.
Qed.

(** X6. Stripping only deletes: the result is never longer than the agent's
    text. *)
Theorem format_response_not_longer (s : string) :
  String.length (format_response s) <= String.length s.
Proof.
  unfold format_response, PyStr.replace, fence.
  etransitivity; [apply replace_from_empty_length | apply re_sub_fence_open_length].
Qed.

(** ** The step list of stage 9 *)

Lemma split_on_nonempty (sep : ascii) (s : string) : PyStr.split_on sep s <> [].
Proof.
  destruct s as [|c s]; simpl; [discriminate|].
  destruct (Ascii.eqb c sep); [discriminate|].
  destruct (PyStr.split_on sep s); discriminate.
Qed.

Lemma join_cons_char (sep : string) (c : ascii) (h : string) (t : list string) :
  PyStr.join sep (String c h :: t) = String c (PyStr.join sep (h :: t)).
Proof. destruct t; reflexivity. Qed.

Lemma join_split (s : string) :
  PyStr.join PyStr.nl (PyStr.split_on PyStr.nl_char s) = s.
Proof.
  induction s as [|c s IH]; [reflexivity|].
  cbn [PyStr.split_on].
  destruct (Ascii.eqb_spec c PyStr.nl_char) as [->|Hne].
  - destruct (PyStr.split_on PyStr.nl_char s) as [|h t] eqn:E.
    + exfalso. exact (split_on_nonempty _ _ E).
    + change (PyStr.join PyStr.nl ("" :: h :: t))
        with (String PyStr.nl_char (PyStr.join PyStr.nl (h :: t))).
      rewrite IH. reflexivity.
  - destruct (PyStr.split_on PyStr.nl_char s) as [|h t] eqn:E.
    + exfalso. exact (split_on_nonempty _ _ E).
    + rewrite join_cons_char, IH. reflexivity.
Qed.

Lemma split_on_no_sep (sep : ascii) (s : string) :
  Forall (fun item => has_char sep item = false) (PyStr.split_on sep s).
Proof.
  induction s as [|c s IH]; simpl; [repeat constructor|].
  destruct (Ascii.eqb c sep) eqn:Ec; [constructor; [reflexivity | exact IH]|].
  destruct (PyStr.split_on sep s) as [|h t]; [repeat constructor; simpl; rewrite Ec; reflexivity|].
  inversion IH as [|? ? Hh Ht]; subst. constructor; [|exact Ht].
  simpl. rewrite Ec, Hh. reflexivity.
Qed.

(** X7. The list a stage-9 response carries is never empty, none of its
    items holds a newline, and joined by newlines it gives back the agent's
    text exactly: the split loses nothing. *)
Theorem steps_list_round_trip (w : World) (request : AgentInvokeRequest)
    (st st' : State) (r : response) (steps_list : list string)
    (Hrun : agent_invoke w request st = (Ok (Some r), st'))
    (Hlist : r_output r = OutList steps_list) :
  exists tls p ctx answer,
    tools_of w (docslink request) = Some tls /\
    agent_executor w tls p ctx = AgentReturns answer /\
    PyStr.join PyStr.nl steps_list
      = output_or "No backend endpoint action performed." answer /\
    steps_list <> [] /\
    Forall (fun item => has_char PyStr.nl_char item = false) steps_list.
Proof.
  apply agent_invoke_ok_inv in Hrun as (f & Hpre & Hdis).
  apply preamble_ok_inv in Hpre as (_ & _ & Hload & _).
  apply dispatch_ok_inv in Hdis as (_ & Hpost & _).
  destruct Hpost as [p ctx answer sd Hagent _ _ _ _ Hout _].
  rewrite Hlist in Hout. unfold stage_output in Hout.
  destruct (Z.eqb_spec (step (session_data f)) 9) as [E|_]; [|discriminate].
  injection Hout as ->. rewrite E. exists (tools f), p, ctx, answer.
  split; [exact Hload|]. split; [exact Hagent|].
  split; [apply join_split|]. split; [apply split_on_nonempty | apply split_on_no_sep].
Qed.

Lemma steps_list_round_trip_witness :
  let text := "1. Sign up" ++ PyStr.nl ++ PyStr.nl ++ "2. Copy the key" ++ PyStr.nl in
  let w := demo_world (Some text) in
  let request := demo_request (Some []) None in
  exists r st' steps_list,
    agent_invoke w request (demo_state (Some 9%Z)) = (Ok (Some r), st') /\
    r_output r = OutList steps_list /\
    PyStr.join PyStr.nl steps_list = text /\
    length steps_list = 4.
Proof.
  intros text w request.
  destruct (agent_invoke w request (demo_state (Some 9%Z))) as [[[r|]|e] st'] eqn:E;
    try (vm_compute in E; discriminate).
  assert (Hout : r_output r = OutList ["1. Sign up"; ""; "2. Copy the key"; ""])
    by (vm_compute in E; injection E as <- _; reflexivity).
  exists r, st', ["1. Sign up"; ""; "2. Copy the key"; ""].
  split; [reflexivity|]. split; [exact Hout|].
  destruct (steps_list_round_trip w request _ _ r _ E Hout)
    as (tls & p & ctx & answer & _ & Hagent & Hjoin & _).
  injection Hagent as <-. split; [exact Hjoin | reflexivity].
Defined.

(** ** The name of the documentation artifact *)

Lemma has_char_swap_same (a : ascii) (new s : string) :
  has_char a new = false -> has_char a (string_bind (swap_char a new) s) = false.
Proof.
  intros Hnew. induction s as [|c s IH]; [reflexivity|].
  cbn [string_bind]. rewrite has_char_app, IH, orb_false_r. unfold swap_char.
  destruct (Ascii.eqb c a) eqn:E; [exact Hnew|]. simpl. rewrite E. reflexivity.
Qed.

Lemma has_char_swap_other (a b : ascii) (new s : string) :
  has_char a new = false -> has_char a s = false ->
  has_char a (string_bind (swap_char b new) s) = false.
Proof.
  intros Hnew. induction s as [|c s IH]; [reflexivity|].
  cbn [string_bind has_char]. intros H. apply orb_false_elim in H as [Hc Hs].
  rewrite has_char_app, (IH Hs), orb_false_r. unfold swap_char.
  destruct (Ascii.eqb c b); [exact Hnew|]. simpl. rewrite Hc. reflexivity.
Qed.

Lemma ends_with_app (suf x : string) : PyStr.ends_with suf (x ++ suf) = true.
Proof.
  induction x as [|c x IH].
  - destruct suf; simpl; [reflexivity|]. rewrite Ascii.eqb_refl, String.eqb_refl. reflexivity.
  - change (String c x ++ suf) with (String c (x ++ suf)).
    cbn [PyStr.ends_with]. rewrite IH. apply orb_true_r.
Qed.

(** The name before the last two replacements. *)
Lemma documentation_file_name_eq (endPoints : list string) :
  exists middle,
    documentation_file_name endPoints =
    string_bind (swap_char "?" "_")
      (string_bind (swap_char ":" "_") ("TechnicalDocumentation" ++ middle ++ ".txt")) /\
    has_char "/" middle = false.
Proof.
  unfold documentation_file_name. rewrite !replace_char.
  destruct endPoints as [|endPoint rest].
  - exists "". split; reflexivity.
  - exists ("_" ++ string_bind (swap_char "/" "_") endPoint). rewrite replace_char.
    split; [reflexivity|].
    change ("_" ++ ?x) with (String "_" x). cbn [has_char].
    rewrite has_char_swap_same; reflexivity.
Qed.

(** X8. Whatever the first endpoint is, the name under which stage 8 stores
    the documentation holds no slash, colon or question mark, starts with
    [TechnicalDocumentation] and ends in [.txt]. *)
Theorem documentation_file_name_safe (endPoints : list string) :
  has_char "/" (documentation_file_name endPoints) = false /\
  has_char ":" (documentation_file_name endPoints) = false /\
  has_char "?" (documentation_file_name endPoints) = false /\
  PyStr.starts_with "TechnicalDocumentation" (documentation_file_name endPoints) = true /\
  PyStr.ends_with ".txt" (documentation_file_name endPoints) = true.
Proof.
  destruct (documentation_file_name_eq endPoints) as (middle & -> & Hmid).
  split; [|split; [|split; [|split]]].
  - apply has_char_swap_other; [reflexivity|].
    apply has_char_swap_other; [reflexivity|].
    rewrite !has_char_app, Hmid. reflexivity.
  - apply has_char_swap_other; [reflexivity|].
    apply has_char_swap_same. reflexivity.
  - apply has_char_swap_same. reflexivity.
  - rewrite !string_bind_app. apply starts_with_iff. eexists. reflexivity.
  - rewrite !string_bind_app.
    change (string_bind (swap_char "?" "_") (string_bind (swap_char ":" "_") ".txt"))
      with ".txt".
    rewrite <- string_app_assoc. apply ends_with_app.
Qed.

(** ** Invariants of a request *)

Section StepRelLemmas.

Variable R : State -> State -> Prop.
Hypothesis HR : StepRel R.

Lemma inv_readonly {A} (m : M A) : readonly m -> inv R m.
Proof. intros Hro st. rewrite (Hro st). apply (sr_refl R HR). Qed.

Lemma inv_bind {A B} (m : M A) (k : A -> M B) :
  inv R m -> (forall a, inv R (k a)) -> inv R (bind m k).
Proof.
  intros Hm Hk st. unfold bind. specialize (Hm st).
  destruct (m st) as [[a|e] st1]; simpl in Hm; [|exact Hm].
  eapply (sr_trans R HR); [exact Hm | apply Hk].
Qed.

Lemma inv_ainvoke (w : World) (tls : list string) (p : prompt) (ctx : context) :
  inv R (ainvoke w tls p ctx).
Proof.
  intros st. unfold ainvoke. destruct (agent_executor w tls p ctx); apply (sr_agent R HR).
Qed.

Lemma inv_set_file (w : World) (name code project_id : string) (repoPath : option string) :
  inv R (set_file w name code project_id repoPath).
Proof.
  intros st. rewrite set_file_eq. cbn [snd].
  eapply (sr_trans R HR); [apply (sr_clock R HR)|].
  exact (sr_doc R HR
           {| session_store := session_store st; db := db st;
              clock := S (clock st); agent_calls := agent_calls st |} name _).
Qed.

Lemma inv_doc_update (name code : string) : inv R (doc_update (project_file name) code).
Proof.
  intros st. unfold doc_update.
  destruct (db st !! project_file name); [apply (sr_doc R HR) | apply (sr_refl R HR)].
Qed.

Lemma inv_forM_ {A} (body : A -> M unit) (l : list A) :
  (forall a, inv R (body a)) -> inv R (forM_ body l).
Proof.
  intros Hbody. induction l as [|x xs IH]; simpl.
  - apply inv_readonly, readonly_ret.
  - apply inv_bind; [apply Hbody | intros _; exact IH].
Qed.

End StepRelLemmas.

Lemma readonly_subscript (paths : option (list string)) (index : nat) :
  readonly (subscript paths index).
Proof.
  unfold subscript. destruct paths as [ps|]; [|apply readonly_raise].
  destruct (ps !! index); [apply readonly_ret | apply readonly_raise].
Qed.

Lemma inv_session_set (R : State -> State -> Prop) (sid : string) (sd : session_dict) :
  session_step R sid -> inv R (session_set sid sd).
Proof. intros HS st. rewrite session_set_eq. apply HS. Qed.

(** Decomposes a stage into its effects. *)
Ltac inv_tac HR HS :=
  repeat first
    [ apply (inv_readonly _ HR);
      solve [ apply readonly_ret | apply readonly_raise | apply readonly_read_local
            | apply readonly_iterable | apply readonly_subscript
            | apply readonly_find_frontend_code | apply readonly_preamble ]
    | apply (inv_ainvoke _ HR)
    | apply (inv_set_file _ HR)
    | apply (inv_doc_update _ HR)
    | apply (inv_session_set _ _ _ HS)
    | apply (inv_forM_ _ HR); intros ?
    | apply (inv_bind _ HR); [ | intros ? ]
    | match goal with
      | |- inv _ (match ?x with _ => _ end) => destruct x
      end ].

Section StageInvariants.

Variable R : State -> State -> Prop.
Variable w : World.
Variable request : AgentInvokeRequest.
Hypothesis HR : StepRel R.
Hypothesis HS : session_step R (session_id request).

Lemma inv_stage1 (f : frame) : inv R (stage1 w request f).
Proof. unfold stage1. cbv zeta. inv_tac HR HS. Qed.

Lemma inv_stage2 (f : frame) : inv R (stage2 w request f).
Proof. unfold stage2. cbv zeta. inv_tac HR HS. Qed.

Lemma inv_stage3 (f : frame) : inv R (stage3 w request f).
Proof. unfold stage3. cbv zeta. inv_tac HR HS. Qed.

Lemma inv_stage4 (f : frame) : inv R (stage4 w request f).
Proof. unfold stage4. cbv zeta. inv_tac HR HS. Qed.

Lemma inv_stage5 (f : frame) : inv R (stage5 w request f).
Proof. unfold stage5. cbv zeta. inv_tac HR HS. Qed.

Lemma inv_stage6 (f : frame) : inv R (stage6 w request f).
Proof. unfold stage6. cbv zeta. inv_tac HR HS. Qed.

Lemma inv_stage7 (f : frame) : inv R (stage7 w request f).
Proof. unfold stage7. cbv zeta. inv_tac HR HS. Qed.

Lemma inv_stage8 (f : frame) : inv R (stage8 w request f).
Proof. unfold stage8. cbv zeta. inv_tac HR HS. Qed.

Lemma inv_stage9 (f : frame) : inv R (stage9 w request f).
Proof. unfold stage9. cbv zeta. inv_tac HR HS. Qed.

Lemma inv_some_response (m : M response) : inv R m -> inv R (some_response m).
Proof.
  intros Hm. unfold some_response. apply (inv_bind _ HR); [exact Hm|].
  intros r. apply (inv_readonly _ HR), readonly_ret.
Qed.

Lemma inv_dispatch (f : frame) : inv R (dispatch w request f).
Proof.
  unfold dispatch. cbv zeta.
  repeat match goal with
         | |- inv _ (if ?b then _ else _) => destruct b; [apply inv_some_response|]
         end;
    eauto using inv_stage1, inv_stage2, inv_stage3, inv_stage4, inv_stage5,
      inv_stage6, inv_stage7, inv_stage8, inv_stage9.
  apply (inv_readonly _ HR), readonly_ret.
Qed.

Lemma inv_agent_invoke : inv R (agent_invoke w request).
Proof.
  unfold agent_invoke. apply (inv_bind _ HR).
  - apply (inv_readonly _ HR), readonly_preamble.
  - apply inv_dispatch.
Qed.

End StageInvariants.

Lemma project_file_prefix (name : string) :
  PyStr.starts_with "projectFiles/" (project_file name) = true.
Proof. apply starts_with_iff. exists name. reflexivity. Qed.

Lemma other_sessions_StepRel (sid : string) : StepRel (other_sessions_kept sid).
Proof.
  split.
  - intros st other _. reflexivity.
  - intros st1 st2 st3 H1 H2 other Hne. rewrite (H2 other Hne). apply H1, Hne.
  - intros st p other _. reflexivity.
  - intros st other _. reflexivity.
  - intros st name d other _. reflexivity.
Qed.

Lemma other_sessions_session_step (sid : string) :
  session_step (other_sessions_kept sid) sid.
Proof. intros st sd other Hne. simpl. apply lookup_insert_ne. congruence. Qed.

Lemma other_documents_StepRel : StepRel other_documents_kept.
Proof.
  split.
  - intros st path _. reflexivity.
  - intros st1 st2 st3 H1 H2 path Hp. rewrite (H2 path Hp). apply H1, Hp.
  - intros st p path _. reflexivity.
  - intros st path _. reflexivity.
  - intros st name d path Hp. simpl. apply lookup_insert_ne. intros <-.
    pose proof (project_file_prefix name). congruence.
Qed.

Lemma other_documents_session_step (sid : string) :
  session_step other_documents_kept sid.
Proof. intros st sd path Hpath. reflexivity. Qed.

Lemma same_sessions_StepRel : StepRel same_sessions.
Proof. split; unfold same_sessions; simpl; intros; congruence. Qed.

Lemma log_grows_StepRel : StepRel log_grows.
Proof. split; unfold log_grows; simpl; intros; lia. Qed.

Lemma log_grows_session_step (sid : string) : session_step log_grows sid.
Proof. intros st sd. unfold log_grows. simpl. lia. Qed.

(** X9. A request reads and writes the session of its own identifier only:
    every other session is, after the request, what it was before, whether
    the request answered, returned nothing or raised. *)
Theorem other_sessions_untouched (w : World) (request : AgentInvokeRequest) (st : State)
    (other : string) (Hother : other <> session_id request) :
  session_store (snd (agent_invoke w request st)) !! other = session_store st !! other.
Proof.
  exact (inv_agent_invoke _ w request (other_sessions_StepRel _)
           (other_sessions_session_step _) st other Hother).
Qed.

Lemma other_sessions_untouched_witness :
  let w := demo_world (Some fenced_answer) in
  let request := demo_request (Some []) (Some ["capabilities/search"]) in
  let st := with_session_store (insert "t" default_session) (demo_state (Some 3%Z)) in
  "t" <> session_id request /\
  session_store (snd (agent_invoke w request st)) !! "t" = Some default_session.
Proof.
  intros w request st. split; [discriminate|].
  rewrite (other_sessions_untouched w request st "t"); [reflexivity | discriminate].
Defined.

(** X10. A request writes documents of the [projectFiles] collection only:
    every document elsewhere, the capability records it reads included, is
    left as it was, whatever the outcome. *)
Theorem documents_elsewhere_untouched (w : World) (request : AgentInvokeRequest)
    (st : State) (path : string)
    (Hpath : PyStr.starts_with "projectFiles/" path = false) :
  db (snd (agent_invoke w request st)) !! path = db st !! path.
Proof.
  exact (inv_agent_invoke _ w request other_documents_StepRel
           (other_documents_session_step _) st path Hpath).
Qed.

Lemma documents_elsewhere_untouched_witness :
  let w := demo_world (Some fenced_answer) in
  let request := demo_request (Some []) (Some ["capabilities/search"]) in
  PyStr.starts_with "projectFiles/" "capabilities/search" = false /\
  db (snd (agent_invoke w request (demo_state None))) !! "capabilities/search"
  = Some search_capability.
Proof.
  intros w request. split; [reflexivity|].
  rewrite (documents_elsewhere_untouched w request (demo_state None) "capabilities/search");
    reflexivity.
Defined.

(** *** An exception never advances the session *)

Lemma kept_bind {A B} (m : M A) (k : A -> M B) :
  inv same_sessions m -> (forall a, sessions_kept_on_raise (k a)) ->
  sessions_kept_on_raise (bind m k).
Proof.
  intros Hm Hk st e st' H. unfold bind in H. specialize (Hm st).
  destruct (m st) as [[a|e1] st1]; simpl in Hm.
  - rewrite (Hk a _ _ _ H). exact Hm.
  - injection H as _ <-. exact Hm.
Qed.

Lemma kept_final {A} (sid : string) (sd : session_dict) (a : A) :
  sessions_kept_on_raise (session_set sid sd ;; ret a).
Proof. intros st e st' H. discriminate H. Qed.

Ltac kept_tac :=
  repeat first
    [ apply kept_final
    | apply kept_bind;
      [ solve [inv_tac same_sessions_StepRel same_sessions_StepRel] | intros ? ] ].

Lemma kept_dispatch (w : World) (request : AgentInvokeRequest) (f : frame) :
  forall st res st',
    dispatch w request f st = (res, st') ->
    (forall r, res <> Ok (Some r)) ->
    session_store st' = session_store st.
Proof.
  assert (Hsome : forall m : M response, sessions_kept_on_raise m ->
            forall st res st', some_response m st = (res, st') ->
            (forall r, res <> Ok (Some r)) -> session_store st' = session_store st).
  { intros m Hm st res st' H Hres. unfold some_response, bind in H.
    destruct (m st) as [[r|e] st1] eqn:E.
    - injection H as <- _. exfalso. exact (Hres r eq_refl).
    - injection H as _ <-. exact (Hm _ _ _ E). }
  unfold dispatch. cbv zeta. intros st res st'.
  repeat match goal with
         | |- context [if ?b then _ else _] => destruct b; [apply Hsome|]
         end.
  - unfold stage1. cbv zeta. kept_tac.
  - unfold stage2. cbv zeta. kept_tac.
  - unfold stage3. cbv zeta. kept_tac.
  - unfold stage4. cbv zeta. kept_tac.
  - unfold stage5. cbv zeta. kept_tac.
  - unfold stage6. cbv zeta. kept_tac.
  - unfold stage7. cbv zeta. kept_tac.
  - unfold stage8. cbv zeta. kept_tac.
  - unfold stage9. cbv zeta. kept_tac.
  - intros H _. injection H as _ <-. reflexivity.
Qed.

Lemma agent_invoke_kept (w : World) (request : AgentInvokeRequest)
    (st st' : State) (res : result (option response)) :
  agent_invoke w request st = (res, st') ->
  (forall r, res <> Ok (Some r)) ->
  session_store st' = session_store st.
Proof.
  unfold agent_invoke, bind. intros H Hres.
  pose proof (readonly_preamble w request st) as Hro.
  destruct (preamble w request st) as [[f|e] st1]; simpl in Hro; subst st1.
  - eapply kept_dispatch; eassumption.
  - injection H as _ <-. reflexivity.
Qed.

(** X11. The session store changes only when the request answers with a
    stage response: a request that raises, at whatever point, or that returns
    nothing leaves every session, its own included, at the stage it had. *)
Theorem session_advances_only_with_response (w : World) (request : AgentInvokeRequest)
    (st st' : State) (res : result (option response))
    (Hrun : agent_invoke w request st = (res, st'))
    (Hres : forall r, res <> Ok (Some r)) :
  session_store st' = session_store st.
Proof. exact (agent_invoke_kept w request st st' res Hrun Hres). Qed.

Lemma session_advances_only_with_response_witness :
  let w := demo_world (Some fenced_answer) in
  let st := demo_state (Some 3%Z) in
  exists st',
    agent_invoke w short_paths_request st = (Raised IndexError, st') /\
    session_store st' = session_store st /\
    agent_calls st' <> agent_calls st.
Proof.
  intros w st.
  destruct (agent_invoke w short_paths_request st) as [res st'] eqn:E.
  assert (Hres : res = Raised IndexError) by (vm_compute in E; congruence).
  subst res. exists st'. split; [reflexivity|]. split.
  - apply (session_advances_only_with_response w short_paths_request st st' _ E).
    discriminate.
  - vm_compute in E. injection E as <-. discriminate.
Defined.

(** *** Nothing changes before the agent is invoked *)

Lemma guarded_readonly {A} (m : M A) : readonly m -> guarded m.
Proof. intros Hro st. left. apply Hro. Qed.

Lemma guarded_bind_readonly {A B} (m : M A) (k : A -> M B) :
  readonly m -> (forall a, guarded (k a)) -> guarded (bind m k).
Proof.
  intros Hm Hk st. unfold bind. specialize (Hm st).
  destruct (m st) as [[a|e] st1]; simpl in Hm; subst st1; [apply Hk | left; reflexivity].
Qed.

Lemma guarded_agent {B} (w : World) (tls : list string) (p : prompt) (ctx : context)
    (k : option string -> M B) :
  (forall o, inv log_grows (k o)) -> guarded (bind (ainvoke w tls p ctx) k).
Proof.
  intros Hk st. right. unfold bind, ainvoke.
  destruct (agent_executor w tls p ctx) as [|o]; [simpl; lia|].
  specialize (Hk o {| session_store := session_store st; db := db st; clock := clock st;
                      agent_calls := p :: agent_calls st |}).
  unfold log_grows in Hk. simpl in Hk.
  match goal with |- _ < length (agent_calls (snd ?x)) => destruct x as [res st'] end.
  simpl in *. lia.
Qed.

Ltac guarded_tac sid :=
  repeat first
    [ apply guarded_agent; intros ?;
      inv_tac log_grows_StepRel (log_grows_session_step sid)
    | apply guarded_bind_readonly;
      [ solve [ apply readonly_read_local | apply readonly_iterable
              | apply readonly_find_frontend_code ] | intros ? ] ].

Lemma guarded_dispatch (w : World) (request : AgentInvokeRequest) (f : frame) :
  guarded (dispatch w request f).
Proof.
  assert (Hsome : forall m : M response, guarded m -> guarded (some_response m)).
  { intros m Hm st. unfold some_response, bind. specialize (Hm st).
    destruct (m st) as [[r|e] st1]; exact Hm. }
  unfold dispatch. cbv zeta.
  repeat match goal with
         | |- guarded (if ?b then _ else _) => destruct b; [apply Hsome|]
         end.
  - unfold stage1. cbv zeta. guarded_tac (session_id request).
  - unfold stage2. cbv zeta. guarded_tac (session_id request).
  - unfold stage3. cbv zeta. guarded_tac (session_id request).
  - unfold stage4. cbv zeta. guarded_tac (session_id request).
  - unfold stage5. cbv zeta. guarded_tac (session_id request).
  - unfold stage6. cbv zeta. guarded_tac (session_id request).
  - unfold stage7. cbv zeta. guarded_tac (session_id request).
  - unfold stage8. cbv zeta. guarded_tac (session_id request).
  - unfold stage9. cbv zeta. guarded_tac (session_id request).
  - apply guarded_readonly, readonly_ret.
Qed.

Lemma guarded_agent_invoke (w : World) (request : AgentInvokeRequest) :
  guarded (agent_invoke w request).
Proof.
  unfold agent_invoke. apply guarded_bind_readonly; [apply readonly_preamble|].
  apply guarded_dispatch.
Qed.

(** X12. Every effect of a request comes after its call of the agent: when
    the log of agent calls is what it was, so is the whole state - no
    document written, no session changed, no clock reading taken - whatever
    the outcome of the request. *)
Theorem no_change_without_agent (w : World) (request : AgentInvokeRequest)
    (st st' : State) (res : result (option response))
    (Hrun : agent_invoke w request st = (res, st'))
    (Hlog : agent_calls st' = agent_calls st) :
  st' = st.
Proof.
  destruct (guarded_agent_invoke w request st) as [H|H]; rewrite Hrun in H; simpl in H.
  - exact H.
  - rewrite Hlog in H. lia.
Qed.

Lemma no_change_without_agent_witness :
  let w := demo_world (Some fenced_answer) in
  let request := demo_request (Some []) None in
  let st := demo_state (Some 3%Z) in
  exists st',
    agent_invoke w request st
    = (Raised (UnboundLocalError "sanitized_capabilities_requestBody"), st') /\
    st' = st.
Proof.
  intros w request st.
  destruct (agent_invoke w request st) as [res st'] eqn:E.
  assert (Hres : res = Raised (UnboundLocalError "sanitized_capabilities_requestBody"))
    by (vm_compute in E; congruence).
  subst res. exists st'. split; [reflexivity|].
  apply (no_change_without_agent w request st st' _ E).
  vm_compute in E. injection E as <-. reflexivity.
Defined.

(** *** The stages a session goes through *)

Lemma stored_next_live (k : Z) :
  (1 <= k <= 9)%Z -> (k = 2%Z \/ live_stage k) -> live_stage (stored_next k).
Proof.
  unfold live_stage. intros Hrange Hk.
  assert (Hcases : (k = 2 \/ k = 3 \/ k = 4 \/ k = 9)%Z) by lia.
  destruct Hcases as [-> | [-> | [-> | ->] ] ]; vm_compute; tauto.
Qed.

(** X13. From an empty session store the handler only ever stores stages 3,
    4, 9 and 10, and so answers from stages 2, 3, 4 and 9 only: the set of
    such stores is closed under every request, whatever its outcome, and the
    doc-review, test, review, styling and documentation branches (stages 1,
    5, 6, 7 and 8) are never entered. *)
Theorem only_stages_2_3_4_9_run (w : World) (request : AgentInvokeRequest)
    (st st' : State) (res : result (option response))
    (Hflow : flow_store (session_store st))
    (Hrun : agent_invoke w request st = (res, st')) :
  flow_store (session_store st') /\
  (forall r, res = Ok (Some r) ->
             (r_step r = 2 \/ r_step r = 3 \/ r_step r = 4 \/ r_step r = 9)%Z) /\
  flow_store ∅.
Proof.
  assert (Hempty : flow_store ∅).
  { intros sid sd H. rewrite lookup_empty in H. discriminate. }
  assert (Hcur : (step (session_get (session_store st) (session_id request)) = 2%Z \/
                  live_stage (step (session_get (session_store st) (session_id request))))).
  { unfold session_get.
    destruct (session_store st !! session_id request) as [sd|] eqn:E; simpl.
    - right. exact (Hflow _ _ E).
    - left. reflexivity. }
  destruct res as [[r|]|e].
  - apply agent_invoke_ok_inv in Hrun as (f & Hpre & Hdis).
    apply preamble_ok_inv in Hpre as (_ & Hsd & _). rewrite <- Hsd in Hcur.
    apply dispatch_ok_inv in Hdis as (Hrange & Hpost & _).
    destruct Hpost as [p ctx answer sd _ _ Hstore Hnext Hstep _ _].
    split; [|split; [|exact Hempty]].
    + intros sid sd' Hlook. rewrite Hstore in Hlook.
      destruct (decide (session_id request = sid)) as [<-|Hne].
      * rewrite lookup_insert_eq in Hlook. injection Hlook as <-.
        rewrite Hnext. apply stored_next_live; assumption.
      * rewrite lookup_insert_ne in Hlook by exact Hne. exact (Hflow _ _ Hlook).
    + intros r' Hr. injection Hr as <-. rewrite Hstep.
      unfold live_stage in Hcur. lia.
  - rewrite (agent_invoke_kept w request st st' _ Hrun) by discriminate.
    split; [exact Hflow|]. split; [discriminate | exact Hempty].
  - rewrite (agent_invoke_kept w request st st' _ Hrun) by discriminate.
    split; [exact Hflow|]. split; [discriminate | exact Hempty].
Qed.

Lemma only_stages_2_3_4_9_run_witness :
  let w := demo_world (Some fenced_answer) in
  let request := demo_request (Some []) (Some ["capabilities/search"]) in
  exists r st',
    flow_store (session_store (demo_state None)) /\
    agent_invoke w request (demo_state None) = (Ok (Some r), st') /\
    flow_store (session_store st') /\ r_step r = 2%Z.
Proof.
  intros w request.
  assert (Hflow : flow_store (session_store (demo_state None))).
  { intros sid sd H. discriminate H. }
  destruct (agent_invoke w request (demo_state None)) as [[[r|]|e] st'] eqn:E;
    try (vm_compute in E; discriminate).
  destruct (only_stages_2_3_4_9_run w request _ _ _ Hflow E) as (H1 & _ & _).
  exists r, st'. split; [exact Hflow|]. split; [reflexivity|]. split; [exact H1|].
  vm_compute in E. injection E as <- _. reflexivity.
Defined.

(** ** Single stages *)

(** A request that answered ran the branch of the stage it reports. *)
Lemma agent_invoke_stage_inv (w : World) (request : AgentInvokeRequest)
    (st st' : State) (r : response) :
  agent_invoke w request st = (Ok (Some r), st') ->
  exists f, preamble w request st = (Ok f, st) /\
            step (session_data f) = r_step r /\
            dispatch w request f st = (Ok (Some r), st').
Proof.
  intros Hrun. apply agent_invoke_ok_inv in Hrun as (f & Hpre & Hdis).
  exists f. split; [exact Hpre|]. split; [|exact Hdis].
  apply dispatch_ok_inv in Hdis as (_ & [p ctx answer sd _ _ _ _ Hstep _ _] & _).
  symmetry. exact Hstep.
Qed.

Lemma dispatch_stage2 (w : World) (request : AgentInvokeRequest) (f : frame) :
  step (session_data f) = 2%Z ->
  dispatch w request f = some_response (stage2 w request f).
Proof. unfold dispatch. intros ->. reflexivity. Qed.

Lemma dispatch_stage3 (w : World) (request : AgentInvokeRequest) (f : frame) :
  step (session_data f) = 3%Z ->
  dispatch w request f = some_response (stage3 w request f).
Proof. unfold dispatch. intros ->. reflexivity. Qed.

Lemma dispatch_stage4 (w : World) (request : AgentInvokeRequest) (f : frame) :
  step (session_data f) = 4%Z ->
  dispatch w request f = some_response (stage4 w request f).
Proof. unfold dispatch. intros ->. reflexivity. Qed.

Lemma dispatch_stage6 (w : World) (request : AgentInvokeRequest) (f : frame) :
  step (session_data f) = 6%Z ->
  dispatch w request f = some_response (stage6 w request f).
Proof. unfold dispatch. intros ->. reflexivity. Qed.

Lemma dispatch_stage7 (w : World) (request : AgentInvokeRequest) (f : frame) :
  step (session_data f) = 7%Z ->
  dispatch w request f = some_response (stage7 w request f).
Proof. unfold dispatch. intros ->. reflexivity. Qed.

Lemma ainvoke_ok_state (w : World) (tls : list string) (p : prompt) (ctx : context)
    (st st' : State) (o : option string) :
  ainvoke w tls p ctx st = (Ok o, st') ->
  agent_executor w tls p ctx = AgentReturns o /\
  st' = {| session_store := session_store st; db := db st; clock := clock st;
           agent_calls := p :: agent_calls st |}.
Proof.
  unfold ainvoke. destruct (agent_executor w tls p ctx); [discriminate|].
  intros H. injection H as <- <-. auto.
Qed.

(** X14. A completed stage 2 writes exactly one document: under the first
    suggested file name ending in [.py], or under [app.py] when there is
    none, holding the stripped text the response carries; every other
    document is what it was. *)
Theorem stage2_writes_one_file (w : World) (request : AgentInvokeRequest)
    (st st' : State) (r : response)
    (Hrun : agent_invoke w request st = (Ok (Some r), st'))
    (Hstep : r_step r = 2%Z) :
  exists files code,
    suggested_files request = Some files /\
    r_output r = OutStr code /\
    let name := default "app.py" (List.find (PyStr.ends_with ".py") files) in
    db st' = <[project_file name :=
                 file_record name code (project request) (now w (clock st)) None]> (db st).
Proof.
  apply agent_invoke_stage_inv in Hrun as (f & _ & Hk & Hdis).
  rewrite dispatch_stage2 in Hdis by congruence.
  apply some_response_ok_inv in Hdis as (r' & Hr & H). injection Hr as <-.
  unfold stage2 in H. cbv zeta in H.
  do 2 step_inv H.
  bind_inv H. apply ainvoke_ok_state in Hm as [_ ->].
  step_inv H. bind_inv H.
  assert (Hdb : db st0 =
                <[project_file (default "app.py" (find (PyStr.ends_with ".py") a2)) :=
                    file_record (default "app.py" (find (PyStr.ends_with ".py") a2))
                      (format_response (output_or "No backend endpoint action performed." a1))
                      (project request) (now w (clock st)) None]> (db st)).
  { destruct (find (PyStr.ends_with ".py") a2); rewrite set_file_eq in Hm;
      injection Hm as _ <-; reflexivity. }
  step_inv H. apply ret_ok_inv in H as [-> ->].
  exists a2, (format_response (output_or "No backend endpoint action performed." a1)).
  split; [assumption|]. split; [reflexivity|]. exact Hdb.
Qed.

Lemma stage2_writes_one_file_witness :
  let w := demo_world (Some fenced_answer) in
  let request := demo_request (Some []) (Some ["capabilities/search"]) in
  exists r st',
    agent_invoke w request (demo_state None) = (Ok (Some r), st') /\
    r_step r = 2%Z /\
    db st' = <[project_file "app.py" :=
                 file_record "app.py" (format_response fenced_answer) "p1"
                   "2024-01-01T00:00:00" None]> demo_db.
Proof.
  intros w request.
  destruct (agent_invoke w request (demo_state None)) as [[[r|]|e] st'] eqn:E;
    try (vm_compute in E; discriminate).
  assert (Hstep : r_step r = 2%Z) by (vm_compute in E; injection E as <- _; reflexivity).
  assert (Hout : r_output r = OutStr (format_response fenced_answer))
    by (vm_compute in E; injection E as <- _; reflexivity).
  exists r, st'. split; [reflexivity|]. split; [exact Hstep|].
  destruct (stage2_writes_one_file w request _ _ r E Hstep) as (files & code & Hf & Hc & Hdb).
  injection Hf as <-. rewrite Hout in Hc. injection Hc as <-. exact Hdb.
Defined.

Lemma find_none_forall {A} (p : A -> bool) (l : list A) :
  Forall (fun x => p x = false) l -> List.find p l = None.
Proof. induction 1 as [|x l Hx _ IH]; simpl; [reflexivity | rewrite Hx; exact IH]. Qed.

Lemma find_frontend_code_none (request : AgentInvokeRequest) (st : State) :
  Forall (fun name => PyStr.ends_with ".js" name = false)
         (default [] (suggested_files request)) ->
  find_frontend_code request st = (Ok None, st).
Proof.
  intros H. unfold find_frontend_code.
  destruct (truthy_list (suggested_files request)); [|reflexivity].
  rewrite (find_none_forall _ _ H). reflexivity.
Qed.

(** X15. At stage 6 and at stage 7, a request none of whose suggested files
    ends in [.js] (no list or an empty one included) raises the
    unbound-local error on [frontend_generated_code] before the agent is
    invoked, and leaves the state as it was. *)
Theorem review_without_js_file_raises (w : World) (request : AgentInvokeRequest)
    (st : State) (f : frame)
    (Hpre : preamble w request st = (Ok f, st))
    (Hstage : step (session_data f) = 6%Z \/ step (session_data f) = 7%Z)
    (Hfiles : Forall (fun name => PyStr.ends_with ".js" name = false)
                     (default [] (suggested_files request))) :
  agent_invoke w request st = (Raised (UnboundLocalError "frontend_generated_code"), st).
Proof.
  unfold agent_invoke. rewrite (bind_ok _ _ _ _ _ Hpre).
  destruct Hstage as [Hk|Hk].
  - rewrite (dispatch_stage6 _ _ _ Hk). unfold some_response, stage6. cbv zeta.
    unfold bind at 1 2. rewrite (find_frontend_code_none request st Hfiles). reflexivity.
  - rewrite (dispatch_stage7 _ _ _ Hk). unfold some_response, stage7. cbv zeta.
    unfold bind at 1 2. rewrite (find_frontend_code_none request st Hfiles). reflexivity.
Qed.

Lemma review_without_js_file_raises_witness :
  let w := demo_world (Some fenced_answer) in
  let request :=
    {| input := ""; session_id := "s"; docslink := "d"; repo := "r"; project := "p1";
       suggested_files := Some ["app.py"; "index.jsx"]; suggested_file_urls := Some [];
       suggested_file_paths := None; capabilityRefs := None; chat_history := [] |} in
  agent_invoke w request (demo_state (Some 6%Z))
  = (Raised (UnboundLocalError "frontend_generated_code"), demo_state (Some 6%Z)).
Proof.
  intros w request.
  eapply (review_without_js_file_raises w request (demo_state (Some 6%Z))).
  - vm_compute. reflexivity.
  - left. reflexivity.
  - repeat constructor.
Defined.

Lemma caps_without_survivor (st : State) (refs : option (list string)) :
  refs = None \/
  (exists paths, refs = Some paths /\ Forall (fun p => db st !! p = None) paths) ->
  accumulate_all (map (fun p => db st !! p) (default [] refs)) = no_capabilities.
Proof.
  intros Hrefs. rewrite accumulate_all_survivors.
  destruct Hrefs as [-> | (paths & -> & Hall)]; [reflexivity|].
  cbn [from_option id]. rewrite (survivors_none _ _ Hall). reflexivity.
Qed.

(** X16. At stage 3 and at stage 4, a request with no capability reference,
    or whose references all resolve to no document, raises the unbound-local
    error on the sanitized request body before the agent is invoked, and
    leaves the state as it was. *)
Theorem ui_stages_unbound_without_capabilities (w : World) (request : AgentInvokeRequest)
    (st : State) (f : frame)
    (Hpre : preamble w request st = (Ok f, st))
    (Hstage : step (session_data f) = 3%Z \/ step (session_data f) = 4%Z)
    (Hrefs : capabilityRefs request = None \/
             exists paths, capabilityRefs request = Some paths /\
                           Forall (fun p => db st !! p = None) paths) :
  agent_invoke w request st =
  (Raised (UnboundLocalError "sanitized_capabilities_requestBody"), st).
Proof.
  unfold agent_invoke. rewrite (bind_ok _ _ _ _ _ Hpre).
  apply preamble_ok_inv in Hpre as (_ & _ & _ & _ & Hcaps).
  rewrite (caps_without_survivor st _ Hrefs) in Hcaps.
  destruct Hstage as [Hk|Hk].
  - rewrite (dispatch_stage3 _ _ _ Hk). unfold some_response, stage3. cbv zeta.
    rewrite Hcaps. reflexivity.
  - rewrite (dispatch_stage4 _ _ _ Hk). unfold some_response, stage4. cbv zeta.
    rewrite Hcaps. reflexivity.
Qed.

Lemma ui_stages_unbound_without_capabilities_witness :
  let w := demo_world (Some fenced_answer) in
  let request := demo_request (Some []) (Some ["capabilities/missing"]) in
  agent_invoke w request (demo_state (Some 4%Z))
  = (Raised (UnboundLocalError "sanitized_capabilities_requestBody"), demo_state (Some 4%Z)).
Proof.
  intros w request.
  eapply (ui_stages_unbound_without_capabilities w request (demo_state (Some 4%Z))).
  - vm_compute. reflexivity.
  - right. reflexivity.
  - right. exists ["capabilities/missing"]. split; [reflexivity|].
    constructor; [reflexivity | constructor].
Defined.

(** X17. After the capability accumulation the nine parallel sequences have
    one entry per surviving record, so they stay index-aligned; and the five
    sanitized sequences are either all unassigned (no record survived) or
    each the brace-doubled copy, entry by entry, of its raw sequence. *)
Theorem parallel_sequences_aligned (capability_docs : list (option document)) :
  let l := accumulate_all capability_docs in
  let n := length (survivors capability_docs) in
  let copy raw := match survivors capability_docs with
                  | [] => None
                  | _ => Some (map sanitise raw)
                  end in
  (length (capabilities_names l) = n /\ length (capabilities_endPoints l) = n /\
   length (capabilities_headers l) = n /\ length (capabilities_routeName l) = n /\
   length (capabilities_errorBody l) = n /\ length (capabilities_requestBody l) = n /\
   length (capabilities_responseBody l) = n /\
   length (capabilities_responseGuidance l) = n /\
   length (capabilities_requestGuidance l) = n) /\
  sanitized_capabilities_errorBody l = copy (capabilities_errorBody l) /\
  sanitized_capabilities_headers l = copy (capabilities_headers l) /\
  sanitized_capabilities_requestBody l = copy (capabilities_requestBody l) /\
  sanitized_capabilities_responseBody l = copy (capabilities_responseBody l) /\
  sanitized_capabilities_responseGuidance l = copy (capabilities_responseGuidance l).
Proof.
  cbv zeta. rewrite accumulate_all_survivors.
  destruct (survivors capability_docs) as [|d ds] eqn:E.
  - repeat split.
  - unfold locals_of, sanitized_of. cbn -[map]. rewrite !length_map. repeat split.
Qed.

(** *** Stage 3 with too few paths *)

Lemma writes_code_has_code (code path : string) (d d' : gmap string document) :
  writes_code code d d' -> has_code code path d -> has_code code path d'.
Proof.
  intros Hw (doc & Hdoc & Hcode). destruct (Hw path) as [E|E]; [|exact E].
  exists doc. rewrite E. auto.
Qed.





(** *** Stage 4 updates in place *)

Lemma code_update_refl (code : string) (d : gmap string document) : code_update code d d.
Proof. intros path. destruct (d !! path); auto. Qed.

Lemma code_update_trans (code : string) (d1 d2 d3 : gmap string document) :
  code_update code d1 d2 -> code_update code d2 d3 -> code_update code d1 d3.
Proof.
  intros H12 H23 path. specialize (H12 path). specialize (H23 path).
  destruct (d1 !! path) as [doc|].
  - destruct H12 as [E|E]; rewrite E in H23; [exact H23|].
    rewrite insert_insert_eq in H23. destruct H23; auto.
  - rewrite H12 in H23. exact H23.
Qed.

Lemma code_update_has_code (code path : string) (d d' : gmap string document) :
  code_update code d d' -> has_code code path d -> has_code code path d'.
Proof.
  intros Hu (doc & Hdoc & Hcode). specialize (Hu path). rewrite Hdoc in Hu.
  destruct Hu as [E|E]; [exists doc; auto|].
  exists (<["code" := code]> doc). split; [exact E | apply lookup_insert_eq].
Qed.

Lemma doc_update_code_update (path code : string) (st st' : State) (u : unit) :
  doc_update path code st = (Ok u, st') ->
  code_update code (db st) (db st') /\ has_code code path (db st').
Proof.
  unfold doc_update. destruct (db st !! path) as [doc|] eqn:E; [|discriminate].
  intros H. injection H as _ <-. simpl. split.
  - intros q. destruct (decide (path = q)) as [<-|Hne].
    + rewrite E, lookup_insert_eq. auto.
    + rewrite lookup_insert_ne by exact Hne. destruct (db st !! q); auto.
  - exists (<["code" := code]> doc). rewrite !lookup_insert_eq. auto.
Qed.

Lemma stage4_loop (code : string) (files : list string) :
  forall st st' u,
    forM_ (fun file_name => doc_update (project_file file_name) code) files st = (Ok u, st') ->
    code_update code (db st) (db st') /\
    Forall (fun name => has_code code (project_file name) (db st')) files.
Proof.
  induction files as [|name files IH]; intros st st' u H; simpl in H.
  - apply ret_ok_inv in H as [_ ->]. split; [apply code_update_refl | constructor].
  - bind_inv H. apply doc_update_code_update in Hm as [Hu Hc].
    apply IH in H as [Hu' Hall]. split.
    + eapply code_update_trans; eassumption.
    + constructor; [|exact Hall]. eapply code_update_has_code; eassumption.
Qed.

(** X19. A completed stage 4 updates in place: every suggested file had a
    document and now carries the stripped text of the response as its code,
    no document has been created or removed, and no field other than [code]
    has changed anywhere. *)
Theorem stage4_updates_in_place (w : World) (request : AgentInvokeRequest)
    (st st' : State) (r : response)
    (Hrun : agent_invoke w request st = (Ok (Some r), st'))
    (Hstep : r_step r = 4%Z) :
  exists files code,
    suggested_files request = Some files /\
    r_output r = OutStr code /\
    code_update code (db st) (db st') /\
    Forall (fun name => has_code code (project_file name) (db st')) files /\
    forall path, db st' !! path = None <-> db st !! path = None.
Proof.
  apply agent_invoke_stage_inv in Hrun as (f & _ & Hk & Hdis).
  rewrite dispatch_stage4 in Hdis by congruence.
  apply some_response_ok_inv in Hdis as (r' & Hr & H). injection Hr as <-.
  unfold stage4 in H. cbv zeta in H.
  do 6 step_inv H. bind_inv H.
  apply stage4_loop in Hm as [Hu Hall].
  step_inv H. apply ret_ok_inv in H as [-> ->]. cbn [db r_output].
  match goal with H : db _ = db st |- _ => rewrite H in Hu end.
  eexists _, _. split; [eassumption|]. split; [reflexivity|].
  split; [exact Hu|]. split; [exact Hall|].
  intros path. specialize (Hu path). destruct (db st !! path) as [doc|].
  - destruct Hu as [E|E]; rewrite E; split; discriminate.
  - rewrite Hu. tauto.
Qed.

Lemma stage4_updates_in_place_witness :
  let w := demo_world (Some fenced_answer) in
  let request := demo_request (Some []) (Some ["capabilities/search"]) in
  exists r st',
    agent_invoke w request (demo_state (Some 4%Z)) = (Ok (Some r), st') /\
    r_step r = 4%Z /\
    has_code (format_response fenced_answer) (project_file "App.js") (db st') /\
    db st' !! project_file "Form.js" = None.
Proof.
  intros w request.
  destruct (agent_invoke w request (demo_state (Some 4%Z))) as [[[r|]|e] st'] eqn:E;
    try (vm_compute in E; discriminate).
  assert (Hstep : r_step r = 4%Z) by (vm_compute in E; injection E as <- _; reflexivity).
  assert (Hout : r_output r = OutStr (format_response fenced_answer))
    by (vm_compute in E; injection E as <- _; reflexivity).
  exists r, st'. split; [reflexivity|]. split; [exact Hstep|].
  destruct (stage4_updates_in_place w request _ _ r E Hstep)
    as (files & code & Hf & Hc & _ & Hall & Hdom).
  injection Hf as <-. rewrite Hout in Hc. injection Hc as <-. split.
  - inversion Hall as [|? ? _ Hrest]; subst. inversion Hrest as [|? ? Hjs _]; subst.
    exact Hjs.
  - apply Hdom. reflexivity.
Defined.

(** *** What stage 4 is told about the backend *)

Lemma stage3_session (w : World) (request : AgentInvokeRequest) (f : frame)
    (st st' : State) (r : response) :
  stage3 w request f st = (Ok r, st') ->
  exists answer sd,
    r_output r = OutStr (format_response (output_or "No UI update action performed." answer)) /\
    session_store st' !! session_id request = Some sd /\
    step sd = 4%Z /\
    text_of sd "backend_endpoint_response" = "" /\
    text_of sd "ui_response" = output_or "No UI update action performed." answer.
Proof.
  unfold stage3. cbv zeta. intros H.
  do 5 step_inv H. bind_inv H. clear Hm.
  step_inv H. apply ret_ok_inv in H as [-> ->].
  eexists _, _. split; [reflexivity|]. cbn [session_store].
  split; [apply lookup_insert_eq|]. split; [reflexivity|]. split; reflexivity.
Qed.

Lemma stage4_prompt (w : World) (request : AgentInvokeRequest) (f : frame)
    (st st' : State) (r : response) :
  stage4 w request f st = (Ok r, st') ->
  exists requestBody requestGuidance responseBody responseGuidance routeName,
    agent_calls st' =
    prompt4 (sanitise (text_of (session_data f) "backend_endpoint_response"))
            (sanitise (text_of (session_data f) "ui_response"))
            requestBody requestGuidance responseBody responseGuidance routeName
    :: agent_calls st.
Proof.
  unfold stage4. cbv zeta. intros H.
  do 6 step_inv H. bind_inv H.
  eapply (forM_step (format_response (output_or (sentinel 4) a3))) in Hm.
  2:{ intros file_name s s' u Hb. eapply doc_update_step, Hb. }
  destruct Hm as (_ & Hc & _).
  step_inv H. apply ret_ok_inv in H as [-> ->]. cbn [agent_calls].
  eexists _, _, _, _, _. rewrite Hc. eassumption.
Qed.

(** X20. The session entry is replaced as a whole by each stage, and stage 3
    stores no [backend_endpoint_response]: in the stage-4 request that
    follows a completed stage 3, the prompt names the backend code as the
    empty text, while the UI text is the sanitised output of stage 3. *)
Theorem stage4_prompt_has_no_backend_code (w w2 : World)
    (request request2 : AgentInvokeRequest) (st st1 st2 : State) (r1 r2 : response)
    (Hrun1 : agent_invoke w request st = (Ok (Some r1), st1))
    (Hstep1 : r_step r1 = 3%Z)
    (Hsid : session_id request2 = session_id request)
    (Hrun2 : agent_invoke w2 request2 st1 = (Ok (Some r2), st2)) :
  r_step r2 = 4%Z /\
  exists ui requestBody requestGuidance responseBody responseGuidance routeName,
    r_output r1 = OutStr (format_response ui) /\
    agent_calls st2 =
    prompt4 "" (sanitise ui) requestBody requestGuidance responseBody responseGuidance
            routeName
    :: agent_calls st1.
Proof.
  apply agent_invoke_stage_inv in Hrun1 as (f1 & _ & Hk1 & Hdis1).
  rewrite dispatch_stage3 in Hdis1 by congruence.
  apply some_response_ok_inv in Hdis1 as (r' & Hr & H1). injection Hr as <-.
  apply stage3_session in H1 as (answer & sd & Hout & Hlook & Hfour & Hback & Hui).
  apply agent_invoke_stage_inv in Hrun2 as (f2 & Hpre2 & Hk2 & Hdis2).
  apply preamble_ok_inv in Hpre2 as (_ & Hsd2 & _).
  assert (Hsd : session_data f2 = sd).
  { rewrite Hsd2. unfold session_get. rewrite Hsid, Hlook. reflexivity. }
  assert (Hstep2 : r_step r2 = 4%Z) by congruence.
  split; [exact Hstep2|].
  rewrite dispatch_stage4 in Hdis2 by congruence.
  apply some_response_ok_inv in Hdis2 as (r' & Hr & H2). injection Hr as <-.
  apply stage4_prompt in H2 as (rb & rg & resb & resg & rn & Hcalls).
  rewrite Hsd, Hback, Hui in Hcalls.
  exists (output_or "No UI update action performed." answer), rb, rg, resb, resg, rn.
  split; [exact Hout | exact Hcalls].
Qed.

Lemma stage4_prompt_has_no_backend_code_witness :
  let w := demo_world (Some fenced_answer) in
  let request := demo_request (Some []) (Some ["capabilities/search"]) in
  exists r1 st1 r2 st2 p,
    agent_invoke w request (demo_state (Some 3%Z)) = (Ok (Some r1), st1) /\
    agent_invoke w request st1 = (Ok (Some r2), st2) /\
    r_step r2 = 4%Z /\
    agent_calls st2 = p :: agent_calls st1 /\
    nth_error (user_msg p) 2 = Some (Str "").
Proof.
  intros w request.
  destruct (agent_invoke w request (demo_state (Some 3%Z))) as [[[r1|]|e1] st1] eqn:E1;
    try (vm_compute in E1; discriminate).
  assert (Hstep1 : r_step r1 = 3%Z) by (vm_compute in E1; injection E1 as <- _; reflexivity).
  destruct (agent_invoke w request st1) as [[[r2|]|e2] st2] eqn:E2.
  - destruct (stage4_prompt_has_no_backend_code w w request request _ _ _ r1 r2
                E1 Hstep1 eq_refl E2)
      as (Hstep2 & ui & rb & rg & resb & resg & rn & _ & Hcalls).
    exists r1, st1, r2, st2. eexists. split; [reflexivity|]. split; [exact E2|].
    split; [exact Hstep2|]. split; [exact Hcalls | reflexivity].
  - exfalso. vm_compute in E1. injection E1 as _ <-. vm_compute in E2. discriminate.
  - exfalso. vm_compute in E1. injection E1 as _ <-. vm_compute in E2. discriminate.
Defined.

(** *** Stages 6 and 7 write one field of one document *)

Lemma find_frontend_code_some (request : AgentInvokeRequest) (st st' : State)
    (name code : string) :
  find_frontend_code request st = (Ok (Some (name, code)), st') ->
  truthy_list (suggested_files request) = true /\
  List.find (PyStr.ends_with ".js") (default [] (suggested_files request)) = Some name.
Proof.
  unfold find_frontend_code.
  destruct (truthy_list (suggested_files request)); [|intros H; discriminate H].
  destruct (find (PyStr.ends_with ".js") (default [] (suggested_files request))) as [n|];
    [|intros H; discriminate H].
  unfold bind, doc_get, gets. destruct (db st !! project_file n); intros H;
    injection H as <- _ _; auto.
Qed.

Lemma conditional_update_db (found : option (string * string)) (name code out : string)
    (st st' : State) (u : unit) :
  found = Some (name, code) ->
  (if true && negb (String.eqb out "No impact analysis action performed.")
   then let* file_name := read_local "doc_ref" (fst <$> found) in
        doc_update (project_file file_name) out
   else ret tt) st = (Ok u, st') ->
  session_store st' = session_store st /\ agent_calls st' = agent_calls st /\
  (out = "No impact analysis action performed." -> db st' = db st) /\
  (out <> "No impact analysis action performed." ->
   exists doc, db st !! project_file name = Some doc /\
               db st' = <[project_file name := <["code" := out]> doc]> (db st)).
Proof.
  intros -> H. cbn [andb] in H.
  destruct (String.eqb_spec out "No impact analysis action performed.") as [E|E];
    cbn [negb] in H.
  - apply ret_ok_inv in H as [_ ->].
    split; [reflexivity|]. split; [reflexivity|]. split; [reflexivity | contradiction].
  - unfold bind in H. cbn in H. unfold doc_update in H.
    destruct (db st !! project_file name) as [doc|] eqn:Edoc; [|discriminate].
    injection H as _ <-.
    split; [reflexivity|]. split; [reflexivity|]. split; [contradiction|].
    intros _. exists doc. auto.
Qed.

(** X21. A completed stage 6 or 7 works on the first suggested file ending
    in [.js].  When the agent's text is the stage's fallback text no document
    is touched; otherwise the document of that file existed before and the
    only change to the store is that its [code] field is the agent's text,
    unstripped.  The response carries the stripped text in both cases. *)
Theorem review_stages_write_one_field (w : World) (request : AgentInvokeRequest)
    (st st' : State) (r : response)
    (Hrun : agent_invoke w request st = (Ok (Some r), st'))
    (Hstep : r_step r = 6%Z \/ r_step r = 7%Z) :
  exists name tls p ctx answer,
    List.find (PyStr.ends_with ".js") (default [] (suggested_files request)) = Some name /\
    agent_executor w tls p ctx = AgentReturns answer /\
    let out := output_or "No impact analysis action performed." answer in
    r_output r = OutStr (format_response out) /\
    (out = "No impact analysis action performed." -> db st' = db st) /\
    (out <> "No impact analysis action performed." ->
     exists doc, db st !! project_file name = Some doc /\
                 db st' = <[project_file name := <["code" := out]> doc]> (db st)).
Proof.
  apply agent_invoke_stage_inv in Hrun as (f & _ & Hk & Hdis).
  destruct Hstep as [Hs|Hs].
  - rewrite dispatch_stage6 in Hdis by congruence.
    apply some_response_ok_inv in Hdis as (r' & Hr & H). injection Hr as <-.
    unfold stage6 in H. cbv zeta in H.
    bind_inv H. pose proof (find_frontend_code_ok_inv _ _ _ _ Hm) as ->.
    step_inv H. destruct a as [[name code]|]; [|discriminate].
    apply find_frontend_code_some in Hm as [Htruthy Hfind].
    step_inv H. bind_inv H. apply ainvoke_ok_state in Hm as [Hagent ->].
    bind_inv H. rewrite Htruthy in Hm.
    eapply conditional_update_db in Hm as (_ & _ & Hsame & Hnew); [|reflexivity].
    step_inv H. apply ret_ok_inv in H as [-> ->]. cbn [db r_output] in *.
    eexists name, _, _, _, _.
    split; [exact Hfind|]. split; [exact Hagent|]. split; [reflexivity|]. split; assumption.
  - rewrite dispatch_stage7 in Hdis by congruence.
    apply some_response_ok_inv in Hdis as (r' & Hr & H). injection Hr as <-.
    unfold stage7 in H. cbv zeta in H.
    bind_inv H. pose proof (find_frontend_code_ok_inv _ _ _ _ Hm) as ->.
    step_inv H. destruct a as [[name code]|]; [|discriminate].
    apply find_frontend_code_some in Hm as [Htruthy Hfind].
    bind_inv H. apply ainvoke_ok_state in Hm as [Hagent ->].
    bind_inv H. rewrite Htruthy in Hm.
    eapply conditional_update_db in Hm as (_ & _ & Hsame & Hnew); [|reflexivity].
    step_inv H. apply ret_ok_inv in H as [-> ->]. cbn [db r_output] in *.
    eexists name, _, _, _, _.
    split; [exact Hfind|]. split; [exact Hagent|]. split; [reflexivity|]. split; assumption.
Qed.

Lemma review_stages_write_one_field_witness :
  let w := demo_world None in
  let request := demo_request (Some ["u"]) None in
  exists r st',
    agent_invoke w request (demo_state (Some 7%Z)) = (Ok (Some r), st') /\
    r_step r = 7%Z /\
    r_output r = OutStr "No impact analysis action performed." /\
    db st' = demo_db.
Proof.
  intros w request.
  destruct (agent_invoke w request (demo_state (Some 7%Z))) as [[[r|]|e] st'] eqn:E;
    try (vm_compute in E; discriminate).
  assert (Hstep : r_step r = 7%Z) by (vm_compute in E; injection E as <- _; reflexivity).
  assert (Hout : r_output r = OutStr "No impact analysis action performed.")
    by (vm_compute in E; injection E as <- _; reflexivity).
  exists r, st'. split; [reflexivity|]. split; [exact Hstep|]. split; [exact Hout|].
  destruct (review_stages_write_one_field w request _ _ r E (or_intror Hstep))
    as (name & tls & p & ctx & answer & _ & Hagent & _ & Hsame & _).
  injection Hagent as <-. apply Hsame. reflexivity.
Defined.

(** ** What each stage persists *)

Lemma dispatch_stage1 (w : World) (request : AgentInvokeRequest) (f : frame) :
  step (session_data f) = 1%Z ->
  dispatch w request f = some_response (stage1 w request f).
Proof. unfold dispatch. intros ->. reflexivity. Qed.

Lemma dispatch_stage5 (w : World) (request : AgentInvokeRequest) (f : frame) :
  step (session_data f) = 5%Z ->
  dispatch w request f = some_response (stage5 w request f).
Proof. unfold dispatch. intros ->. reflexivity. Qed.

Lemma dispatch_stage8 (w : World) (request : AgentInvokeRequest) (f : frame) :
  step (session_data f) = 8%Z ->
  dispatch w request f = some_response (stage8 w request f).
Proof. unfold dispatch. intros ->. reflexivity. Qed.

Lemma dispatch_stage9 (w : World) (request : AgentInvokeRequest) (f : frame) :
  step (session_data f) = 9%Z ->
  dispatch w request f = some_response (stage9 w request f).
Proof. unfold dispatch. intros ->. reflexivity. Qed.

(** The loop of stage 3, when it completes: one document per suggested
    file, each carrying [code]. *)
Lemma stage3_loop_ok (w : World) (code project_id : string) (paths : option (list string))
    (files : list string) :
  forall off st st' u,
    forM_ (fun '(index, file_name) =>
             let* file_path := subscript paths index in
             set_file w file_name code project_id (Some file_path))
          (imap (fun index file_name => (off + index, file_name)) files) st
    = (Ok u, st') ->
    writes_code code (db st) (db st') /\
    Forall (fun name => has_code code (project_file name) (db st')) files.
Proof.
  induction files as [|file_name files IH]; intros off st st' u H.
  - simpl in H. apply ret_ok_inv in H as [_ ->].
    split; [apply writes_code_refl | constructor].
  - rewrite imap_cons in H. cbn [forM_] in H.
    rewrite (imap_ext _ (fun index name => (S off + index, name))) in H
      by (intros; simpl; f_equal; lia).
    bind_inv H. bind_inv Hm. apply subscript_ok_inv in Hm0 as ->.
    rewrite set_file_eq in Hm. injection Hm as _ <-.
    apply IH in H as [Hw Hall]. cbn [db] in Hw. split.
    + eapply writes_code_trans; [|exact Hw]. apply writes_code_insert.
      exact (file_record_code file_name code project_id (now w (clock st)) (Some a0)).
    + constructor; [|exact Hall].
      eapply writes_code_has_code; [exact Hw|].
      eexists. rewrite lookup_insert_eq. split; [reflexivity|].
      exact (file_record_code file_name code project_id (now w (clock st)) (Some a0)).
Qed.

(** For each stage: the agent call, the response and the change to the
    document store of a completed run. *)
Section StageEffects.

Variable w : World.
Variable request : AgentInvokeRequest.
Variable f : frame.

Lemma stage1_effect (st st' : State) (r : response) :
  stage1 w request f st = (Ok r, st') ->
  exists p ctx answer,
    asked w f st st' p ctx answer /\ r_step r = 1%Z /\
    r_output r = OutStr (format_response (output_or (sentinel 1) answer)) /\
    exists stored, sets_file w request st st' "integrationStrategy.txt" stored.
Proof.
  unfold stage1. cbv zeta. intros H.
  bind_inv H. apply ainvoke_ok_state in Hm as [Hag ->].
  bind_inv H. rewrite set_file_eq in Hm. injection Hm as _ <-.
  step_inv H. apply ret_ok_inv in H as [-> ->].
  eexists _, _, _. split; [split; [exact Hag | reflexivity]|].
  split; [reflexivity|]. split; [reflexivity|]. eexists. reflexivity.
Qed.

Lemma stage2_effect (st st' : State) (r : response) :
  stage2 w request f st = (Ok r, st') ->
  exists p ctx answer,
    asked w f st st' p ctx answer /\ r_step r = 2%Z /\
    r_output r = OutStr (format_response (output_or (sentinel 2) answer)) /\
    exists files,
      suggested_files request = Some files /\
      sets_file w request st st' (default "app.py" (List.find (PyStr.ends_with ".py") files))
        (format_response (output_or (sentinel 2) answer)).
Proof.
  unfold stage2. cbv zeta. intros H.
  do 2 step_inv H.
  bind_inv H. apply ainvoke_ok_state in Hm as [Hag ->].
  step_inv H. bind_inv H.
  assert (Hdb : db st0 =
                <[project_file (default "app.py" (find (PyStr.ends_with ".py") a2)) :=
                    file_record (default "app.py" (find (PyStr.ends_with ".py") a2))
                      (format_response (output_or "No backend endpoint action performed." a1))
                      (project request) (now w (clock st)) None]> (db st) /\
                agent_calls st0 = agent_calls
                  {| session_store := session_store st; db := db st; clock := clock st;
                     agent_calls := prompt2 (capabilities_routeName (caps f)) a
                                      (capabilities_endPoints (caps f)) a0 :: agent_calls st |}).
  { destruct (find (PyStr.ends_with ".py") a2); rewrite set_file_eq in Hm;
      injection Hm as _ <-; split; reflexivity. }
  destruct Hdb as [Hdb Hcalls].
  step_inv H. apply ret_ok_inv in H as [-> ->].
  eexists _, _, _. split; [split; [exact Hag | exact Hcalls]|].
  split; [reflexivity|]. split; [reflexivity|].
  exists a2. split; [assumption | exact Hdb].
Qed.

Lemma stage3_effect (st st' : State) (r : response) :
  stage3 w request f st = (Ok r, st') ->
  exists p ctx answer,
    asked w f st st' p ctx answer /\ r_step r = 3%Z /\
    r_output r = OutStr (format_response (output_or (sentinel 3) answer)) /\
    exists files,
      suggested_files request = Some files /\
      Forall (fun name => has_code (format_response (output_or (sentinel 3) answer))
                            (project_file name) (db st')) files /\
      writes_code (format_response (output_or (sentinel 3) answer)) (db st) (db st').
Proof.
  unfold stage3. cbv zeta. intros H.
  do 3 step_inv H.
  bind_inv H. apply ainvoke_ok_state in Hm as [Hag ->].
  step_inv H. bind_inv H.
  pose proof Hm as Hloop.
  eapply (forM_step (format_response (output_or (sentinel 3) a2))) in Hm.
  2:{ intros [index file_name] s s' u Hb. bind_inv Hb.
      apply subscript_ok_inv in Hm0 as ->.
      apply set_file_step in Hb as [Hb _]. exact Hb. }
  destruct Hm as (_ & Hcalls & _).
  apply (stage3_loop_ok w _ _ _ _ 0) in Hloop as [Hw Hall].
  step_inv H. apply ret_ok_inv in H as [-> ->].
  eexists _, _, _. split; [split; [exact Hag | exact Hcalls]|].
  split; [reflexivity|]. split; [reflexivity|].
  exists a3. split; [assumption|]. split; [exact Hall | exact Hw].
Qed.

Lemma stage4_effect (st st' : State) (r : response) :
  stage4 w request f st = (Ok r, st') ->
  exists p ctx answer,
    asked w f st st' p ctx answer /\ r_step r = 4%Z /\
    r_output r = OutStr (format_response (output_or (sentinel 4) answer)) /\
    exists files,
      suggested_files request = Some files /\
      Forall (fun name => has_code (format_response (output_or (sentinel 4) answer))
                            (project_file name) (db st')) files /\
      code_update (format_response (output_or (sentinel 4) answer)) (db st) (db st').
Proof.
  unfold stage4. cbv zeta. intros H.
  do 4 step_inv H.
  bind_inv H. apply ainvoke_ok_state in Hm as [Hag ->].
  step_inv H. bind_inv H.
  pose proof Hm as Hloop.
  eapply (forM_step (format_response (output_or (sentinel 4) a3))) in Hm.
  2:{ intros file_name s s' u Hb. eapply doc_update_step, Hb. }
  destruct Hm as (_ & Hcalls & _).
  apply stage4_loop in Hloop as [Hu Hall].
  step_inv H. apply ret_ok_inv in H as [-> ->].
  eexists _, _, _. split; [split; [exact Hag | exact Hcalls]|].
  split; [reflexivity|]. split; [reflexivity|].
  exists a4. split; [assumption|]. split; [exact Hall | exact Hu].
Qed.

Lemma stage5_effect (st st' : State) (r : response) :
  stage5 w request f st = (Ok r, st') ->
  exists p ctx answer,
    asked w f st st' p ctx answer /\ r_step r = 5%Z /\
    r_output r = OutStr (format_response (output_or (sentinel 5) answer)) /\
    exists stored, sets_file w request st st' "integration_tests.py" stored.
Proof.
  unfold stage5. cbv zeta. intros H.
  bind_inv H. apply ainvoke_ok_state in Hm as [Hag ->].
  bind_inv H. rewrite set_file_eq in Hm. injection Hm as _ <-.
  step_inv H. apply ret_ok_inv in H as [-> ->].
  eexists _, _, _. split; [split; [exact Hag | reflexivity]|].
  split; [reflexivity|]. split; [reflexivity|]. eexists. reflexivity.
Qed.

Lemma stage6_effect (st st' : State) (r : response) :
  stage6 w request f st = (Ok r, st') ->
  exists p ctx answer,
    asked w f st st' p ctx answer /\ r_step r = 6%Z /\
    r_output r = OutStr (format_response (output_or (sentinel 6) answer)) /\
    updates_frontend_file request (sentinel 6) (output_or (sentinel 6) answer) (db st) (db st').
Proof.
  unfold stage6. cbv zeta. intros H.
  bind_inv H. pose proof (find_frontend_code_ok_inv _ _ _ _ Hm) as ->.
  step_inv H. destruct a as [[name code]|]; [|discriminate].
  apply find_frontend_code_some in Hm as [Htruthy Hfind].
  step_inv H. bind_inv H. apply ainvoke_ok_state in Hm as [Hag ->].
  bind_inv H. rewrite Htruthy in Hm.
  eapply conditional_update_db in Hm as (_ & Hcalls & Hsame & Hnew); [|reflexivity].
  step_inv H. apply ret_ok_inv in H as [-> ->]. cbn [db r_output agent_calls] in *.
  eexists _, _, _. split; [split; [exact Hag | exact Hcalls]|].
  split; [reflexivity|]. split; [reflexivity|].
  exists name. split; [exact Hfind|]. split; [exact Hsame|].
  intros Hne. destruct (Hnew Hne) as (doc & Hdoc & Hdb). eauto.
Qed.

Lemma stage7_effect (st st' : State) (r : response) :
  stage7 w request f st = (Ok r, st') ->
  exists p ctx answer,
    asked w f st st' p ctx answer /\ r_step r = 7%Z /\
    r_output r = OutStr (format_response (output_or (sentinel 7) answer)) /\
    updates_frontend_file request (sentinel 7) (output_or (sentinel 7) answer) (db st) (db st').
Proof.
  unfold stage7. cbv zeta. intros H.
  bind_inv H. pose proof (find_frontend_code_ok_inv _ _ _ _ Hm) as ->.
  step_inv H. destruct a as [[name code]|]; [|discriminate].
  apply find_frontend_code_some in Hm as [Htruthy Hfind].
  bind_inv H. apply ainvoke_ok_state in Hm as [Hag ->].
  bind_inv H. rewrite Htruthy in Hm.
  eapply conditional_update_db in Hm as (_ & Hcalls & Hsame & Hnew); [|reflexivity].
  step_inv H. apply ret_ok_inv in H as [-> ->]. cbn [db r_output agent_calls] in *.
  eexists _, _, _. split; [split; [exact Hag | exact Hcalls]|].
  split; [reflexivity|]. split; [reflexivity|].
  exists name. split; [exact Hfind|]. split; [exact Hsame|].
  intros Hne. destruct (Hnew Hne) as (doc & Hdoc & Hdb). eauto.
Qed.

Lemma stage8_effect (st st' : State) (r : response) :
  stage8 w request f st = (Ok r, st') ->
  exists p ctx answer,
    asked w f st st' p ctx answer /\ r_step r = 8%Z /\
    r_output r = OutStr (format_response (output_or (sentinel 8) answer)) /\
    exists stored,
      sets_file w request st st' (documentation_file_name (capabilities_endPoints (caps f))) stored.
Proof.
  unfold stage8. cbv zeta. intros H.
  bind_inv H. apply ainvoke_ok_state in Hm as [Hag ->].
  bind_inv H. rewrite set_file_eq in Hm. injection Hm as _ <-.
  step_inv H. apply ret_ok_inv in H as [-> ->].
  eexists _, _, _. split; [split; [exact Hag | reflexivity]|].
  split; [reflexivity|]. split; [reflexivity|]. eexists. reflexivity.
Qed.

Lemma stage9_effect (st st' : State) (r : response) :
  stage9 w request f st = (Ok r, st') ->
  exists p ctx answer,
    asked w f st st' p ctx answer /\ r_step r = 9%Z /\
    r_output r = OutList (PyStr.split_on PyStr.nl_char (output_or (sentinel 9) answer)) /\
    db st' = db st.
Proof.
  unfold stage9. cbv zeta. intros H.
  bind_inv H. apply ainvoke_ok_state in Hm as [Hag ->].
  step_inv H. apply ret_ok_inv in H as [-> ->].
  eexists _, _, _. split; [split; [exact Hag | reflexivity]|].
  split; [reflexivity|]. split; reflexivity.
Qed.

End StageEffects.

(** C4, amended. A completed stage [k], 1 to 9, has invoked the agent once
    and taken its output [out] (the stage's fixed text when there is none).
    Stages 1 to 8 return the fence-stripped [out]; stage 9 returns the lines
    of the unstripped [out] and persists nothing.  Stage 2 persists the
    stripped text as exactly one artifact, named after the first suggested
    file ending in [.py], or [app.py].  Stage 3 persists the stripped text as
    one artifact per suggested file, and every document it changed carries
    that text.  Stage 4 sets the code of the existing artifact of every
    suggested file to the stripped text, creating and removing nothing and
    changing no other field.  Stages 1, 5 and 8 each persist exactly one
    artifact, named [integrationStrategy.txt], [integration_tests.py] and
    after the first capability end point.  Stages 6 and 7 work on the first
    suggested file ending in [.js]: nothing is persisted when [out] is the
    stage's fixed text, otherwise the one change is the code field of that
    file's existing artifact.  Which text stages 1, 5, 6, 7 and 8 store is
    left open. *)
Theorem stage_output_and_persistence (w : World) (request : AgentInvokeRequest)
    (st st' : State) (r : response)
    (Hrun : agent_invoke w request st = (Ok (Some r), st')) :
  exists f p ctx answer,
    preamble w request st = (Ok f, st) /\
    asked w f st st' p ctx answer /\
    let k := r_step r in
    let out := output_or (sentinel k) answer in
    let code := format_response out in
    (1 <= k <= 9)%Z /\
    (k <> 9%Z -> r_output r = OutStr code) /\
    (k = 9%Z ->
     r_output r = OutList (PyStr.split_on PyStr.nl_char out) /\ db st' = db st) /\
    (k = 1%Z -> exists stored, sets_file w request st st' "integrationStrategy.txt" stored) /\
    (k = 2%Z ->
     exists files,
       suggested_files request = Some files /\
       sets_file w request st st'
         (default "app.py" (List.find (PyStr.ends_with ".py") files)) code) /\
    (k = 3%Z ->
     exists files,
       suggested_files request = Some files /\
       Forall (fun name => has_code code (project_file name) (db st')) files /\
       writes_code code (db st) (db st')) /\
    (k = 4%Z ->
     exists files,
       suggested_files request = Some files /\
       Forall (fun name => has_code code (project_file name) (db st')) files /\
       code_update code (db st) (db st')) /\
    (k = 5%Z -> exists stored, sets_file w request st st' "integration_tests.py" stored) /\
    (k = 6%Z \/ k = 7%Z ->
     updates_frontend_file request (sentinel k) out (db st) (db st')) /\
    (k = 8%Z ->
     exists stored,
       sets_file w request st st'
         (documentation_file_name (capabilities_endPoints (caps f))) stored).
Proof.
  apply agent_invoke_stage_inv in Hrun as (f & Hpre & Hk & Hdis).
  pose proof (dispatch_ok_inv _ _ _ _ _ _ Hdis) as (Hrange & _ & _).
  exists f.
  assert (Hcases : (step (session_data f) = 1 \/ step (session_data f) = 2 \/
                    step (session_data f) = 3 \/ step (session_data f) = 4 \/
                    step (session_data f) = 5 \/ step (session_data f) = 6 \/
                    step (session_data f) = 7 \/ step (session_data f) = 8 \/
                    step (session_data f) = 9)%Z) by lia.
  destruct Hcases as [E|[E|[E|[E|[E|[E|[E|[E|E]]]]]]]];
    [ rewrite (dispatch_stage1 _ _ _ E) in Hdis
    | rewrite (dispatch_stage2 _ _ _ E) in Hdis
    | rewrite (dispatch_stage3 _ _ _ E) in Hdis
    | rewrite (dispatch_stage4 _ _ _ E) in Hdis
    | rewrite (dispatch_stage5 _ _ _ E) in Hdis
    | rewrite (dispatch_stage6 _ _ _ E) in Hdis
    | rewrite (dispatch_stage7 _ _ _ E) in Hdis
    | rewrite (dispatch_stage8 _ _ _ E) in Hdis
    | rewrite (dispatch_stage9 _ _ _ E) in Hdis ];
    apply some_response_ok_inv in Hdis as (r' & Hr & H); injection Hr as <-;
    [ apply stage1_effect in H | apply stage2_effect in H | apply stage3_effect in H
    | apply stage4_effect in H | apply stage5_effect in H | apply stage6_effect in H
    | apply stage7_effect in H | apply stage8_effect in H | apply stage9_effect in H ];
    destruct H as (p & ctx & answer & Hasked & Hstep & Hout & Hdb);
    exists p, ctx, answer; (split; [exact Hpre|]); (split; [exact Hasked|]);
    rewrite Hstep; cbv zeta;
    do 9 (split; [first [ lia | solve [intros; exfalso; lia]
                        | solve [intros _; first [exact Hout | exact Hdb | split; assumption]] ]|]);
    first [ solve [intros; exfalso; lia] | intros _; exact Hdb ].
Qed.

Lemma stage_output_and_persistence_witness :
  let w := demo_world (Some fenced_answer) in
  let request := demo_request (Some []) (Some ["capabilities/search"]) in
  exists r st',
    agent_invoke w request (demo_state None) = (Ok (Some r), st') /\
    r_step r = 2%Z /\
    r_output r = OutStr (format_response fenced_answer) /\
    db st' = <[project_file "app.py" :=
                 file_record "app.py" (format_response fenced_answer) "p1"
                   "2024-01-01T00:00:00" None]> demo_db.
Proof.
  intros w request.
  destruct (agent_invoke w request (demo_state None)) as [[[r|]|e] st'] eqn:E;
    try (vm_compute in E; discriminate).
  assert (Hstep : r_step r = 2%Z) by (vm_compute in E; injection E as <- _; reflexivity).
  exists r, st'. split; [reflexivity|]. split; [exact Hstep|].
  destruct (stage_output_and_persistence w request _ _ _ E)
    as (f & p & ctx & answer & _ & [Hagent _] & _ & Hout & _ & _ & Hdb & _).
  injection Hagent as <-. rewrite Hstep in Hout, Hdb.
  split; [apply Hout; discriminate|].
  destruct (Hdb eq_refl) as (files & Hfiles & Hset). injection Hfiles as <-. exact Hset.
Defined.
